(** * Lang_Agent: hybrid retrieval orchestration and similarity cache

  A shallow embedding of the Python sources

    - app/tools/graph_tool.py       (graph retriever and its static fallback table)
    - app/db/neo4j_connector.py     (query execution)
    - app/tools/internet_tool.py    (web retriever, similarity cache)
    - app/agents/nodes.py           (router, analyzer, search steps, guard)
    - app/agents/langgraph_agent.py (the two-node workflow and process_query)
    - app/routes/agent.py           (request model and HTTP endpoint)
    - app/middleware/auth.py        (credential and role checks)

  Python values are dynamically typed, so dictionaries are [gmap string PyVal],
  exceptions are an explicit [Raised] outcome, and module-level singletons
  (the similarity cache, the log) live in a [World] that every effectful
  function threads.  Floats are modelled by exact rationals, strings by
  sequences of code points below 256. *)

From Stdlib Require Import ZArith QArith Qminmax Qround String Ascii List Bool Lia Lqa.
From Stdlib Require Import Sorting.Sorted.
From stdpp Require Import gmap strings list pretty.

Set Warnings "-register-all".
Open Scope Z_scope.

(** ** Python strings *)

Module PyStr.

(** A character is a code point below 256.  [str.lower()] on one of them:
    the letters A-Z, and the accented capitals U+00C0 to U+00DE without the
    multiplication sign U+00D7, move up by 32. *)
Definition lower_ascii (c : ascii) : ascii :=
  let n := nat_of_ascii c in
  if (((65 <=? n) && (n <=? 90))
      || ((192 <=? n) && (n <=? 222) && negb (n =? 215)))%nat
  then ascii_of_nat (n + 32) else c.

Fixpoint lower (s : string) : string :=
  match s with
  | EmptyString => EmptyString
  | String c s' => String (lower_ascii c) (lower s')
  end.

(** [needle in hay] for two strings. *)
Fixpoint contains (needle hay : string) : bool :=
  String.prefix needle hay
  || match hay with
     | EmptyString => false
     | String _ hay' => contains needle hay'
     end.

(** The characters [str.split()] and [str.strip()] treat as blank: among the
    code points below 256 these are the space, U+0009 to U+000D, U+001C to
    U+001F, the next-line control U+0085 and the no-break space U+00A0. *)
Definition is_space (c : ascii) : bool :=
  let n := nat_of_ascii c in
  ((n =? 32) || ((9 <=? n) && (n <=? 13)) || ((28 <=? n) && (n <=? 31))
   || (n =? 133) || (n =? 160))%nat.

Definition is_empty (s : string) : bool :=
  match s with EmptyString => true | _ => false end.

(** [s.split()]: maximal runs of non-blank characters. *)
Fixpoint split_aux (s cur : string) : list string :=
  match s with
  | EmptyString => if is_empty cur then [] else [cur]
  | String c s' =>
      if is_space c
      then (if is_empty cur then split_aux s' "" else cur :: split_aux s' "")
      else split_aux s' (cur +:+ String c "")
  end.

Definition split (s : string) : list string := split_aux s "".

Fixpoint lstrip (s : string) : string :=
  match s with
  | String c s' => if is_space c then lstrip s' else s
  | EmptyString => EmptyString
  end.

Fixpoint rstrip (s : string) : string :=
  match s with
  | EmptyString => EmptyString
  | String c s' =>
      let r := rstrip s' in
      if is_empty r && is_space c then EmptyString else String c r
  end.

(** [s.strip()] *)
Definition strip (s : string) : string := rstrip (lstrip s).

(** [sep.join(parts)] *)
Fixpoint join (sep : string) (parts : list string) : string :=
  match parts with
  | [] => ""
  | [p] => p
  | p :: rest => p +:+ sep +:+ join sep rest
  end.

(** [s[:n]] for a non-negative literal [n]. *)
Fixpoint take (n : nat) (s : string) : string :=
  match n, s with
  | S n', String c s' => String c (take n' s')
  | _, _ => EmptyString
  end.

(** [any(k in s for k in keys)] *)
Definition any_in (keys : list string) (s : string) : bool :=
  existsb (fun k => contains k s) keys.

End PyStr.

(** ** Python values *)

Inductive PyVal :=
| VNone
| VBool (b : bool)
| VInt (z : Z)
| VFloat (q : Q)
| VStr (s : string)
| VList (l : list PyVal)
| VDict (d : gmap string PyVal).

(** A retrieved document is a Python dict. *)
Abbreviation Doc := (gmap string PyVal).

(** Truthiness, as tested by [if x], [not x], [x and y], [x or y]. *)
Definition truthy (v : PyVal) : bool :=
  match v with
  | VNone => false
  | VBool b => b
  | VInt z => negb (z =? 0)
  | VFloat q => negb (Qeq_bool q 0)
  | VStr s => negb (PyStr.is_empty s)
  | VList l => match l with [] => false | _ => true end
  | VDict d => match map_to_list d with [] => false | _ => true end
  end.

(** [d.get(key, dflt)] *)
Definition dict_get (d : gmap string PyVal) (key : string) (dflt : PyVal) : PyVal :=
  default dflt (d !! key).

(** An integer operand: [bool] is a subclass of [int]. *)
Definition as_int (v : PyVal) : option Z :=
  match v with
  | VInt z => Some z
  | VBool b => Some (if b then 1 else 0)
  | _ => None
  end.

(** [v == s] against a string literal. *)
Definition eq_str (v : PyVal) (s : string) : bool :=
  match v with
  | VStr t => String.eqb t s
  | _ => false
  end.

Definition docs_val (ds : list Doc) : PyVal := VList (map VDict ds).

(** ** Outcomes and the effect monad *)

(** A call either returns a value or raises an exception carrying [str(e)]. *)
Inductive outcome (A : Type) :=
| Returned (a : A)
| Raised (msg : string).
Arguments Returned {A} a.
Arguments Raised {A} msg.

Definition is_returned {A} (o : outcome A) : bool :=
  match o with Returned _ => true | Raised _ => false end.

(** Sequencing of pure calls that may raise: the first exception wins. *)
Definition and_then {A B} (o : outcome A) (f : A -> outcome B) : outcome B :=
  match o with
  | Returned a => f a
  | Raised e => Raised e
  end.

(** A comprehension, or a loop that appends: [f] on each element in order,
    stopping at the first exception. *)
Fixpoint map_outcome {A B} (f : A -> outcome B) (l : list A) : outcome (list B) :=
  match l with
  | [] => Returned []
  | a :: l' =>
      and_then (f a) (fun b =>
      and_then (map_outcome f l') (fun bs =>
      Returned (b :: bs)))
  end.

(** [l[:z]] for an integer bound: a negative bound counts from the end. *)
Definition slice_to {A} (l : list A) (z : Z) : list A :=
  if 0 <=? z then firstn (Z.to_nat z) l
  else firstn (length l - Z.to_nat (- z)) l.

(** [l[:n]] for an arbitrary bound value. *)
Definition py_slice_to {A} (l : list A) (n : PyVal) : outcome (list A) :=
  match n with
  | VNone => Returned l
  | VInt z => Returned (slice_to l z)
  | VBool b => Returned (slice_to l (if b then 1 else 0))
  | _ => Raised "slice indices must be integers or None or have an __index__ method"
  end.

(** [l[i]] with Python's negative indexing. *)
Definition py_index {A} (l : list A) (i : Z) : outcome A :=
  let j := if 0 <=? i then i else Z.of_nat (length l) + i in
  if j <? 0 then Raised "list index out of range"
  else match nth_error l (Z.to_nat j) with
       | Some a => Returned a
       | None => Raised "list index out of range"
       end.

(** Python code mutates objects in place and may raise at any point, so a
    computation is a state transformer whose state survives an exception. *)
Definition M (S A : Type) : Type := S -> outcome A * S.

#[global] Instance M_ret {S} : MRet (M S) := fun A a s => (Returned a, s).

#[global] Instance M_bind {S} : MBind (M S) := fun A B f c s =>
  match c s with
  | (Returned a, s') => f a s'
  | (Raised e, s') => (Raised e, s')
  end.

Definition raise {S A} (e : string) : M S A := fun s => (Raised e, s).

Definition gets {S A} (f : S -> A) : M S A := fun s => (Returned (f s), s).

Definition modify {S} (f : S -> S) : M S unit := fun s => (Returned tt, f s).

(** Lift a pure call that may raise. *)
Definition of_outcome {S A} (o : outcome A) : M S A := fun s => (o, s).

(** [try: body  except Exception as e: handler(str(e))] *)
Definition try_except {S A} (body : M S A) (handler : string -> M S A) : M S A :=
  fun s =>
    match body s with
    | (Returned a, s') => (Returned a, s')
    | (Raised e, s') => handler e s'
    end.

(** [for x in xs: body(x)] *)
Fixpoint for_each {S A} (xs : list A) (body : A -> M S unit) : M S unit :=
  match xs with
  | [] => mret tt
  | x :: xs' => body x;; for_each xs' body
  end.

(** ** Process-wide state *)

(** [faiss.IndexFlatL2]: an exact index over vectors of one dimension. *)
Record Index := { ix_dim : nat; ix_vecs : list (list Q) }.

(** The similarity cache held by the [InternetSearchTool] singleton. *)
Record Cache := { vector_store : option Index; documents : list Doc }.

Record LogEntry := { ev_type : string; ev_message : string; ev_level : string }.

(** What the tools can reach: the cache, its pickle file, and the log. *)
Record Backend := {
  b_cache : Cache;
  b_disk : option Cache;
  b_log : list LogEntry
}.

Definition set_cache (c : Cache) (b : Backend) : Backend :=
  {| b_cache := c; b_disk := b_disk b; b_log := b_log b |}.

Definition set_disk (d : option Cache) (b : Backend) : Backend :=
  {| b_cache := b_cache b; b_disk := d; b_log := b_log b |}.

(** [log_event(event_type, message, level="info")] *)
Definition log_event (event_type message level : string) : M Backend unit :=
  modify (fun b =>
    {| b_cache := b_cache b; b_disk := b_disk b;
       b_log := b_log b ++ [{| ev_type := event_type; ev_message := message;
                               ev_level := level |}] |}).

Definition mk_dict (l : list (string * PyVal)) : gmap string PyVal := list_to_map l.

(** ** app/tools/graph_tool.py *)

Module GraphTool.

Definition kb_ai : Doc := mk_dict [
  ("type", VStr "graph");
  ("title", VStr "Artificial Intelligence");
  ("content", VStr "Field of computer science focused on creating intelligent machines that can learn, reason, and solve problems. Includes subfields like machine learning, natural language processing, and computer vision.");
  ("reference", VStr "graph:fallback:ai001");
  ("confidence", VFloat 0.85);
  ("category", VStr "technology")].

Definition kb_machine_learning : Doc := mk_dict [
  ("type", VStr "graph");
  ("title", VStr "Machine Learning");
  ("content", VStr "Subset of AI that uses statistical techniques to enable computers to learn and improve from experience without explicit programming. Common approaches include supervised learning, unsupervised learning, and reinforcement learning.");
  ("reference", VStr "graph:fallback:ml001");
  ("confidence", VFloat 0.82);
  ("category", VStr "technology")].

Definition kb_deep_learning : Doc := mk_dict [
  ("type", VStr "graph");
  ("title", VStr "Deep Learning");
  ("content", VStr "Type of machine learning using neural networks with multiple layers to model complex patterns in large amounts of data. Particularly effective for image recognition, speech recognition, and natural language processing.");
  ("reference", VStr "graph:fallback:dl001");
  ("confidence", VFloat 0.80);
  ("category", VStr "technology")].

Definition kb_nlp : Doc := mk_dict [
  ("type", VStr "graph");
  ("title", VStr "Natural Language Processing");
  ("content", VStr "Branch of AI that helps computers understand, interpret, and manipulate human language. Applications include chatbots, translation, and sentiment analysis.");
  ("reference", VStr "graph:fallback:nlp001");
  ("confidence", VFloat 0.78);
  ("category", VStr "technology")].

Definition kb_computer_vision : Doc := mk_dict [
  ("type", VStr "graph");
  ("title", VStr "Computer Vision");
  ("content", VStr "Field of AI that enables computers to interpret and understand the visual world from digital images or videos. Used in facial recognition, autonomous vehicles, and medical imaging.");
  ("reference", VStr "graph:fallback:cv001");
  ("confidence", VFloat 0.77);
  ("category", VStr "technology")].

Definition kb_neural_networks : Doc := mk_dict [
  ("type", VStr "graph");
  ("title", VStr "Neural Networks");
  ("content", VStr "Computing systems inspired by biological neural networks. Consist of interconnected nodes (neurons) that process information and learn patterns.");
  ("reference", VStr "graph:fallback:nn001");
  ("confidence", VFloat 0.79);
  ("category", VStr "technology")].

(** The dict literal, in insertion order (the order [.items()] iterates in). *)
Definition fallback_knowledge_base : list (string * Doc) := [
  ("ai", kb_ai);
  ("machine learning", kb_machine_learning);
  ("deep learning", kb_deep_learning);
  ("natural language processing", kb_nlp);
  ("computer vision", kb_computer_vision);
  ("neural networks", kb_neural_networks)].

Definition ai_terms : list string :=
  ["ai"; "artificial"; "intelligence"; "machine"; "learning"].

(** First loop: [if key in query_lower: relevant_data.append(value)]. *)
Definition exact_pass (query_lower : string) (relevant_data : list Doc) : list Doc :=
  fold_left
    (fun acc kv => if PyStr.contains (fst kv) query_lower then acc ++ [snd kv] else acc)
    fallback_knowledge_base relevant_data.

(** Second loop: [if any(word in query_lower for word in key.split())]. *)
Definition token_pass (query_lower : string) (relevant_data : list Doc) : list Doc :=
  fold_left
    (fun acc kv =>
       if PyStr.any_in (PyStr.split (fst kv)) query_lower then acc ++ [snd kv] else acc)
    fallback_knowledge_base relevant_data.

Definition is_nil {A} (l : list A) : bool :=
  match l with [] => true | _ => false end.

(** The selection made by [_get_fallback_graph_data], before truncation. *)
Definition select_relevant (query : string) : list Doc :=
  let query_lower := PyStr.lower query in
  let relevant_data := exact_pass query_lower [] in
  let relevant_data :=
    if is_nil relevant_data then token_pass query_lower relevant_data
    else relevant_data in
  let relevant_data :=
    if is_nil relevant_data && PyStr.any_in ai_terms query_lower
    then [kb_ai; kb_machine_learning; kb_deep_learning]
    else relevant_data in
  relevant_data.

Definition _get_fallback_graph_data (query : string) (max_results : PyVal)
  : M Backend (list Doc) :=
  let relevant_data := select_relevant query in
  result ← of_outcome
    (if is_nil relevant_data
     then py_slice_to (map snd fallback_knowledge_base) max_results
     else py_slice_to relevant_data max_results);
  log_event "GRAPH_FALLBACK"
    ("Using fallback graph data: " +:+ pretty (length result)
       +:+ " results for: " +:+ query) "info";;
  mret result.

End GraphTool.

(** ** External collaborators

    The graph database driver, the web-search client, the embedding model and
    the text generator are not part of the sources; they are oracles that
    return a value or raise. *)

(** A column of a result row, which is a dict: the key is missing, or it
    holds [None] (a null of the database), or it holds a value. *)
Inductive Column (A : Type) :=
| Missing
| Null
| Value (a : A).
Arguments Missing {A}.
Arguments Null {A}.
Arguments Value {A} a.

(** [row[key]]: a [KeyError] for a missing key, [None] for a null. *)
Definition py_item {A} (key : string) (c : Column A) : outcome (option A) :=
  match c with
  | Missing => Raised ("'" +:+ key +:+ "'")
  | Null => Returned None
  | Value a => Returned (Some a)
  end.

(** [row.get(key, dflt)]: the default stands in for a missing key only, a
    null comes back as [None]. *)
Definition py_get {A} (dflt : A) (c : Column A) : option A :=
  match c with
  | Missing => Some dflt
  | Null => None
  | Value a => Some a
  end.

(** [float(x)] for a number or [None]. *)
Definition py_float (x : option Q) : outcome Q :=
  match x with
  | Some q => Returned q
  | None => Raised "float() argument must be a string or a real number, not 'NoneType'"
  end.

(** A string or [None] as a value, and as an f-string prints it. *)
Definition str_val (x : option string) : PyVal :=
  match x with Some s => VStr s | None => VNone end.

Definition str_fmt (x : option string) : string :=
  match x with Some s => s | None => "None" end.

(** A row of the Cypher query of [search_knowledge_graph]; a relationship is
    the map the query collects, as (relation, target). *)
Record Neo4jRow := {
  r_title : Column string;
  r_summary : Column string;
  r_category : Column string;
  r_confidence : Column Q;
  r_node_id : Column string;
  r_relationships : Column (list (Column string * Column string))
}.

(** An entry of the [results] list of a Tavily response. *)
Record TavilyItem := {
  it_title : option string;
  it_content : option string;
  it_url : option string;
  it_score : option Q;
  it_published_date : option string
}.

(** What [_parse_response] yields for a generation call. *)
Record ParsedResponse := {
  pr_answer : PyVal;
  pr_key_points : PyVal;
  pr_summary : PyVal
}.

Record Env := {
  (** [neo4j.connected], probed once at start-up *)
  neo4j_connected : bool;
  (** [neo4j.driver] with [session.run(query, parameters)], if there is one *)
  neo4j_driver : option (string -> PyVal -> outcome (list Neo4jRow));
  (** [TavilyClient.search(query, max_results, search_depth)] when an API key
      is configured ([tavily_available]) *)
  tavily : option (string -> PyVal -> string -> outcome (list TavilyItem));
  (** [embedding_model.encode([text])], as one row of rationals *)
  encode : string -> outcome (list Q);
  (** [str(v)] as used by f-strings on a value that is not a string *)
  py_str : PyVal -> string;
  (** whether [open("vector_store/faiss_index.pkl", "wb")] succeeds *)
  disk_writable : bool;
  (** [self.llm]: prompt construction, [invoke] and [_parse_response] *)
  llm : option (string -> list Doc -> outcome ParsedResponse);
  (** [app.utils.formatters], imported by the agents but not among the sources *)
  format_sources : list Doc -> outcome (list (gmap string PyVal));
  create_structured_output :
    string -> list (gmap string PyVal) -> list string -> outcome (gmap string PyVal)
}.

(** ** faiss.IndexFlatL2 *)

Module Faiss.

Definition IndexFlatL2 (dimension : nat) : Index :=
  {| ix_dim := dimension; ix_vecs := [] |}.

Definition ntotal (ix : Index) : nat := length (ix_vecs ix).

(** [index.add(x)] for one row [x]. *)
Definition add (ix : Index) (x : list Q) : outcome Index :=
  if (length x =? ix_dim ix)%nat
  then Returned {| ix_dim := ix_dim ix; ix_vecs := ix_vecs ix ++ [x] |}
  else Raised "".

(** Squared Euclidean distance. *)
Fixpoint l2 (u v : list Q) : Q :=
  match u, v with
  | a :: u', b :: v' => ((a - b) * (a - b) + l2 u' v')%Q
  | _, _ => 0%Q
  end.

Fixpoint insert_sorted (x : Z * Q) (l : list (Z * Q)) : list (Z * Q) :=
  match l with
  | [] => [x]
  | y :: l' => if Qle_bool (snd x) (snd y) then x :: l else y :: insert_sorted x l'
  end.

Definition sort_by_distance (l : list (Z * Q)) : list (Z * Q) :=
  fold_right insert_sorted [] l.

Fixpoint enumerate_from {A} (i : Z) (l : list A) : list (Z * A) :=
  match l with
  | [] => []
  | a :: l' => (i, a) :: enumerate_from (i + 1) l'
  end.

(** The largest finite float32, the distance reported for a missing neighbour. *)
Definition FLT_MAX : Q := inject_Z 340282346638528859811704183484516925440.

(** [index.search(x, k)] for one query row: the [k] nearest stored vectors as
    (label, distance), nearest first, padded with label [-1] when the index
    holds fewer than [k] vectors. *)
Definition search (ix : Index) (x : list Q) (k : Z) : outcome (list (Z * Q)) :=
  if negb (length x =? ix_dim ix)%nat then Raised ""
  else if k <=? 0 then Raised ""
  else
    let scored :=
      map (fun iv => (fst iv, l2 x (snd iv))) (enumerate_from 0 (ix_vecs ix)) in
    let nearest := firstn (Z.to_nat k) (sort_by_distance scored) in
    Returned (nearest ++ repeat (-1, FLT_MAX) (Z.to_nat k - length nearest)).

End Faiss.

(** Python's [max(0.1, x)] and [min(c, x)] on floats: the first argument wins
    ties. *)
Definition py_max (a b : Q) : Q := if Qle_bool b a then a else b.
Definition py_min (a b : Q) : Q := if Qle_bool a b then a else b.

Definition opt_str (dflt : string) (o : option string) : string := default dflt o.

Section Tools.

Variable env : Env.

(** ** app/db/neo4j_connector.py *)

(** [neo4j.execute_query]: an empty list when disconnected or on any error. *)
Definition execute_query (query : string) (max_results : PyVal)
  : M Backend (list Neo4jRow) :=
  match neo4j_driver env with
  | Some run =>
      if negb (neo4j_connected env) then mret []
      else match run query max_results with
           | Returned rows => mret rows
           | Raised e =>
               log_event "NEO4J_QUERY_ERROR" ("Query failed: " +:+ e) "error";;
               mret []
           end
  | None => mret []
  end.

(** ** app/tools/graph_tool.py, [search_knowledge_graph] *)

(** A relationship map as the value it is. *)
Definition relationship_val (rel : Column string * Column string) : PyVal :=
  let entry key (c : Column string) :=
    match c with
    | Missing => []
    | Null => [(key, VNone)]
    | Value s => [(key, VStr s)]
    end in
  VDict (mk_dict (entry "relation" (fst rel) ++ entry "target" (snd rel))).

(** [f"{rel['target']} ({rel['relation']})"] *)
Definition relationship_text (rel : Column string * Column string) : outcome string :=
  and_then (py_item "target" (snd rel)) (fun target =>
  and_then (py_item "relation" (fst rel)) (fun relation =>
  Returned (str_fmt target +:+ " (" +:+ str_fmt relation +:+ ")"))).

(** The body of the loop over the rows: a missing [summary], [title] or
    [node_id], a null [summary] that relationships are to be appended to, and
    a null [confidence] raise. *)
Definition format_row (result : Neo4jRow) : outcome Doc :=
  and_then (py_item "summary" (r_summary result)) (fun content =>
  let relationships := py_get [] (r_relationships result) in
  and_then
    (match relationships with
     | Some (rel :: rels) =>
         and_then (map_outcome relationship_text (firstn 3 (rel :: rels)))
           (fun parts =>
         let rel_text := " Related to: " +:+ PyStr.join ", " parts in
         match content with
         | Some summary => Returned (Some (summary +:+ rel_text))
         | None => Raised "unsupported operand type(s) for +=: 'NoneType' and 'str'"
         end)
     | _ => Returned content
     end) (fun content =>
  and_then (py_item "title" (r_title result)) (fun title =>
  and_then (py_item "node_id" (r_node_id result)) (fun node_id =>
  and_then (py_float (py_get 0.8%Q (r_confidence result))) (fun confidence =>
  Returned (mk_dict [
    ("type", VStr "graph");
    ("title", str_val title);
    ("content", str_val content);
    ("reference", VStr ("graph:" +:+ str_fmt node_id));
    ("confidence", VFloat confidence);
    ("category", str_val (py_get "general" (r_category result)));
    ("relationships",
      match relationships with
      | Some rels => VList (map relationship_val rels)
      | None => VNone
      end)])))))).

(** The function under the [@tool] decorator, called as the agents call it. *)
Definition search_knowledge_graph (query : string) (max_results : PyVal)
  : M Backend (list Doc) :=
  try_except
    (if negb (neo4j_connected env)
     then GraphTool._get_fallback_graph_data query max_results
     else
       results ← execute_query query max_results;
       formatted_results ← of_outcome (map_outcome format_row results);
       log_event "GRAPH_TOOL"
         ("Found " +:+ pretty (length formatted_results)
            +:+ " graph results for: " +:+ query) "info";;
       mret formatted_results)
    (fun e =>
       log_event "GRAPH_TOOL_ERROR" ("Graph search failed: " +:+ e) "error";;
       GraphTool._get_fallback_graph_data query max_results).

(** ** app/tools/internet_tool.py *)

(** [_save_vector_store]: pickle the index and the documents; errors are logged. *)
Definition _save_vector_store : M Backend unit :=
  try_except
    (if disk_writable env
     then modify (fun b => set_disk (Some (b_cache b)) b)
     else raise "[Errno 2] No such file or directory: 'vector_store/faiss_index.pkl'")
    (fun e =>
       log_event "VECTOR_STORE_SAVE_ERROR"
         ("Failed to save vector store: " +:+ e) "error").

(** The f-string [f"{document['title']} {document['content'][:500]}"]. *)
Definition document_text (document : Doc) : outcome string :=
  match document !! "title" with
  | None => Raised "'title'"
  | Some title =>
      let title_s := match title with VStr t => t | v => py_str env v end in
      match document !! "content" with
      | None => Raised "'content'"
      | Some (VStr c) => Returned (title_s +:+ " " +:+ PyStr.take 500 c)
      | Some (VList l) => Returned (title_s +:+ " " +:+ py_str env (VList (firstn 500 l)))
      | Some _ => Raised "object is not subscriptable"
      end
  end.

(** [_add_to_vector_store]: embed, create the index on first use, add the
    vector, append the document, save every fifth document. *)
Definition _add_to_vector_store (document : Doc) : M Backend unit :=
  try_except
    (text ← of_outcome (document_text document);
     embedding ← of_outcome (encode env text);
     store ← gets (fun b => vector_store (b_cache b));
     ix ← match store with
          | None =>
              let ix := Faiss.IndexFlatL2 (length embedding) in
              modify (fun b =>
                set_cache {| vector_store := Some ix;
                             documents := documents (b_cache b) |} b);;
              mret ix
          | Some ix => mret ix
          end;
     ix' ← of_outcome (Faiss.add ix embedding);
     modify (fun b =>
       set_cache {| vector_store := Some ix';
                    documents := documents (b_cache b) |} b);;
     modify (fun b =>
       set_cache {| vector_store := vector_store (b_cache b);
                    documents := documents (b_cache b) ++ [document] |} b);;
     n ← gets (fun b => length (documents (b_cache b)));
     if (n mod 5 =? 0)%nat then _save_vector_store else mret tt)
    (fun e =>
       log_event "VECTOR_ADD_ERROR" ("Failed to add to vector store: " +:+ e) "error").

Definition _get_mock_internet_data (query : string) (max_results : PyVal)
  : outcome (list Doc) :=
  let mock_data := [
    mk_dict [
      ("type", VStr "internet");
      ("title", VStr ("Research about " +:+ query));
      ("content", VStr ("This is mock content about " +:+ query +:+ ". In a real implementation, this would be actual web search results from Tavily API."));
      ("reference", VStr "https://example.com/mock-data");
      ("confidence", VFloat 0.75);
      ("published_date", VStr "2024-01-01");
      ("source", VStr "mock")];
    mk_dict [
      ("type", VStr "internet");
      ("title", VStr ("Latest developments in " +:+ query));
      ("content", VStr ("Mock summary of recent advancements in " +:+ query +:+ ". This demonstrates the system structure when external APIs are not configured."));
      ("reference", VStr "https://example.com/mock-news");
      ("confidence", VFloat 0.70);
      ("published_date", VStr "2024-01-01");
      ("source", VStr "mock")]] in
  py_slice_to mock_data max_results.

Definition internet_result (item : TavilyItem) : Doc :=
  mk_dict [
    ("type", VStr "internet");
    ("title", VStr (opt_str "No title" (it_title item)));
    ("content", VStr (opt_str "" (it_content item)));
    ("reference", VStr (opt_str "" (it_url item)));
    ("confidence", VFloat (py_min 0.9 (default 70 (it_score item) / 100))%Q);
    ("published_date", VStr (opt_str "" (it_published_date item)));
    ("source", VStr "tavily")].

(** [InternetSearchTool.search_internet] *)
Definition search_internet (query : string) (max_results : PyVal)
  : M Backend (list Doc) :=
  try_except
    (match tavily env with
     | None => of_outcome (_get_mock_internet_data query max_results)
     | Some tavily_search =>
         items ← of_outcome (tavily_search query max_results "advanced");
         let results := map internet_result items in
         for_each results _add_to_vector_store;;
         log_event "INTERNET_SEARCH"
           ("Found " +:+ pretty (length results)
              +:+ " internet results for: " +:+ query) "info";;
         mret results
     end)
    (fun e =>
       log_event "INTERNET_SEARCH_ERROR" ("Internet search failed: " +:+ e) "error";;
       of_outcome (_get_mock_internet_data query max_results)).

(** [min(max_results, len(self.documents))] as the [k] handed to faiss, which
    takes an integer. *)
Definition search_k (max_results : PyVal) (n : nat) : outcome Z :=
  match max_results with
  | VInt z => Returned (Z.min z (Z.of_nat n))
  | VBool b => Returned (Z.min (if b then 1 else 0) (Z.of_nat n))
  | VFloat q =>
      if Qle_bool q (inject_Z (Z.of_nat n))
      then Raised "in method 'IndexFlat_search', argument 3 of type 'faiss::idx_t'"
      else Returned (Z.of_nat n)
  | _ => Raised "'<' not supported between instances of 'int' and this operand"
  end.

(** The body of the loop over [zip(indices[0], distances[0])]. *)
Definition semantic_hit (docs : list Doc) (hit : Z * Q) : outcome (list Doc) :=
  let (idx, distance) := hit in
  if idx <? Z.of_nat (length docs) then
    match py_index docs idx with
    | Returned doc =>
        Returned [ <["source" := VStr "semantic_search"]>
                     (<["confidence" := VFloat (py_max 0.1 (1 - distance / 10))%Q]> doc) ]
    | Raised e => Raised e
    end
  else Returned [].

Fixpoint semantic_hits (docs : list Doc) (hits : list (Z * Q)) (results : list Doc)
  : outcome (list Doc) :=
  match hits with
  | [] => Returned results
  | hit :: hits' =>
      match semantic_hit docs hit with
      | Returned r => semantic_hits docs hits' (results ++ r)
      | Raised e => Raised e
      end
  end.

(** [InternetSearchTool.semantic_search] *)
Definition semantic_search (query : string) (max_results : PyVal)
  : M Backend (list Doc) :=
  try_except
    (cache ← gets b_cache;
     match vector_store cache with
     | None => mret []
     | Some ix =>
         if (length (documents cache) =? 0)%nat then mret []
         else
           query_embedding ← of_outcome (encode env query);
           k ← of_outcome (search_k max_results (length (documents cache)));
           hits ← of_outcome (Faiss.search ix query_embedding k);
           results ← of_outcome (semantic_hits (documents cache) hits []);
           log_event "SEMANTIC_SEARCH"
             ("Found " +:+ pretty (length results)
                +:+ " semantic results for: " +:+ query) "info";;
           mret results
     end)
    (fun e =>
       log_event "SEMANTIC_SEARCH_ERROR" ("Semantic search failed: " +:+ e) "error";;
       mret []).

End Tools.

(** ** app/agents/state.py *)

Module State.

(** The [AgentState] typed dict: every key is present, with the declared type. *)
Record AgentState := {
  query : string;
  context : gmap string PyVal;
  options : gmap string PyVal;
  user_id : option string;
  messages : list (gmap string PyVal);
  current_step : string;
  steps_completed : list string;
  next_step : option string;
  graph_results : list Doc;
  internet_results : list Doc;
  semantic_results : list Doc;
  all_contexts : list Doc;
  reasoning : list string;
  tool_calls : list (gmap string PyVal);
  iterations : Z;
  final_answer : string;
  sources : list (gmap string PyVal);
  structured_output : gmap string PyVal;
  confidence : Q;
  should_continue : bool;
  max_iterations_reached : bool;
  error : option string;
  last_error : option string
}.

(** [state[key] = v], one setter per key the nodes assign. *)

Definition set_next_step (v : option string) (s : AgentState) : AgentState :=
  {|
     query := query s; context := context s; options := options s;
     user_id := user_id s; messages := messages s; current_step := current_step s;
     steps_completed := steps_completed s; next_step := v;
     graph_results := graph_results s; internet_results := internet_results s;
     semantic_results := semantic_results s; all_contexts := all_contexts s;
     reasoning := reasoning s; tool_calls := tool_calls s;
     iterations := iterations s; final_answer := final_answer s;
     sources := sources s; structured_output := structured_output s;
     confidence := confidence s; should_continue := should_continue s;
     max_iterations_reached := max_iterations_reached s; error := error s;
     last_error := last_error s
  |}.

Definition set_steps_completed (v : list string) (s : AgentState) : AgentState :=
  {|
     query := query s; context := context s; options := options s;
     user_id := user_id s; messages := messages s; current_step := current_step s;
     steps_completed := v; next_step := next_step s;
     graph_results := graph_results s; internet_results := internet_results s;
     semantic_results := semantic_results s; all_contexts := all_contexts s;
     reasoning := reasoning s; tool_calls := tool_calls s;
     iterations := iterations s; final_answer := final_answer s;
     sources := sources s; structured_output := structured_output s;
     confidence := confidence s; should_continue := should_continue s;
     max_iterations_reached := max_iterations_reached s; error := error s;
     last_error := last_error s
  |}.

Definition set_reasoning (v : list string) (s : AgentState) : AgentState :=
  {|
     query := query s; context := context s; options := options s;
     user_id := user_id s; messages := messages s; current_step := current_step s;
     steps_completed := steps_completed s; next_step := next_step s;
     graph_results := graph_results s; internet_results := internet_results s;
     semantic_results := semantic_results s; all_contexts := all_contexts s;
     reasoning := v; tool_calls := tool_calls s; iterations := iterations s;
     final_answer := final_answer s; sources := sources s;
     structured_output := structured_output s; confidence := confidence s;
     should_continue := should_continue s;
     max_iterations_reached := max_iterations_reached s; error := error s;
     last_error := last_error s
  |}.

Definition set_graph_results (v : list Doc) (s : AgentState) : AgentState :=
  {|
     query := query s; context := context s; options := options s;
     user_id := user_id s; messages := messages s; current_step := current_step s;
     steps_completed := steps_completed s; next_step := next_step s;
     graph_results := v; internet_results := internet_results s;
     semantic_results := semantic_results s; all_contexts := all_contexts s;
     reasoning := reasoning s; tool_calls := tool_calls s;
     iterations := iterations s; final_answer := final_answer s;
     sources := sources s; structured_output := structured_output s;
     confidence := confidence s; should_continue := should_continue s;
     max_iterations_reached := max_iterations_reached s; error := error s;
     last_error := last_error s
  |}.

Definition set_internet_results (v : list Doc) (s : AgentState) : AgentState :=
  {|
     query := query s; context := context s; options := options s;
     user_id := user_id s; messages := messages s; current_step := current_step s;
     steps_completed := steps_completed s; next_step := next_step s;
     graph_results := graph_results s; internet_results := v;
     semantic_results := semantic_results s; all_contexts := all_contexts s;
     reasoning := reasoning s; tool_calls := tool_calls s;
     iterations := iterations s; final_answer := final_answer s;
     sources := sources s; structured_output := structured_output s;
     confidence := confidence s; should_continue := should_continue s;
     max_iterations_reached := max_iterations_reached s; error := error s;
     last_error := last_error s
  |}.

Definition set_semantic_results (v : list Doc) (s : AgentState) : AgentState :=
  {|
     query := query s; context := context s; options := options s;
     user_id := user_id s; messages := messages s; current_step := current_step s;
     steps_completed := steps_completed s; next_step := next_step s;
     graph_results := graph_results s; internet_results := internet_results s;
     semantic_results := v; all_contexts := all_contexts s; reasoning := reasoning s;
     tool_calls := tool_calls s; iterations := iterations s;
     final_answer := final_answer s; sources := sources s;
     structured_output := structured_output s; confidence := confidence s;
     should_continue := should_continue s;
     max_iterations_reached := max_iterations_reached s; error := error s;
     last_error := last_error s
  |}.

Definition set_all_contexts (v : list Doc) (s : AgentState) : AgentState :=
  {|
     query := query s; context := context s; options := options s;
     user_id := user_id s; messages := messages s; current_step := current_step s;
     steps_completed := steps_completed s; next_step := next_step s;
     graph_results := graph_results s; internet_results := internet_results s;
     semantic_results := semantic_results s; all_contexts := v;
     reasoning := reasoning s; tool_calls := tool_calls s;
     iterations := iterations s; final_answer := final_answer s;
     sources := sources s; structured_output := structured_output s;
     confidence := confidence s; should_continue := should_continue s;
     max_iterations_reached := max_iterations_reached s; error := error s;
     last_error := last_error s
  |}.

Definition set_last_error (v : option string) (s : AgentState) : AgentState :=
  {|
     query := query s; context := context s; options := options s;
     user_id := user_id s; messages := messages s; current_step := current_step s;
     steps_completed := steps_completed s; next_step := next_step s;
     graph_results := graph_results s; internet_results := internet_results s;
     semantic_results := semantic_results s; all_contexts := all_contexts s;
     reasoning := reasoning s; tool_calls := tool_calls s;
     iterations := iterations s; final_answer := final_answer s;
     sources := sources s; structured_output := structured_output s;
     confidence := confidence s; should_continue := should_continue s;
     max_iterations_reached := max_iterations_reached s; error := error s;
     last_error := v
  |}.

Definition set_max_iterations_reached (v : bool) (s : AgentState) : AgentState :=
  {|
     query := query s; context := context s; options := options s;
     user_id := user_id s; messages := messages s; current_step := current_step s;
     steps_completed := steps_completed s; next_step := next_step s;
     graph_results := graph_results s; internet_results := internet_results s;
     semantic_results := semantic_results s; all_contexts := all_contexts s;
     reasoning := reasoning s; tool_calls := tool_calls s;
     iterations := iterations s; final_answer := final_answer s;
     sources := sources s; structured_output := structured_output s;
     confidence := confidence s; should_continue := should_continue s;
     max_iterations_reached := v; error := error s; last_error := last_error s
  |}.

Definition set_iterations (v : Z) (s : AgentState) : AgentState :=
  {|
     query := query s; context := context s; options := options s;
     user_id := user_id s; messages := messages s; current_step := current_step s;
     steps_completed := steps_completed s; next_step := next_step s;
     graph_results := graph_results s; internet_results := internet_results s;
     semantic_results := semantic_results s; all_contexts := all_contexts s;
     reasoning := reasoning s; tool_calls := tool_calls s; iterations := v;
     final_answer := final_answer s; sources := sources s;
     structured_output := structured_output s; confidence := confidence s;
     should_continue := should_continue s;
     max_iterations_reached := max_iterations_reached s; error := error s;
     last_error := last_error s
  |}.

Definition set_sources (v : list (gmap string PyVal)) (s : AgentState) : AgentState :=
  {|
     query := query s; context := context s; options := options s;
     user_id := user_id s; messages := messages s; current_step := current_step s;
     steps_completed := steps_completed s; next_step := next_step s;
     graph_results := graph_results s; internet_results := internet_results s;
     semantic_results := semantic_results s; all_contexts := all_contexts s;
     reasoning := reasoning s; tool_calls := tool_calls s;
     iterations := iterations s; final_answer := final_answer s; sources := v;
     structured_output := structured_output s; confidence := confidence s;
     should_continue := should_continue s;
     max_iterations_reached := max_iterations_reached s; error := error s;
     last_error := last_error s
  |}.

Definition set_structured_output (v : gmap string PyVal) (s : AgentState) : AgentState :=
  {|
     query := query s; context := context s; options := options s;
     user_id := user_id s; messages := messages s; current_step := current_step s;
     steps_completed := steps_completed s; next_step := next_step s;
     graph_results := graph_results s; internet_results := internet_results s;
     semantic_results := semantic_results s; all_contexts := all_contexts s;
     reasoning := reasoning s; tool_calls := tool_calls s;
     iterations := iterations s; final_answer := final_answer s;
     sources := sources s; structured_output := v; confidence := confidence s;
     should_continue := should_continue s;
     max_iterations_reached := max_iterations_reached s; error := error s;
     last_error := last_error s
  |}.

Definition set_should_continue (v : bool) (s : AgentState) : AgentState :=
  {|
     query := query s; context := context s; options := options s;
     user_id := user_id s; messages := messages s; current_step := current_step s;
     steps_completed := steps_completed s; next_step := next_step s;
     graph_results := graph_results s; internet_results := internet_results s;
     semantic_results := semantic_results s; all_contexts := all_contexts s;
     reasoning := reasoning s; tool_calls := tool_calls s;
     iterations := iterations s; final_answer := final_answer s;
     sources := sources s; structured_output := structured_output s;
     confidence := confidence s; should_continue := v;
     max_iterations_reached := max_iterations_reached s; error := error s;
     last_error := last_error s
  |}.

End State.

(** ** The orchestrator's view of the world *)

(** A retriever invocation, recorded when the orchestrator makes the call. *)
Inductive Call :=
| CallGraph (query : string) (max_results : PyVal)
| CallInternet (query : string) (max_results : PyVal)
| CallSemantic (query : string) (max_results : PyVal).

(** The backend together with the trace of retriever calls made so far. *)
Record World := { w_backend : Backend; w_calls : list Call }.

(** The three retrievers an orchestrator step may call. *)
Record Toolbox := {
  graph_search : string -> PyVal -> M Backend (list Doc);
  web_search : string -> PyVal -> M Backend (list Doc);
  cache_search : string -> PyVal -> M Backend (list Doc)
}.

(** The retrievers of this repository, each bound to the function as it is
    written.  A call that does not get through to the function body, as one
    made through a wrapper that rejects its arguments, is a retriever that
    raises: the properties stated for every [Toolbox] cover it. *)
Definition repo_tools (env : Env) : Toolbox :=
  {| graph_search := search_knowledge_graph env;
     web_search := search_internet env;
     cache_search := semantic_search env |}.

Definition in_backend {A} (c : M Backend A) : M World A :=
  fun w =>
    let (o, b) := c (w_backend w) in
    (o, {| w_backend := b; w_calls := w_calls w |}).

Definition call_tool {A} (c : Call) (tool : M Backend A) : M World A :=
  fun w =>
    let (o, b) := tool (w_backend w) in
    (o, {| w_backend := b; w_calls := w_calls w ++ [c] |}).

(** A workflow state dict mutated in place while the world evolves. *)
Record Run (St : Type) := { r_state : St; r_world : World }.
Arguments r_state {St} r.
Arguments r_world {St} r.

Definition in_world {St A} (c : M World A) : M (Run St) A :=
  fun r =>
    let (o, w) := c (r_world r) in
    (o, {| r_state := r_state r; r_world := w |}).

(** [state[...] = ...] *)
Definition update {St} (f : St -> St) : M (Run St) unit :=
  modify (fun r => {| r_state := f (r_state r); r_world := r_world r |}).

(** [state[...]] *)
Definition read {St A} (f : St -> A) : M (Run St) A :=
  gets (fun r => f (r_state r)).

Definition log {St} (event_type message level : string) : M (Run St) unit :=
  in_world (in_backend (log_event event_type message level)).

(** [max_results // 2] *)
Definition py_floordiv2 (v : PyVal) : outcome PyVal :=
  match v with
  | VInt z => Returned (VInt (z / 2))
  | VBool b => Returned (VInt ((if b then 1 else 0) / 2))
  | VFloat q => Returned (VFloat (inject_Z (Qfloor (q / 2))))
  | _ => Raised "unsupported operand type(s) for //"
  end.

(** ** app/agents/nodes.py *)

Module Nodes.

Import State.

Definition graph_keywords : list string :=
  ["what is"; "define"; "explain"; "concept"; "theory";
   "relationship"; "how does"; "compare"; "difference between"].

Definition internet_keywords : list string :=
  ["latest"; "recent"; "news"; "update"; "current"; "2024"; "2025";
   "today"; "yesterday"; "this week"; "this month"; "trending"].

Definition _needs_graph_search (query : string) : bool :=
  PyStr.any_in graph_keywords query.

Definition _needs_internet_search (query : string) : bool :=
  PyStr.any_in internet_keywords query.

(** The local list [next_steps] that [route_query] builds. *)
Definition next_steps (options : gmap string PyVal) (query : string) : list string :=
  let query_lower := PyStr.lower query in
  let next_steps := ["analyze_query"] in
  let next_steps :=
    if truthy (dict_get options "use_graph" (VBool true))
       && _needs_graph_search query_lower
    then next_steps ++ ["search_graph"] else next_steps in
  let next_steps :=
    if truthy (dict_get options "use_internet" (VBool true))
       && _needs_internet_search query_lower
    then next_steps ++ ["search_internet"] else next_steps in
  next_steps ++ ["generate_answer"].

Definition route_query : M (Run AgentState) unit :=
  query ← read query;
  options ← read options;
  log "ROUTER" ("Routing query: " +:+ query) "info";;
  let next_steps := next_steps options query in
  update (set_next_step
            (Some (match next_steps with
                   | first :: _ => first
                   | [] => "generate_answer"
                   end)));;
  update (fun s => set_steps_completed (steps_completed s ++ ["route_query"]) s);;
  update (fun s =>
    set_reasoning
      (reasoning s ++ ["Query routed to steps: " +:+ PyStr.join ", " next_steps]) s).

(** The [analysis] dict of [analyze_query]. *)
Record Analysis := {
  intent : string;
  complexity : string;
  needs_facts : bool;
  needs_current_info : bool;
  expected_sources : list string
}.

Definition repr_bool (b : bool) : string := if b then "True" else "False".

Definition repr_str (s : string) : string := "'" +:+ s +:+ "'".

(** What [f"{analysis}"] prints. *)
Definition repr_analysis (a : Analysis) : string :=
  "{'intent': " +:+ repr_str (intent a)
  +:+ ", 'complexity': " +:+ repr_str (complexity a)
  +:+ ", 'needs_facts': " +:+ repr_bool (needs_facts a)
  +:+ ", 'needs_current_info': " +:+ repr_bool (needs_current_info a)
  +:+ ", 'expected_sources': ["
  +:+ PyStr.join ", " (map repr_str (expected_sources a)) +:+ "]}".

Definition analysis_of (query : string) : Analysis :=
  let query_lower := PyStr.lower query in
  let intent :=
    if PyStr.any_in ["what is"; "define"; "explain"] query_lower then "definition"
    else if PyStr.any_in ["how to"; "steps"; "guide"] query_lower then "instructions"
    else if PyStr.any_in ["compare"; "difference"; "vs"] query_lower then "comparison"
    else "information_request" in
  let words := length (PyStr.split query) in
  let complexity :=
    if (10 <? words)%nat || PyStr.any_in ["complex"; "advanced"; "detailed"] query_lower
    then "high"
    else if (words <? 5)%nat then "low"
    else "medium" in
  let current := PyStr.any_in ["latest"; "recent"; "news"; "update"] query_lower in
  {| intent := intent;
     complexity := complexity;
     needs_facts := true;
     needs_current_info := current;
     expected_sources := if current then ["graph"; "internet"] else ["graph"] |}.

Definition analyze_query : M (Run AgentState) unit :=
  query ← read query;
  log "ANALYZER" ("Analyzing query: " +:+ query) "info";;
  let analysis := analysis_of query in
  update (fun s =>
    set_reasoning (reasoning s ++ ["Query analysis: " +:+ repr_analysis analysis]) s);;
  update (fun s => set_steps_completed (steps_completed s ++ ["analyze_query"]) s);;
  options ← read options;
  update (set_next_step
            (Some (if truthy (dict_get options "use_graph" (VBool true))
                   then "search_graph" else "search_internet"))).

Section Steps.

Variable tools : Toolbox.

Definition search_graph : M (Run AgentState) unit :=
  options ← read options;
  if negb (truthy (dict_get options "use_graph" (VBool true))) then
    update (fun s => set_steps_completed (steps_completed s ++ ["search_graph"]) s);;
    update (set_next_step (Some "search_internet"))
  else
    query ← read query;
    let max_results := dict_get options "max_results" (VInt 5) in
    log "GRAPH_NODE" ("Searching graph for: " +:+ query) "info";;
    try_except
      (results ← in_world
         (call_tool (CallGraph query max_results)
            (graph_search tools query max_results));
       update (set_graph_results results);;
       update (fun s => set_all_contexts (all_contexts s ++ results) s);;
       update (fun s =>
         set_reasoning
           (reasoning s ++ ["Found " +:+ pretty (length results) +:+ " graph results"]) s))
      (fun e =>
         log "GRAPH_NODE_ERROR" ("Graph search failed: " +:+ e) "error";;
         update (set_last_error (Some ("Graph search error: " +:+ e))));;
    update (fun s => set_steps_completed (steps_completed s ++ ["search_graph"]) s);;
    update (set_next_step
              (Some (if truthy (dict_get options "use_internet" (VBool true))
                     then "search_internet" else "generate_answer"))).

Definition search_internet : M (Run AgentState) unit :=
  options ← read options;
  if negb (truthy (dict_get options "use_internet" (VBool true))) then
    update (fun s => set_steps_completed (steps_completed s ++ ["search_internet"]) s);;
    update (set_next_step (Some "generate_answer"))
  else
    query ← read query;
    let max_results := dict_get options "max_results" (VInt 5) in
    log "INTERNET_NODE" ("Searching internet for: " +:+ query) "info";;
    try_except
      (internet_results ← in_world
         (call_tool (CallInternet query max_results)
            (web_search tools query max_results));
       update (set_internet_results internet_results);;
       update (fun s => set_all_contexts (all_contexts s ++ internet_results) s);;
       half ← of_outcome (py_floordiv2 max_results);
       semantic_results ← in_world
         (call_tool (CallSemantic query half) (cache_search tools query half));
       update (set_semantic_results semantic_results);;
       update (fun s => set_all_contexts (all_contexts s ++ semantic_results) s);;
       update (fun s =>
         set_reasoning
           (reasoning s
              ++ ["Found " +:+ pretty (length internet_results)
                    +:+ " internet results and "
                    +:+ pretty (length semantic_results) +:+ " semantic results"]) s))
      (fun e =>
         log "INTERNET_NODE_ERROR" ("Internet search failed: " +:+ e) "error";;
         update (set_last_error (Some ("Internet search error: " +:+ e))));;
    update (fun s => set_steps_completed (steps_completed s ++ ["search_internet"]) s);;
    update (set_next_step (Some "generate_answer")).

End Steps.

(** Truthiness of the optional string [state["next_step"]]. *)
Definition next_step_truthy (o : option string) : bool :=
  match o with
  | Some s => negb (PyStr.is_empty s)
  | None => false
  end.

Definition next_step_is (o : option string) (name : string) : bool :=
  match o with
  | Some s => String.eqb s name
  | None => false
  end.

(** [should_continue]: the decision and the state it leaves. *)
Definition should_continue (state : AgentState) : string * AgentState :=
  let has_context := (0 <? length (all_contexts state))%nat in
  let max_iterations_reached := 5 <=? iterations state in
  if max_iterations_reached then
    ("finish", set_max_iterations_reached true state)
  else if next_step_is (next_step state) "generate_answer" && has_context then
    ("generate_answer", state)
  else if next_step_truthy (next_step state)
          && negb (next_step_is (next_step state) "generate_answer") then
    ("continue", state)
  else
    ("finish", state).

Definition format_final_answer (env : Env) : M (Run AgentState) unit :=
  contexts ← read all_contexts;
  sources ← of_outcome (format_sources env contexts);
  answer ← read final_answer;
  reasoning ← read reasoning;
  structured_output ← of_outcome (create_structured_output env answer sources reasoning);
  update (set_sources sources);;
  update (set_structured_output structured_output);;
  update (State.set_should_continue false);;
  log "FINAL_FORMAT" "Formatted final answer with sources" "info".

End Nodes.

(** ** app/agents/langgraph_agent.py *)

Module Agent.

(** The list of dicts held in a state value, as [format_sources] and the
    counting comprehensions need it. *)
Fixpoint as_docs (l : list PyVal) : outcome (list Doc) :=
  match l with
  | [] => Returned []
  | VDict d :: l' =>
      match as_docs l' with
      | Returned ds => Returned (d :: ds)
      | Raised e => Raised e
      end
  | _ :: _ => Raised "object has no attribute 'get'"
  end.

Definition docs_of (v : PyVal) : outcome (list Doc) :=
  match v with
  | VList l => as_docs l
  | _ => Raised "object is not a list of documents"
  end.

Definition no_answer : string :=
  "I couldn't find enough relevant information to answer your question.".

Definition no_answer_output : gmap string PyVal :=
  mk_dict [
    ("key_points", VList [VStr "No information found"]);
    ("summary", VStr "Unable to generate answer due to insufficient information")].

Section Workflow.

Variable env : Env.
Variable tools : Toolbox.

(** [state.get("query", "")]; [process_query] always stores a string there,
    and a state holding another value is rejected where the string is used. *)
Definition state_query (state : gmap string PyVal) : outcome string :=
  match dict_get state "query" (VStr "") with
  | VStr q => Returned q
  | _ => Raised "query is not a string"
  end.

(** [state.get("options", {})], on which [.get] is then called. *)
Definition state_options (state : gmap string PyVal) : outcome (gmap string PyVal) :=
  match dict_get state "options" (VDict ∅) with
  | VDict d => Returned d
  | _ => Raised "object has no attribute 'get'"
  end.

Definition _search_node : M (Run (gmap string PyVal)) unit :=
  query ← (state ← read id; of_outcome (state_query state));
  options ← (state ← read id; of_outcome (state_options state));
  log "SEARCH_NODE" ("Searching for: " +:+ query) "info";;
  let all_results : list Doc := [] in
  all_results ←
    (if truthy (dict_get options "use_graph" (VBool true)) then
       try_except
         (let max_results := dict_get options "max_results" (VInt 3) in
          graph_results ← in_world
            (call_tool (CallGraph query max_results)
               (graph_search tools query max_results));
          log "GRAPH_SEARCH"
            ("Found " +:+ pretty (length graph_results) +:+ " graph results") "info";;
          mret (all_results ++ graph_results))
         (fun e =>
            log "GRAPH_SEARCH_ERROR" ("Graph search failed: " +:+ e) "error";;
            mret all_results)
     else mret all_results);
  all_results ←
    (if truthy (dict_get options "use_internet" (VBool true)) then
       try_except
         (let max_results := dict_get options "max_results" (VInt 3) in
          internet_results ← in_world
            (call_tool (CallInternet query max_results)
               (web_search tools query max_results));
          log "INTERNET_SEARCH"
            ("Found " +:+ pretty (length internet_results) +:+ " internet results")
            "info";;
          mret (all_results ++ internet_results))
         (fun e =>
            log "INTERNET_SEARCH_ERROR" ("Internet search failed: " +:+ e) "error";;
            mret all_results)
     else mret all_results);
  update (fun state => <["all_results" := docs_val all_results]> state);;
  update (fun state =>
    <["total_sources" := VInt (Z.of_nat (length all_results))]> state).

Definition count_type (type : string) (results : list Doc) : nat :=
  length (filter (fun r => eq_str (dict_get r "type" VNone) type = true) results).

Definition _generate_fallback_answer (results : list Doc)
  : M (Run (gmap string PyVal)) unit :=
  let graph_count := count_type "graph" results in
  let internet_count := count_type "internet" results in
  update (fun state =>
    <["answer" :=
        VStr ("I found information about your query from " +:+ pretty (length results)
              +:+ " sources (" +:+ pretty graph_count +:+ " from knowledge graph, "
              +:+ pretty internet_count +:+ " from web search). "
              +:+ "Configure LLM for detailed AI responses.")]> state);;
  update (fun state =>
    <["structured_output" :=
        VDict (mk_dict [
          ("key_points",
            VList [VStr ("Graph sources: " +:+ pretty graph_count);
                   VStr ("Internet sources: " +:+ pretty internet_count);
                   VStr "Fallback mode active";
                   VStr "LLM not configured"]);
          ("summary",
            VStr ("Found " +:+ pretty (length results) +:+ " information sources"))])]>
      state).

Definition _generate_node : M (Run (gmap string PyVal)) unit :=
  state ← read id;
  let query := dict_get state "query" (VStr "") in
  let all_results := dict_get state "all_results" (VList []) in
  if negb (truthy all_results) then
    update (fun state => <["answer" := VStr no_answer]> state);;
    update (fun state => <["sources" := VList []]> state);;
    update (fun state => <["structured_output" := VDict no_answer_output]> state)
  else
    results ← of_outcome (docs_of all_results);
    sources ← of_outcome (format_sources env results);
    match llm env with
    | Some generate =>
        try_except
          (query ← of_outcome (state_query state);
           parsed_response ← of_outcome (generate query results);
           update (fun state => <["answer" := pr_answer parsed_response]> state);;
           update (fun state =>
             <["structured_output" :=
                 VDict (mk_dict [("key_points", pr_key_points parsed_response);
                                 ("summary", pr_summary parsed_response)])]> state))
          (fun e =>
             log "LLM_GENERATION_ERROR" ("LLM generation failed: " +:+ e) "error";;
             _generate_fallback_answer results)
    | None => _generate_fallback_answer results
    end;;
    update (fun state => <["sources" := VList (map VDict sources)]> state).

(** The compiled workflow: entry point [search], then [generate], then END. *)
Definition graph_invoke : M (Run (gmap string PyVal)) unit :=
  _search_node;; _generate_node.

(** What [process_query] returns. *)
Inductive Response :=
| Success (answer sources structured_output : PyVal) (context : option (gmap string PyVal))
| Error (code message : string).

(** [d or {}] for an optional dict. *)
Definition or_empty (d : option (gmap string PyVal)) : gmap string PyVal :=
  match d with
  | Some d => if truthy (VDict d) then d else ∅
  | None => ∅
  end.

(** [d[key]] *)
Definition dict_item (d : gmap string PyVal) (key : string) : outcome PyVal :=
  match d !! key with
  | Some v => Returned v
  | None => Raised ("'" +:+ key +:+ "'")
  end.

(** Run a workflow on a fresh state dict, handing back that dict. *)
Definition with_state {St A} (initial : St) (c : M (Run St) A) : M World St :=
  fun w =>
    match c {| r_state := initial; r_world := w |} with
    | (Returned _, r) => (Returned (r_state r), r_world r)
    | (Raised e, r) => (Raised e, r_world r)
    end.

(** The dict [process_query] hands to the workflow. *)
Definition initial_state (query : string) (options context : option (gmap string PyVal))
  : gmap string PyVal :=
  mk_dict [
    ("query", VStr query);
    ("options", VDict (or_empty options));
    ("context", VDict (or_empty context))].

(** [if context: response["context"] = context] *)
Definition response_context (context : option (gmap string PyVal))
  : option (gmap string PyVal) :=
  match context with
  | Some c => if truthy (VDict c) then Some c else None
  | None => None
  end.

Definition process_query (query : string) (options context : option (gmap string PyVal))
  : M World Response :=
  try_except
    (in_backend
       (log_event "AGENT_PROCESS" ("Processing: " +:+ PyStr.take 50 query +:+ "...") "info");;
     final_state ← with_state (initial_state query options context) graph_invoke;
     answer ← of_outcome (dict_item final_state "answer");
     sources ← of_outcome (dict_item final_state "sources");
     structured_output ← of_outcome (dict_item final_state "structured_output");
     let response :=
       Success answer sources structured_output (response_context context) in
     in_backend (log_event "AGENT_SUCCESS" "Processed query successfully" "info");;
     mret response)
    (fun e =>
       in_backend (log_event "AGENT_ERROR" ("Processing failed: " +:+ e) "error");;
       mret (Error "PROCESSING_ERROR" ("Failed to process query: " +:+ e))).

End Workflow.

End Agent.

(** ** app/routes/agent.py *)

Module Routes.

Import Agent.

Definition default_options : gmap string PyVal :=
  mk_dict [("use_graph", VBool true); ("use_internet", VBool true);
           ("max_results", VInt 5)].

(** The [QueryRequest] model after validation. *)
Record QueryRequest := {
  query : string;
  context : option (gmap string PyVal);
  options : option (gmap string PyVal)
}.

(** Validation of a request body: a field the body omits takes the declared
    default, a field given as [null] stays [None]. *)
Definition parse_request (query : string)
    (context options : option (option (gmap string PyVal))) : QueryRequest :=
  {| query := query;
     context := default (Some ∅) context;
     options := default (Some default_options) options |}.

(** What the endpoint hands to the HTTP layer: a body, or an [HTTPException]. *)
Inductive HttpResult :=
| Ok200 (body : Response)
| HTTPException (status_code : Z) (code message : string).

Section Endpoint.

Variable env : Env.
Variable tools : Toolbox.

Definition agent_query_endpoint (request : QueryRequest) (user : string)
  : M World HttpResult :=
  try_except
    (in_backend
       (log_event "LANGGRAPH_API"
          ("User: " +:+ user +:+ ", Query: " +:+ PyStr.take 100 (query request) +:+ "...")
          "info");;
     if PyStr.is_empty (query request)
        || (String.length (PyStr.strip (query request)) =? 0)%nat
     then mret (HTTPException 400 "INVALID_REQUEST" "Query cannot be empty")
     else
       result ← process_query env tools (PyStr.strip (query request))
                  (options request) (context request);
       mret (Ok200 result))
    (fun e =>
       in_backend (log_event "LANGGRAPH_API_ERROR" ("Endpoint error: " +:+ e) "error");;
       mret (HTTPException 500 "INTERNAL_ERROR"
               "Internal server error occurred while processing your request.")).

End Endpoint.

End Routes.

(** ** app/middleware/auth.py *)

Module Auth.

(** [HTTPBasicCredentials] *)
Record HTTPBasicCredentials := {
  username : string;
  password : string
}.

(** [API_USERNAME] and [API_PASSWORD] of app/config.py, read from the
    environment at import time. *)
Record Config := {
  API_USERNAME : string;
  API_PASSWORD : string
}.

(** The values [os.getenv] falls back to. *)
Definition default_config : Config :=
  {| API_USERNAME := "agent"; API_PASSWORD := "secret" |}.

(** Characters above 127 stand for the non-ASCII characters of a [str]. *)
Definition is_ascii (s : string) : bool :=
  forallb (fun c => (nat_of_ascii c <? 128)%nat) (list_ascii_of_string s).

(** [secrets.compare_digest] on two [str]: a [TypeError] unless both are
    ASCII-only. *)
Definition compare_digest (a b : string) : outcome bool :=
  if is_ascii a && is_ascii b then Returned (String.eqb a b)
  else Raised "comparing strings with non-ASCII characters is not supported".

(** What a dependency hands to the HTTP layer: the user name, or an
    [HTTPException]. *)
Inductive AuthResult :=
| Authenticated (user : string)
| HTTPException (status_code : Z) (code message : string).

Section Checks.

Variable config : Config.

Definition verify_auth (credentials : HTTPBasicCredentials) : M Backend AuthResult :=
  try_except
    (username_correct ←
       of_outcome (compare_digest (username credentials) (API_USERNAME config));
     password_correct ←
       of_outcome (compare_digest (password credentials) (API_PASSWORD config));
     if negb (username_correct && password_correct) then
       log_event "AUTH_FAILED"
         ("Failed authentication attempt for user: " +:+ username credentials)
         "warning";;
       mret (HTTPException 401 "AUTH_FAILED" "Invalid credentials provided.")
     else
       log_event "AUTH_SUCCESS" ("User authenticated: " +:+ username credentials) "info";;
       mret (Authenticated (username credentials)))
    (fun e =>
       log_event "AUTH_ERROR" ("Unexpected authentication error: " +:+ e) "error";;
       mret (HTTPException 500 "AUTH_SYSTEM_ERROR"
               "Authentication system error occurred.")).

Definition optional_auth (credentials : HTTPBasicCredentials)
  : M Backend (option string) :=
  result ← verify_auth credentials;
  match result with
  | Authenticated user => mret (Some user)
  | HTTPException _ _ _ => mret None
  end.

(** [RoleChecker(allowed_roles).__call__(user)] *)
Definition RoleChecker (allowed_roles : list string) (user : string)
  : M Backend AuthResult :=
  if existsb (String.eqb "admin") allowed_roles && String.eqb user "admin" then
    mret (Authenticated user)
  else if existsb (String.eqb "user") allowed_roles then
    mret (Authenticated user)
  else
    log_event "AUTH_ROLE_FAILED"
      ("User " +:+ user +:+ " lacks required roles: ["
       +:+ PyStr.join ", " (map Nodes.repr_str allowed_roles) +:+ "]")
      "warning";;
    mret (HTTPException 403 "INSUFFICIENT_PERMISSIONS"
            "Insufficient permissions to access this resource.").

(** A role checker as a dependency: its [user] is [Depends(verify_auth)], so
    an exception of [verify_auth] is the answer and the check is not run. *)
Definition checked (allowed_roles : list string) (credentials : HTTPBasicCredentials)
  : M Backend AuthResult :=
  result ← verify_auth credentials;
  match result with
  | Authenticated user => RoleChecker allowed_roles user
  | HTTPException _ _ _ => mret result
  end.

Definition admin_only := checked ["admin"].

Definition any_authenticated_user := checked ["user"; "admin"].

End Checks.

End Auth.

(** ** The orchestration cycle *)

Module Orchestrator.

Import State Nodes.

Section Cycle.

Variable tools : Toolbox.

(** Modelled from the spec: the dispatch from a pending step name to the step
    function of nodes.py (section 4.5 names the states after them); a name
    with no step leaves the state as it is. *)
Definition step_of (name : option string) : M (Run AgentState) unit :=
  if next_step_is name "analyze_query" then analyze_query
  else if next_step_is name "search_graph" then search_graph tools
  else if next_step_is name "search_internet" then search_internet tools
  else mret tt.

(** Modelled from the spec: the loop that drives the steps of nodes.py is not
    in the sources.  Per sections 3 and 4.5 the guard is consulted before each
    cycle, a cycle runs the pending step, and [iterations] is incremented once
    per cycle; the guard's answers "finish" and "generate_answer" leave the
    loop for the terminal steps.  The result is [false] when [fuel] cycles
    did not reach the terminal steps. *)
Fixpoint cycles (fuel : nat) : M (Run AgentState) bool :=
  match fuel with
  | O => mret false
  | S fuel' =>
      state ← read id;
      let (decision, state') := should_continue state in
      update (fun _ => state');;
      if String.eqb decision "continue" then
        step_of (next_step state');;
        update (fun s => set_iterations (iterations s + 1) s);;
        cycles fuel'
      else mret true
  end.

(** Modelled from the spec: a run starts at the [route] state. *)
Definition orchestrate (fuel : nat) : M (Run AgentState) bool :=
  route_query;; cycles fuel.

End Cycle.

End Orchestrator.

(** ** A deployment without backends

    No graph database, no search API key, no text generator: the configuration
    in which every retriever answers from its static data. *)

(** Modelled from the spec: [format_sources] of app/utils/formatters.py is not
    in the sources; section 4.6 gives each source as the document's title,
    reference, type and confidence. *)
Definition spec_format_sources (ds : list Doc) : outcome (list (gmap string PyVal)) :=
  Returned
    (map (fun d =>
            mk_dict [("title", dict_get d "title" VNone);
                     ("reference", dict_get d "reference" VNone);
                     ("type", dict_get d "type" VNone);
                     ("confidence", dict_get d "confidence" VNone)])
         ds).

Definition offline_env : Env := {|
  neo4j_connected := false;
  neo4j_driver := None;
  tavily := None;
  encode := fun text => Returned [inject_Z (Z.of_nat (String.length text)); 1%Q];
  py_str := fun _ => "";
  disk_writable := true;
  llm := None;
  format_sources := spec_format_sources;
  create_structured_output := fun answer sources reasoning =>
    Returned (mk_dict [("answer", VStr answer);
                       ("sources", VList (map VDict sources));
                       ("reasoning", VList (map VStr reasoning))])
|}.

Definition empty_cache : Cache := {| vector_store := None; documents := [] |}.

Definition fresh_backend : Backend :=
  {| b_cache := empty_cache; b_disk := None; b_log := [] |}.

Definition fresh_world : World := {| w_backend := fresh_backend; w_calls := [] |}.

(** Modelled from the spec: the sources never build an [AgentState]; section 3
    gives the run state of a fresh query, with empty sequences and
    [iterations] at zero. *)
Definition start_state (query : string) (options : gmap string PyVal)
  : State.AgentState :=
  {| State.query := query; State.context := ∅; State.options := options;
     State.user_id := None; State.messages := []; State.current_step := "";
     State.steps_completed := []; State.next_step := None;
     State.graph_results := []; State.internet_results := [];
     State.semantic_results := []; State.all_contexts := [];
     State.reasoning := []; State.tool_calls := []; State.iterations := 0;
     State.final_answer := ""; State.sources := []; State.structured_output := ∅;
     State.confidence := 0%Q; State.should_continue := true;
     State.max_iterations_reached := false; State.error := None;
     State.last_error := None |}.

(** ** The similarity cache invariant *)

(** The vectors held by the index; none before the index is created. *)
Definition cache_vectors (c : Cache) : list (list Q) :=
  match vector_store c with
  | Some ix => ix_vecs ix
  | None => []
  end.

(** [index.size() == documents.length] *)
Definition consistent (c : Cache) : Prop :=
  length (cache_vectors c) = length (documents c).

(** ** The specification's wording of two selections *)

Module Spec.

(** Section 4.4: the recency keywords, and "a 4-digit year token for the
    current/next year". *)
Definition recency_keywords : list string :=
  ["latest"; "recent"; "news"; "update"; "current"; "today"; "yesterday";
   "this week"; "this month"; "trending"].

Definition year_token (current_year : Z) (token : string) : bool :=
  (String.length token =? 4)%nat
  && (String.eqb token (pretty current_year)
      || String.eqb token (pretty (current_year + 1))).

Definition needs_internet_search (current_year : Z) (query_lower : string) : bool :=
  PyStr.any_in recency_keywords query_lower
  || existsb (year_token current_year) (PyStr.split query_lower).

(** The scheduling rule of section 4.4 for the internet search, in the year
    [current_year]. *)
Definition internet_scheduling (current_year : Z) : Prop :=
  forall (options : gmap string PyVal) (query : string),
    In "search_internet" (Nodes.next_steps options query)
    <-> truthy (dict_get options "use_internet" (VBool true)) = true
        /\ needs_internet_search current_year (PyStr.lower query) = true.

(** Section 4.2: exact key match first, then token overlap, then a generic
    AI-topic bundle, then the whole table. *)
Definition fallback_precedence (query_lower : string) : list Doc :=
  let table := GraphTool.fallback_knowledge_base in
  let exact :=
    map snd (List.filter (fun kv => PyStr.contains (fst kv) query_lower) table) in
  let overlap :=
    map snd (List.filter
               (fun kv => PyStr.any_in (PyStr.split (fst kv)) query_lower) table) in
  match exact, overlap with
  | _ :: _, _ => exact
  | [], _ :: _ => overlap
  | [], [] =>
      if PyStr.any_in GraphTool.ai_terms query_lower
      then [GraphTool.kb_ai; GraphTool.kb_machine_learning; GraphTool.kb_deep_learning]
      else map snd table
  end.

(** Section 8: "empty-string query", taken with whitespace-only ones. *)
Fixpoint blank (query : string) : bool :=
  match query with
  | EmptyString => true
  | String c rest => PyStr.is_space c && blank rest
  end.

End Spec.

(** ** Ranked hits of a cache lookup *)

(** Hits in ascending order of distance. *)
Definition by_distance (h1 h2 : Z * Q) : Prop := (snd h1 <= snd h2)%Q.


(** A hit names a stored vector and carries its distance to the query. *)
Definition names_vector (ix : Index) (x : list Q) (hit : Z * Q) : Prop :=
  0 <= fst hit < Z.of_nat (Faiss.ntotal ix)
  /\ exists v, nth_error (ix_vecs ix) (Z.to_nat (fst hit)) = Some v
               /\ snd hit = Faiss.l2 x v.


(** What [semantic_search] makes of a stored document found at [distance]. *)
Definition scored_copy (doc : Doc) (distance : Q) : Doc :=
  <["source" := VStr "semantic_search"]>
    (<["confidence" := VFloat (py_max 0.1 (1 - distance / 10))%Q]> doc).


(** How a returned document relates to the hit it was built from. *)
Definition copy_of_hit (env : Env) (query : string) (c : Cache)
    (copy : Doc) (hit : Z * Q) : Prop :=
  exists doc embedding v,
    nth_error (documents c) (Z.to_nat (fst hit)) = Some doc
    /\ encode env query = Returned embedding
    /\ nth_error (cache_vectors c) (Z.to_nat (fst hit)) = Some v
    /\ snd hit = Faiss.l2 embedding v
    /\ copy = <["source" := VStr "semantic_search"]>
                (<["confidence" := VFloat (py_max 0.1 (1 - snd hit / 10))%Q]> doc)
    /\ copy !! "type" = doc !! "type"
    /\ (0.1 <= py_max 0.1 (1 - snd hit / 10) <= 1)%Q.

(** A web result as [search_internet] builds it, and the cache after it was
    inserted into an empty one. *)
Definition sample_document : Doc :=
  internet_result
    {| it_title := Some "AI news"; it_content := Some "A survey of AI systems.";
       it_url := Some "https://example.com/ai"; it_score := Some 80%Q;
       it_published_date := None |}.

Definition cached_backend : Backend :=
  snd (_add_to_vector_store offline_env sample_document fresh_backend).

(** The backend once an event has been logged. *)
Definition logged (event_type message level : string) (b : Backend) : Backend :=
  snd (log_event event_type message level b).

(** ** Predicates on computations *)

(** [c] never raises. *)
Definition returns {St A} (c : M St A) : Prop :=
  forall s, exists a, fst (c s) = Returned a.

(** [c] leaves the observation [obs] of the state as it was, also when it
    raises. *)
Definition keeps {St A B} (obs : St -> B) (c : M St A) : Prop :=
  forall s, obs (snd (c s)) = obs s.

(** The [iterations] counter of a run. *)
Definition iterations_of (r : Run State.AgentState) : Z :=
  State.iterations (r_state r).

(** The retriever calls made so far. *)
Definition calls_of {St} (r : Run St) : list Call := w_calls (r_world r).

(** The three ways an insertion can end. *)
Inductive insert_outcome (env : Env) (document : Doc) (c c' : Cache)
    (log' : list LogEntry) : Prop :=
| Inserted (text : string) (embedding : list Q) :
    document_text env document = Returned text ->
    encode env text = Returned embedding ->
    documents c' = documents c ++ [document] ->
    cache_vectors c' = cache_vectors c ++ [embedding] ->
    insert_outcome env document c c' log'
| Refused (e : string) :
    c' = c ->
    In {| ev_type := "VECTOR_ADD_ERROR";
          ev_message := "Failed to add to vector store: " +:+ e;
          ev_level := "error" |} log' ->
    insert_outcome env document c c' log'.

(** ** The rest of app/tools/internet_tool.py *)

Section NewsAndPersistence.

Variable env : Env.

Definition _get_mock_news_data (query : string) (max_results : PyVal)
  : outcome (list Doc) :=
  let mock_news := [
    mk_dict [
      ("type", VStr "news");
      ("title", VStr ("Breaking: New developments in " +:+ query));
      ("content", VStr ("This is mock news content about " +:+ query +:+ ". Real news would come from Tavily API news search."));
      ("reference", VStr "https://example.com/mock-news");
      ("confidence", VFloat 0.80);
      ("published_date", VStr "2024-01-15");
      ("source", VStr "mock_news")]] in
  py_slice_to mock_news max_results.

Definition news_result (item : TavilyItem) : Doc :=
  mk_dict [
    ("type", VStr "news");
    ("title", VStr (opt_str "No title" (it_title item)));
    ("content", VStr (opt_str "" (it_content item)));
    ("reference", VStr (opt_str "" (it_url item)));
    ("confidence", VFloat (py_min 0.85 (default 70 (it_score item) / 100))%Q);
    ("published_date", VStr (opt_str "" (it_published_date item)));
    ("source", VStr "tavily_news")].

(** [InternetSearchTool.search_news] *)
Definition search_news (query : string) (max_results : PyVal)
  : M Backend (list Doc) :=
  try_except
    (match tavily env with
     | None => of_outcome (_get_mock_news_data query max_results)
     | Some tavily_search =>
         let news_query := "news " +:+ query +:+ " 2024" in
         items ← of_outcome (tavily_search news_query max_results "basic");
         let results := map news_result items in
         for_each results (_add_to_vector_store env);;
         log_event "NEWS_SEARCH"
           ("Found " +:+ pretty (length results)
              +:+ " news results for: " +:+ query) "info";;
         mret results
     end)
    (fun e =>
       log_event "NEWS_SEARCH_ERROR" ("News search failed: " +:+ e) "error";;
       of_outcome (_get_mock_news_data query max_results)).

(** [_load_vector_store]: when the pickle file exists, take the index and the
    documents from it; [pickle_load] is what [pickle.load] makes of the stored
    snapshot (the snapshot itself for an intact file, an exception
    otherwise).  Any error empties the cache. *)
Definition _load_vector_store (pickle_load : Cache -> outcome Cache) : M Backend unit :=
  try_except
    (disk ← gets b_disk;
     match disk with
     | Some stored =>
         data ← of_outcome (pickle_load stored);
         modify (fun b =>
           set_cache {| vector_store := vector_store data;
                        documents := documents (b_cache b) |} b);;
         modify (fun b =>
           set_cache {| vector_store := vector_store (b_cache b);
                        documents := documents data |} b);;
         n ← gets (fun b => length (documents (b_cache b)));
         log_event "VECTOR_STORE" ("Loaded " +:+ pretty n +:+ " documents") "info"
     | None => mret tt
     end)
    (fun e =>
       log_event "VECTOR_STORE_ERROR" ("Failed to load vector store: " +:+ e) "error";;
       modify (fun b =>
         set_cache {| vector_store := None; documents := documents (b_cache b) |} b);;
       modify (fun b =>
         set_cache {| vector_store := vector_store (b_cache b); documents := [] |} b)).

End NewsAndPersistence.

(** ** The rest of app/tools/graph_tool.py *)

(** A row of the Cypher query of [get_related_concepts]. *)
Record RelatedRow := {
  rr_title : Column string;
  rr_summary : Column string;
  rr_relationship : Column string;
  rr_rel_confidence : Column Q
}.

Section Related.

Variable env : Env.

(** [neo4j.driver] answering the one-hop query, if there is a driver. *)
Variable related_driver : option (string -> PyVal -> outcome (list RelatedRow)).

(** [neo4j.execute_query] on the one-hop query. *)
Definition execute_related_query (concept_name : string) (max_related : PyVal)
  : M Backend (list RelatedRow) :=
  match related_driver with
  | Some run =>
      if negb (neo4j_connected env) then mret []
      else match run concept_name max_related with
           | Returned rows => mret rows
           | Raised e =>
               log_event "NEO4J_QUERY_ERROR" ("Query failed: " +:+ e) "error";;
               mret []
           end
  | None => mret []
  end.

(** The body of the loop over the rows: a missing [title], [summary] or
    [relationship] and a null [rel_confidence] raise. *)
Definition related_result (concept_name : string) (result : RelatedRow)
  : outcome Doc :=
  and_then (py_item "title" (rr_title result)) (fun title =>
  and_then (py_item "summary" (rr_summary result)) (fun content =>
  and_then (py_item "relationship" (rr_relationship result)) (fun relationship =>
  and_then (py_float (py_get 0.7%Q (rr_rel_confidence result))) (fun confidence =>
  Returned (mk_dict [
    ("type", VStr "graph_related");
    ("title", str_val title);
    ("content", str_val content);
    ("relationship", str_val relationship);
    ("confidence", VFloat confidence);
    ("reference", VStr ("graph:related:" +:+ concept_name))]))))).

Definition get_related_concepts (concept_name : string) (max_related : PyVal)
  : M Backend (list Doc) :=
  try_except
    (if negb (neo4j_connected env) then mret []
     else
       results ← execute_related_query concept_name max_related;
       of_outcome (map_outcome (related_result concept_name) results))
    (fun e =>
       log_event "RELATED_CONCEPTS_ERROR"
         ("Related concepts search failed: " +:+ e) "error";;
       mret []).

End Related.

(** ** Relations between the state before and after a computation *)

(** Every run of [c] takes a state to one related to it by [R], also when it
    raises. *)
Definition relates {St A} (R : St -> St -> Prop) (c : M St A) : Prop :=
  forall s, R s (snd (c s)).

(** The cache stays parallel and its documents are only appended to. *)
Definition cache_grows (c c' : Cache) : Prop :=
  (consistent c -> consistent c')
  /\ exists added, documents c' = documents c ++ added.

Definition backend_grows (b b' : Backend) : Prop :=
  cache_grows (b_cache b) (b_cache b').

Definition world_grows (w w' : World) : Prop :=
  backend_grows (w_backend w) (w_backend w').

(** What the orchestrators need of a toolbox for the cache to stay sound. *)
Definition sound_tools (tools : Toolbox) : Prop :=
  forall query max_results,
    relates backend_grows (graph_search tools query max_results)
    /\ relates backend_grows (web_search tools query max_results)
    /\ relates backend_grows (cache_search tools query max_results).

(** A document of kind [kind] whose confidence is at most [cap]. *)
Definition capped (kind : string) (cap : Q) (doc : Doc) : Prop :=
  doc !! "type" = Some (VStr kind)
  /\ exists c, doc !! "confidence" = Some (VFloat c) /\ (c <= cap)%Q.

(** Every stored vector, if there is an index, has [d] coordinates. *)
Definition index_dim_is (d : nat) (c : Cache) : Prop :=
  forall ix, vector_store c = Some ix -> ix_dim ix = d.


(** The run state only gains documents, completed steps and reasoning notes;
    query and options stay. *)
Definition state_extends (s s' : State.AgentState) : Prop :=
  State.query s' = State.query s
  /\ State.options s' = State.options s
  /\ (exists added, State.all_contexts s' = State.all_contexts s ++ added)
  /\ (exists added, State.steps_completed s' = State.steps_completed s ++ added)
  /\ (exists added, State.reasoning s' = State.reasoning s ++ added).

Definition run_extends (r r' : Run State.AgentState) : Prop :=
  state_extends (r_state r) (r_state r').

(** The environment with no text generator configured. *)
Definition without_llm (env : Env) : Env := {|
  neo4j_connected := neo4j_connected env;
  neo4j_driver := neo4j_driver env;
  tavily := tavily env;
  encode := encode env;
  py_str := py_str env;
  disk_writable := disk_writable env;
  llm := None;
  format_sources := format_sources env;
  create_structured_output := create_structured_output env
|}.

(** A deployment whose text generator fails on every prompt. *)
Definition failing_llm_env : Env := {|
  neo4j_connected := neo4j_connected offline_env;
  neo4j_driver := neo4j_driver offline_env;
  tavily := tavily offline_env;
  encode := encode offline_env;
  py_str := py_str offline_env;
  disk_writable := disk_writable offline_env;
  llm := Some (fun _ _ => Raised "quota exceeded");
  format_sources := format_sources offline_env;
  create_structured_output := create_structured_output offline_env
|}.

(** A graph backend that is connected and whose every query fails. *)
Definition failing_graph_env : Env := {|
  neo4j_connected := true;
  neo4j_driver := Some (fun _ _ => Raised "ServiceUnavailable");
  tavily := tavily offline_env;
  encode := encode offline_env;
  py_str := py_str offline_env;
  disk_writable := disk_writable offline_env;
  llm := llm offline_env;
  format_sources := format_sources offline_env;
  create_structured_output := create_structured_output offline_env
|}.

(** A row of a concept node that has no [confidence] property. *)
Definition unrated_row : Neo4jRow := {|
  r_title := Value "Artificial Intelligence";
  r_summary := Value "Machines that learn and reason.";
  r_category := Value "technology";
  r_confidence := Null;
  r_node_id := Value "n1";
  r_relationships := Value []
|}.

(** A connected graph backend that answers every query with that row. *)
Definition unrated_graph_env : Env := {|
  neo4j_connected := true;
  neo4j_driver := Some (fun _ _ => Returned [unrated_row]);
  tavily := tavily offline_env;
  encode := encode offline_env;
  py_str := py_str offline_env;
  disk_writable := disk_writable offline_env;
  llm := llm offline_env;
  format_sources := format_sources offline_env;
  create_structured_output := create_structured_output offline_env
|}.



(** * Properties *)

(** ** Reasoning about computations *)

Ltac unfold_monad :=
  cbv [mbind mret M_bind M_ret try_except of_outcome gets modify raise
       update read log in_world in_backend call_tool log_event] in *.

Section Triples.

Context {St : Type}.

Lemma returns_ret {A} (a : A) : returns (mret a : M St A).
Proof. intros s. by exists a. Qed.

Lemma returns_bind {A B} (c : M St A) (f : A -> M St B) :
  returns c -> (forall a, returns (f a)) -> returns (c ≫= f).
Proof.
  intros Hc Hf s. destruct (Hc s) as [a Ha].
  unfold mbind, M_bind. destruct (c s) as [o s']. simpl in Ha. subst o.
  apply Hf.
Qed.

Lemma returns_try {A} (c : M St A) (h : string -> M St A) :
  (forall e, returns (h e)) -> returns (try_except c h).
Proof.
  intros Hh s. unfold try_except. destruct (c s) as [[a|e] s'].
  - by exists a.
  - apply Hh.
Qed.

Lemma returns_modify (f : St -> St) : returns (modify f).
Proof. intros s. by exists tt. Qed.

Lemma returns_gets {A} (f : St -> A) : returns (gets f).
Proof. intros s. by exists (f s). Qed.

Lemma keeps_ret {A B} (obs : St -> B) (a : A) : keeps obs (mret a : M St A).
Proof. by intros s. Qed.

Lemma keeps_bind {A B C} (obs : St -> C) (c : M St A) (f : A -> M St B) :
  keeps obs c -> (forall a, keeps obs (f a)) -> keeps obs (c ≫= f).
Proof.
  intros Hc Hf s. specialize (Hc s).
  unfold mbind, M_bind. destruct (c s) as [[a|e] s']; simpl in *.
  - by rewrite Hf.
  - done.
Qed.

Lemma keeps_try {A B} (obs : St -> B) (c : M St A) (h : string -> M St A) :
  keeps obs c -> (forall e, keeps obs (h e)) -> keeps obs (try_except c h).
Proof.
  intros Hc Hh s. specialize (Hc s).
  unfold try_except. destruct (c s) as [[a|e] s']; simpl in *.
  - done.
  - by rewrite Hh.
Qed.

Lemma keeps_modify {B} (obs : St -> B) (f : St -> St) :
  (forall s, obs (f s) = obs s) -> keeps obs (modify f).
Proof. intros Hf s. apply Hf. Qed.

Lemma keeps_gets {A B} (obs : St -> B) (f : St -> A) : keeps obs (gets f).
Proof. by intros s. Qed.

Lemma keeps_of_outcome {A B} (obs : St -> B) (o : outcome A) :
  keeps obs (of_outcome o : M St A).
Proof. by intros s. Qed.

Lemma keeps_raise {A B} (obs : St -> B) (e : string) : keeps obs (raise e : M St A).
Proof. by intros s. Qed.

End Triples.

Section RunTriples.

Context {St B : Type}.
Variable obs : St -> B.

(** An observation of the state dict alone. *)
Let on_state : Run St -> B := fun r => obs (r_state r).

Lemma keeps_update (f : St -> St) :
  (forall s, obs (f s) = obs s) -> keeps on_state (update f).
Proof. intros Hf r. apply Hf. Qed.

Lemma keeps_read {A} (f : St -> A) : keeps on_state (read f).
Proof. by intros r. Qed.

Lemma keeps_in_world {A} (c : M World A) : keeps on_state (in_world c).
Proof. intros r. unfold in_world. by destruct (c (r_world r)). Qed.

Lemma keeps_log (event_type message level : string) :
  keeps on_state (log event_type message level).
Proof. apply keeps_in_world. Qed.

Lemma returns_update (f : St -> St) : returns (update f).
Proof. apply returns_modify. Qed.

Lemma returns_read {A} (f : St -> A) : returns (read f).
Proof. apply returns_gets. Qed.

Lemma returns_log (event_type message level : string) :
  returns (log (St := St) event_type message level).
Proof. intros r. by exists tt. Qed.

End RunTriples.

(** Decompose a goal about a straight-line computation along its binds. *)
Ltac keeps_tac :=
  repeat first
    [ apply keeps_ret
    | apply keeps_read
    | apply keeps_log
    | apply keeps_in_world
    | apply keeps_of_outcome
    | apply keeps_update; intros; reflexivity
    | apply keeps_bind; [| intros ]
    | apply keeps_try; [| intros ]
    | match goal with
      | |- keeps _ (if ?b then _ else _) => destruct b
      | |- keeps _ (match ?x with _ => _ end) => destruct x
      | |- keeps _ (let (_, _) := ?x in _) => destruct x
      end ].

Ltac returns_tac :=
  repeat first
    [ apply returns_ret
    | apply returns_read
    | apply returns_log
    | apply returns_update
    | apply returns_try; intros
    | apply returns_bind; [| intros ]
    | match goal with
      | |- returns (if ?b then _ else _) => destruct b
      end ].

(** ** The steps of nodes.py return and leave [iterations] alone *)

Section NodeFacts.

Import State Nodes.

Variable tools : Toolbox.

Lemma route_query_keeps_iterations : keeps iterations_of route_query.
Proof. unfold route_query. keeps_tac. Qed.

Lemma analyze_query_keeps_iterations : keeps iterations_of analyze_query.
Proof. unfold analyze_query. keeps_tac. Qed.

Lemma search_graph_keeps_iterations : keeps iterations_of (search_graph tools).
Proof. unfold search_graph. keeps_tac. Qed.

Lemma search_internet_keeps_iterations : keeps iterations_of (search_internet tools).
Proof. unfold search_internet. keeps_tac. Qed.

Lemma format_final_answer_keeps_iterations env :
  keeps iterations_of (format_final_answer env).
Proof. unfold format_final_answer. keeps_tac. Qed.

Lemma route_query_returns : returns route_query.
Proof. unfold route_query. returns_tac. Qed.

Lemma analyze_query_returns : returns analyze_query.
Proof. unfold analyze_query. returns_tac. Qed.

Lemma search_graph_returns : returns (search_graph tools).
Proof. unfold search_graph. returns_tac. Qed.

Lemma search_internet_returns : returns (search_internet tools).
Proof. unfold search_internet. returns_tac. Qed.

Lemma step_of_keeps_iterations name :
  keeps iterations_of (Orchestrator.step_of tools name).
Proof.
  unfold Orchestrator.step_of.
  repeat match goal with |- keeps _ (if ?b then _ else _) => destruct b end;
    auto using analyze_query_keeps_iterations, search_graph_keeps_iterations,
      search_internet_keeps_iterations, keeps_ret.
Qed.

Lemma step_of_returns name : returns (Orchestrator.step_of tools name).
Proof.
  unfold Orchestrator.step_of.
  repeat match goal with |- returns (if ?b then _ else _) => destruct b end;
    auto using analyze_query_returns, search_graph_returns, search_internet_returns,
      returns_ret.
Qed.

End NodeFacts.

(** ** C1: the iteration cap *)

Section IterationCap.

Import State Nodes Orchestrator.

Variable tools : Toolbox.

Lemma should_continue_iterations (s : AgentState) :
  iterations (snd (should_continue s)) = iterations s.
Proof.
  unfold should_continue.
  repeat match goal with |- context [if ?b then _ else _] => destruct b end;
    reflexivity.
Qed.

Lemma should_continue_capped (s : AgentState) :
  5 <= iterations s ->
  should_continue s = ("finish", set_max_iterations_reached true s).
Proof.
  intros H. unfold should_continue.
  destruct (5 <=? iterations s) eqn:E; [reflexivity | lia].
Qed.

Lemma should_continue_below_cap (s : AgentState) :
  fst (should_continue s) = "continue" -> iterations s < 5.
Proof.
  unfold should_continue.
  destruct (5 <=? iterations s) eqn:E; [discriminate | lia].
Qed.

(** One unfolding of the loop. *)
Lemma cycles_unfold (fuel : nat) (r : Run AgentState) :
  cycles tools (S fuel) r =
  let ds := should_continue (r_state r) in
  let r1 := {| r_state := snd ds; r_world := r_world r |} in
  if String.eqb (fst ds) "continue" then
    match step_of tools (next_step (snd ds)) r1 with
    | (Returned _, r2) =>
        cycles tools fuel
          {| r_state := set_iterations (iterations (r_state r2) + 1) (r_state r2);
             r_world := r_world r2 |}
    | (Raised e, r2) => (Raised e, r2)
    end
  else (Returned true, r1).
Proof.
  simpl cycles. unfold_monad. simpl.
  destruct (should_continue (r_state r)) as [d s']. simpl.
  destruct (String.eqb d "continue"); [| reflexivity].
  destruct (step_of tools (next_step s') _) as [[[]|e] r2]; reflexivity.
Qed.

Lemma cycles_bounded (fuel : nat) :
  forall r, iterations_of r <= 5 -> iterations_of (snd (cycles tools fuel r)) <= 5.
Proof.
  induction fuel as [|fuel IH]; intros r Hr; [exact Hr |].
  rewrite cycles_unfold. cbv zeta.
  pose proof (should_continue_iterations (r_state r)) as Hit.
  destruct (String.eqb (fst (should_continue (r_state r))) "continue") eqn:Hd.
  - apply String.eqb_eq, should_continue_below_cap in Hd.
    match goal with |- context [step_of tools ?n ?r1] =>
      pose proof (step_of_keeps_iterations tools n r1) as Hstep;
      destruct (step_of tools n r1) as [[[]|e] r2]
    end; unfold iterations_of in *; simpl in *.
    + apply IH. unfold iterations_of. simpl. lia.
    + lia.
  - unfold iterations_of in *. simpl. lia.
Qed.

Lemma cycles_terminate (n : nat) :
  forall r, 5 - iterations_of r <= Z.of_nat n ->
            exists r', cycles tools (S n) r = (Returned true, r').
Proof.
  induction n as [|n IH]; intros r Hr; rewrite cycles_unfold; cbv zeta.
  - rewrite should_continue_capped by (unfold iterations_of in Hr; lia).
    simpl. eauto.
  - pose proof (should_continue_iterations (r_state r)) as Hit.
    destruct (String.eqb (fst (should_continue (r_state r))) "continue") eqn:Hd;
      [| eauto].
    match goal with |- context [step_of tools ?n ?r1] =>
      pose proof (step_of_keeps_iterations tools n r1) as Hstep;
      destruct (step_of_returns tools n r1) as [[] Hret];
      destruct (step_of tools n r1) as [o r2]
    end; simpl in Hret; subst o.
    apply IH. unfold iterations_of in *. simpl in *. lia.
Qed.

End IterationCap.

(** C1.  Started from a state whose [iterations] counter lies between 0 and 5,
    the orchestration reaches its terminal steps within six cycles and ends
    with [iterations <= 5]; the bound holds after any number of cycles.  The
    guard [should_continue] answers "finish" as soon as [iterations >= 5],
    whatever step is pending, and lets a cycle run only below the cap. *)
Theorem iteration_cap (tools : Toolbox) (s : State.AgentState) (w : World)
    (Hinit : 0 <= State.iterations s <= 5) :
  let start := {| r_state := s; r_world := w |} in
  (exists final,
      Orchestrator.orchestrate tools 6 start = (Returned true, final)
      /\ State.iterations (r_state final) <= 5)
  /\ (forall fuel,
        State.iterations (r_state (snd (Orchestrator.orchestrate tools fuel start))) <= 5)
  /\ (forall t pending,
        5 <= State.iterations t ->
        fst (Nodes.should_continue (State.set_next_step pending t)) = "finish")
  /\ (forall t,
        fst (Nodes.should_continue t) = "continue" -> State.iterations t < 5).
Proof.
  intros start.
  assert (Hroute : exists r1, Nodes.route_query start = (Returned tt, r1)
                              /\ iterations_of r1 = State.iterations s).
  { pose proof (route_query_keeps_iterations start) as Hk.
    destruct (route_query_returns start) as [[] Hr].
    destruct (Nodes.route_query start) as [o r1]. simpl in *. subst o. eauto. }
  destruct Hroute as (r1 & Hr1 & Hit1).
  assert (Hbound : forall fuel,
    State.iterations (r_state (snd (Orchestrator.orchestrate tools fuel start))) <= 5).
  { intros fuel. unfold Orchestrator.orchestrate, mbind, M_bind. rewrite Hr1.
    apply cycles_bounded. lia. }
  repeat split.
  - destruct (cycles_terminate tools 5 r1) as [final Hfinal]; [lia |].
    exists final. specialize (Hbound 6%nat).
    unfold Orchestrator.orchestrate, mbind, M_bind in *. rewrite Hr1 in *.
    rewrite Hfinal in *. auto.
  - exact Hbound.
  - intros t pending Ht. by rewrite should_continue_capped.
  - apply should_continue_below_cap.
Qed.

Lemma iteration_cap_witness :
  0 <= State.iterations (start_state "What is AI?" Routes.default_options) <= 5
  /\ exists final,
       Orchestrator.orchestrate (repo_tools offline_env) 6
         {| r_state := start_state "What is AI?" Routes.default_options;
            r_world := fresh_world |} = (Returned true, final)
       /\ State.iterations (r_state final) <= 5.
Proof.
  split.
  - simpl. lia.
  - apply (iteration_cap (repo_tools offline_env)
             (start_state "What is AI?" Routes.default_options) fresh_world).
    simpl. lia.
Defined.

(** ** C10 and C8: the router *)

Section Router.

Import State Nodes.

Lemma next_steps_shape (options : gmap string PyVal) (query : string) :
  next_steps options query =
  "analyze_query"
    :: (if truthy (dict_get options "use_graph" (VBool true))
           && _needs_graph_search (PyStr.lower query)
        then ["search_graph"] else [])
    ++ (if truthy (dict_get options "use_internet" (VBool true))
           && _needs_internet_search (PyStr.lower query)
        then ["search_internet"] else [])
    ++ ["generate_answer"].
Proof.
  unfold next_steps.
  destruct (truthy (dict_get options "use_graph" (VBool true))
            && _needs_graph_search (PyStr.lower query));
    destruct (truthy (dict_get options "use_internet" (VBool true))
              && _needs_internet_search (PyStr.lower query));
    reflexivity.
Qed.

Lemma in_next_steps_internet (options : gmap string PyVal) (query : string) :
  In "search_internet" (next_steps options query)
  <-> truthy (dict_get options "use_internet" (VBool true))
      && _needs_internet_search (PyStr.lower query) = true.
Proof.
  rewrite next_steps_shape.
  destruct (truthy (dict_get options "use_graph" (VBool true))
            && _needs_graph_search (PyStr.lower query));
    destruct (truthy (dict_get options "use_internet" (VBool true))
              && _needs_internet_search (PyStr.lower query));
    simpl; intuition congruence.
Qed.

End Router.


(** C8, as the code has it.  The router's schedule contains the internet
    search exactly when [use_internet] is truthy (absent counts as true) and
    the lowercased query contains, as a substring, one of twelve fixed
    keywords, among them the literal years "2024" and "2025"; the graph
    option and the graph keywords play no part in it. *)
Theorem internet_search_scheduling (options : gmap string PyVal) (query : string) :
  (In "search_internet" (Nodes.next_steps options query)
   <-> truthy (dict_get options "use_internet" (VBool true)) = true
       /\ existsb (fun keyword => PyStr.contains keyword (PyStr.lower query))
            ["latest"; "recent"; "news"; "update"; "current"; "2024"; "2025";
             "today"; "yesterday"; "this week"; "this month"; "trending"] = true)
  /\ (forall use_graph : PyVal,
        In "search_internet" (Nodes.next_steps (<["use_graph" := use_graph]> options) query)
        <-> In "search_internet" (Nodes.next_steps options query)).
Proof.
  split.
  - rewrite in_next_steps_internet, andb_true_iff. reflexivity.
  - intros v. rewrite !in_next_steps_internet.
    unfold dict_get. rewrite lookup_insert_ne by discriminate. reflexivity.
Qed.

(** C8 as the specification states it fails in every year: "order 20245"
    holds no recency keyword and no 4-digit token, yet it contains "2024" and
    so the internet search is scheduled. *)
Lemma internet_scheduling_counterexample :
  ~ exists current_year, Spec.internet_scheduling current_year.
Proof.
  intros [year H]. destruct (H ∅ "order 20245") as [Hcode _].
  assert (Hin : In "search_internet" (Nodes.next_steps ∅ "order 20245"))
    by (vm_compute; tauto).
  destruct (Hcode Hin) as [_ Hspec].
  vm_compute in Hspec. discriminate.
Qed.

(** The literal years do not follow the calendar: in 2026 the query below
    names the current year and is not scheduled. *)
Example internet_scheduling_2026 :
  Spec.needs_internet_search 2026 (PyStr.lower "AI breakthroughs of 2026") = true
  /\ ~ In "search_internet"
         (Nodes.next_steps Routes.default_options "AI breakthroughs of 2026").
Proof. split; [vm_compute; reflexivity | vm_compute; intuition discriminate]. Qed.

(** ** C6: the static fallback of the graph retriever *)

Section Fallback.

Import GraphTool.

(** An appending loop over the table is a filter. *)
Lemma append_loop_filter (p : string * Doc -> bool) (table : list (string * Doc)) :
  forall acc,
    fold_left (fun acc kv => if p kv then acc ++ [snd kv] else acc) table acc
    = acc ++ map snd (List.filter p table).
Proof.
  induction table as [|kv table IH]; intros acc; simpl.
  - by rewrite app_nil_r.
  - rewrite IH. destruct (p kv); simpl; [| reflexivity].
    by rewrite <- app_assoc.
Qed.

Lemma select_relevant_precedence (query : string) :
  (if is_nil (select_relevant query)
   then map snd fallback_knowledge_base
   else select_relevant query)
  = Spec.fallback_precedence (PyStr.lower query).
Proof.
  unfold select_relevant, Spec.fallback_precedence, exact_pass, token_pass.
  cbv zeta. generalize fallback_knowledge_base. intros table.
  rewrite !append_loop_filter, !app_nil_l.
  destruct (map snd (List.filter (fun kv => PyStr.contains _ _) table))
    as [|d exact]; [| reflexivity].
  cbn [is_nil]. rewrite app_nil_l.
  destruct (map snd (List.filter (fun kv => PyStr.any_in _ _) table))
    as [|d overlap]; [| reflexivity].
  cbn [is_nil andb].
  destruct (PyStr.any_in ai_terms (PyStr.lower query)); reflexivity.
Qed.

Lemma fallback_result (query : string) (max_results : PyVal) (b : Backend) :
  fst (_get_fallback_graph_data query max_results b)
  = py_slice_to (Spec.fallback_precedence (PyStr.lower query)) max_results.
Proof.
  unfold _get_fallback_graph_data. rewrite <- select_relevant_precedence.
  unfold_monad.
  destruct (is_nil (select_relevant query));
    match goal with |- context [py_slice_to ?l ?m] => destruct (py_slice_to l m) end;
    reflexivity.
Qed.

Lemma search_offline_result (env : Env) (query : string) (max_results : PyVal)
    (b : Backend) :
  neo4j_connected env = false ->
  fst (search_knowledge_graph env query max_results b)
  = py_slice_to (Spec.fallback_precedence (PyStr.lower query)) max_results.
Proof.
  intros Hoff. unfold search_knowledge_graph. rewrite Hoff. simpl negb. cbv iota.
  unfold try_except.
  pose proof (fallback_result query max_results b) as H1.
  destruct (_get_fallback_graph_data query max_results b) as [[docs|e] b1];
    simpl in H1; [exact H1 |].
  unfold mbind, M_bind. simpl.
  apply fallback_result.
Qed.

End Fallback.

(** C6.  The fallback answers with the first non-empty of: the entries whose
    key occurs in the lowercased query, the entries one of whose key words
    occurs in it, the fixed three-entry bundle when an AI term occurs, the
    whole table; the choice is then cut to [max_results].  The answer does not
    depend on the backend state, the disconnected retriever returns exactly
    it, and "What is AI?" yields the [ai] entry, first and alone. *)
Theorem fallback_selection (env : Env) (query : string) (max_results : PyVal)
    (n : Z) (b : Backend)
    (Hoff : neo4j_connected env = false) (Hn : 1 <= n) :
  fst (GraphTool._get_fallback_graph_data query max_results b)
  = py_slice_to (Spec.fallback_precedence (PyStr.lower query)) max_results
  /\ (forall b',
        fst (GraphTool._get_fallback_graph_data query max_results b')
        = fst (GraphTool._get_fallback_graph_data query max_results b))
  /\ fst (search_knowledge_graph env query max_results b)
     = fst (GraphTool._get_fallback_graph_data query max_results b)
  /\ fst (search_knowledge_graph env "What is AI?" (VInt n) b)
     = Returned [GraphTool.kb_ai].
Proof.
  repeat split.
  - apply fallback_result.
  - intros b'. by rewrite !fallback_result.
  - by rewrite search_offline_result, fallback_result.
  - rewrite search_offline_result by done.
    replace (Spec.fallback_precedence (PyStr.lower "What is AI?"))
      with [GraphTool.kb_ai] by (vm_compute; reflexivity).
    simpl. unfold slice_to.
    destruct (0 <=? n) eqn:E; [| lia].
    destruct (Z.to_nat n) eqn:En; [lia |].
    by rewrite firstn_cons, firstn_nil.
Qed.

Lemma fallback_selection_witness :
  neo4j_connected offline_env = false /\ 1 <= 3
  /\ fst (search_knowledge_graph offline_env "What is AI?" (VInt 3) fresh_backend)
     = Returned [GraphTool.kb_ai].
Proof.
  split; [reflexivity |]. split; [lia |].
  apply (fallback_selection offline_env "What is AI?" (VInt 3) 3 fresh_backend);
    [reflexivity | lia].
Defined.

(** ** C3: insertion into the similarity cache *)

Section CacheInsert.

Variable env : Env.

#[local] Arguments Nat.modulo : simpl never.

Lemma save_returns (b : Backend) :
  fst (_save_vector_store env b) = Returned tt
  /\ b_cache (snd (_save_vector_store env b)) = b_cache b.
Proof.
  unfold _save_vector_store. unfold_monad.
  destruct (disk_writable env); split; reflexivity.
Qed.

Lemma insert_cases (document : Doc) (b : Backend) :
  let result := _add_to_vector_store env document b in
  fst result = Returned tt
  /\ insert_outcome env document (b_cache b) (b_cache (snd result))
       (b_log (snd result)).
Proof.
  destruct b as [[store docs] disk lg].
  unfold _add_to_vector_store. unfold_monad. simpl.
  destruct (document_text env document) as [text|e] eqn:Htext; simpl.
  2: { split; [reflexivity |]. apply (Refused _ _ _ _ _ e); [reflexivity |].
       apply in_or_app. right. by left. }
  destruct (encode env text) as [embedding|e] eqn:Henc; simpl.
  2: { split; [reflexivity |]. apply (Refused _ _ _ _ _ e); [reflexivity |].
       apply in_or_app. right. by left. }
  destruct store as [ix|]; simpl.
  - unfold Faiss.add.
    destruct (length embedding =? ix_dim ix)%nat; simpl.
    + destruct (_ mod 5 =? 0)%nat; simpl.
      * match goal with |- context [_save_vector_store env ?b1] =>
          pose proof (save_returns b1) as [Hs1 Hs2];
          destruct (_save_vector_store env b1) as [o b2]
        end.
        simpl in Hs1, Hs2. subst o. simpl. split; [reflexivity |].
        rewrite Hs2. by apply (Inserted _ _ _ _ _ text embedding).
      * split; [reflexivity |]. by apply (Inserted _ _ _ _ _ text embedding).
    + split; [reflexivity |]. apply (Refused _ _ _ _ _ ""); [reflexivity |].
      apply in_or_app. right. by left.
  - unfold Faiss.add. simpl. rewrite Nat.eqb_refl. simpl.
    destruct (_ mod 5 =? 0)%nat; simpl.
    + match goal with |- context [_save_vector_store env ?b1] =>
        pose proof (save_returns b1) as [Hs1 Hs2];
        destruct (_save_vector_store env b1) as [o b2]
      end.
      simpl in Hs1, Hs2. subst o. simpl. split; [reflexivity |].
      rewrite Hs2. by apply (Inserted _ _ _ _ _ text embedding).
    + split; [reflexivity |]. by apply (Inserted _ _ _ _ _ text embedding).
Qed.

End CacheInsert.

(** C3.  [_add_to_vector_store] never raises and keeps the index and the
    document list the same length.  Either the text was embedded and both the
    vector and the document were appended, or the cache is exactly as before
    and the error went to the log; in particular a failing embedding leaves
    the cache untouched. *)
Theorem insert_keeps_cache_parallel (env : Env) (document : Doc) (b : Backend)
    (Hinv : consistent (b_cache b)) :
  let result := _add_to_vector_store env document b in
  let c := b_cache b in
  let c' := b_cache (snd result) in
  fst result = Returned tt
  /\ consistent c'
  /\ ((exists text embedding,
         document_text env document = Returned text
         /\ encode env text = Returned embedding
         /\ documents c' = documents c ++ [document]
         /\ cache_vectors c' = cache_vectors c ++ [embedding])
      \/ (c' = c
          /\ exists e,
               In {| ev_type := "VECTOR_ADD_ERROR";
                     ev_message := "Failed to add to vector store: " +:+ e;
                     ev_level := "error" |} (b_log (snd result))))
  /\ (forall text e,
        document_text env document = Returned text ->
        encode env text = Raised e ->
        c' = c).
Proof.
  intros result c c'. subst result c c'.
  destruct (insert_cases env document b) as [Hret Hout].
  split; [exact Hret |].
  destruct Hout as [text embedding Htext Henc Hdocs Hvecs | e Hsame Hlog].
  - split; [| split].
    + unfold consistent in *. rewrite Hdocs, Hvecs, !length_app, Hinv. reflexivity.
    + left. eauto 10.
    + intros text' e Htext' Henc'. congruence.
  - split; [| split].
    + by rewrite Hsame.
    + right. eauto.
    + auto.
Qed.

Lemma insert_keeps_cache_parallel_witness :
  consistent (b_cache fresh_backend)
  /\ fst (_add_to_vector_store offline_env GraphTool.kb_ai fresh_backend) = Returned tt.
Proof.
  split; [reflexivity |].
  apply (insert_keeps_cache_parallel offline_env GraphTool.kb_ai fresh_backend).
  reflexivity.
Defined.

(** ** C4: lookup in the similarity cache *)

Section Ranking.

Import Faiss.
Lemma square_nonneg (x : Q) : (0 <= x * x)%Q.
Proof. unfold Qle, Qmult. simpl. nia. Qed.

Lemma l2_nonneg (u : list Q) : forall v, (0 <= l2 u v)%Q.
Proof.
  induction u as [|a u IH]; intros [|c v]; simpl; try lra.
  pose proof (square_nonneg (a - c)). specialize (IH v). lra.
Qed.

Lemma insert_sorted_Forall (P : Z * Q -> Prop) (x : Z * Q) (l : list (Z * Q)) :
  P x -> Forall P l -> Forall P (insert_sorted x l).
Proof.
  intros Hx Hl. induction Hl as [|y l Hy Hl IH]; simpl.
  - by constructor.
  - destruct (Qle_bool (snd x) (snd y)); repeat constructor; assumption.
Qed.

Lemma insert_sorted_length (x : Z * Q) (l : list (Z * Q)) :
  length (insert_sorted x l) = S (length l).
Proof.
  induction l as [|y l IH]; simpl; [reflexivity |].
  destruct (Qle_bool (snd x) (snd y)); simpl; congruence.
Qed.

Lemma insert_sorted_sorted (x : Z * Q) (l : list (Z * Q)) :
  StronglySorted by_distance l -> StronglySorted by_distance (insert_sorted x l).
Proof.
  induction 1 as [|y l Hsorted IH Hy]; simpl.
  - repeat constructor.
  - destruct (Qle_bool (snd x) (snd y)) eqn:Hle.
    + apply Qle_bool_iff in Hle.
      constructor; [by constructor |].
      constructor; [exact Hle |].
      eapply Forall_impl; [exact Hy |].
      intros z Hz. unfold by_distance in *. lra.
    + constructor; [exact IH |].
      apply insert_sorted_Forall; [| exact Hy].
      unfold by_distance.
      destruct (Qlt_le_dec (snd y) (snd x)) as [Hlt | Hge]; [lra |].
      apply Qle_bool_iff in Hge. congruence.
Qed.

Lemma sort_sorted (l : list (Z * Q)) : StronglySorted by_distance (sort_by_distance l).
Proof.
  induction l as [|x l IH]; simpl; [constructor |]. by apply insert_sorted_sorted.
Qed.

Lemma sort_Forall (P : Z * Q -> Prop) (l : list (Z * Q)) :
  Forall P l -> Forall P (sort_by_distance l).
Proof.
  induction 1; simpl; [constructor |]. by apply insert_sorted_Forall.
Qed.

Lemma sort_length (l : list (Z * Q)) : length (sort_by_distance l) = length l.
Proof.
  induction l as [|x l IH]; simpl; [reflexivity |].
  by rewrite insert_sorted_length, IH.
Qed.

Lemma firstn_sorted {A} (R : A -> A -> Prop) (l : list A) :
  StronglySorted R l -> forall n, StronglySorted R (firstn n l).
Proof.
  induction 1 as [|x l Hsorted IH Hx]; intros [|n]; simpl; try constructor.
  - apply IH.
  - by apply Forall_take.
Qed.

Lemma enumerate_from_length {A} (l : list A) :
  forall i, length (enumerate_from i l) = length l.
Proof. induction l as [|a l IH]; intros i; simpl; [reflexivity |]. by rewrite IH. Qed.

Lemma enumerate_from_spec {A} (l : list A) :
  forall i, 0 <= i ->
    Forall (fun ia => i <= fst ia < i + Z.of_nat (length l)
                      /\ nth_error l (Z.to_nat (fst ia - i)) = Some (snd ia))
           (enumerate_from i l).
Proof.
  induction l as [|a l IH]; intros i Hi; simpl; constructor.
  - simpl. split; [lia |]. by rewrite Z.sub_diag.
  - eapply Forall_impl; [apply (IH (i + 1)); lia |].
    intros [j c] [Hj Hnth]. simpl in *. split; [lia |].
    replace (Z.to_nat (j - i)) with (S (Z.to_nat (j - (i + 1)))) by lia.
    exact Hnth.
Qed.
(** With at least [k] vectors stored, [search] returns [k] stored vectors,
    nearest first. *)
Lemma search_ranked (ix : Index) (x : list Q) (k : Z) (hits : list (Z * Q)) :
  search ix x k = Returned hits ->
  k <= Z.of_nat (ntotal ix) ->
  0 < k
  /\ length hits = Z.to_nat k
  /\ StronglySorted by_distance hits
  /\ Forall (names_vector ix x) hits.
Proof.
  unfold search. intros Hsearch Hk.
  destruct (negb (length x =? ix_dim ix)%nat); [discriminate |].
  destruct (k <=? 0) eqn:Hpos; [discriminate |].
  injection Hsearch as <-.
  set (scored := map _ (enumerate_from 0 (ix_vecs ix))).
  assert (Hlen : length (firstn (Z.to_nat k) (sort_by_distance scored)) = Z.to_nat k).
  { apply firstn_length_le. rewrite sort_length. subst scored.
    rewrite length_map, enumerate_from_length. unfold ntotal in Hk. lia. }
  rewrite Hlen, Nat.sub_diag. simpl repeat. rewrite app_nil_r.
  split; [lia |]. split; [exact Hlen |]. split.
  - apply firstn_sorted, sort_sorted.
  - apply Forall_take, sort_Forall. subst scored.
    apply Forall_map.
    eapply Forall_impl; [apply (enumerate_from_spec (ix_vecs ix) 0); lia |].
    intros [j v] [Hj Hnth]. simpl in *. unfold names_vector, ntotal. simpl.
    split; [lia |]. exists v. rewrite Z.sub_0_r in Hnth. auto.
Qed.

End Ranking.

Section Lookup.

Variable env : Env.

#[local] Arguments Faiss.search : simpl never.
#[local] Arguments search_k : simpl never.
#[local] Arguments semantic_hits : simpl never.
#[local] Arguments pretty : simpl never.
Lemma semantic_hits_in_range (docs : list Doc) (hits : list (Z * Q)) :
  Forall (fun hit => 0 <= fst hit < Z.of_nat (length docs)) hits ->
  forall results,
    exists copies,
      semantic_hits docs hits results = Returned (results ++ copies)
      /\ Forall2 (fun copy hit =>
                    exists doc, nth_error docs (Z.to_nat (fst hit)) = Some doc
                                /\ copy = scored_copy doc (snd hit))
                 copies hits.
Proof.
  induction 1 as [|[idx distance] hits [Hlo Hhi] Hhits IH]; intros results.
  - exists []. split; [by rewrite app_nil_r | constructor].
  - simpl in Hlo, Hhi.
    destruct (nth_error docs (Z.to_nat idx)) as [doc|] eqn:Hdoc.
    2: { apply nth_error_None in Hdoc. lia. }
    destruct (IH (results ++ [scored_copy doc distance])) as (copies & Hrest & Hall).
    exists (scored_copy doc distance :: copies). split.
    + unfold semantic_hits; fold semantic_hits. unfold semantic_hit, py_index.
      destruct (idx <? Z.of_nat (length docs)) eqn:E1; [| lia].
      destruct (0 <=? idx) eqn:E2; [| lia].
      destruct (idx <? 0) eqn:E3; [lia |].
      rewrite Hdoc. unfold scored_copy in Hrest. rewrite Hrest.
      by rewrite <- app_assoc.
    + constructor; [| exact Hall]. exists doc. auto.
Qed.

Lemma search_k_bound (max_results : PyVal) (n : nat) (k : Z) :
  search_k max_results n = Returned k ->
  k <= Z.of_nat n /\ (forall z, max_results = VInt z -> k = Z.min z (Z.of_nat n)).
Proof.
  unfold search_k. destruct max_results as [| [] | z | q | | |]; try discriminate.
  - intros [= <-]. split; [lia | discriminate].
  - intros [= <-]. split; [lia | discriminate].
  - intros [= <-]. split; [lia |]. by intros ? [= <-].
  - destruct (Qle_bool q _); [discriminate |].
    intros [= <-]. split; [lia | discriminate].
Qed.

Lemma confidence_range (distance : Q) :
  (0 <= distance ->
   0.1 <= py_max 0.1 (1 - distance / 10) /\ py_max 0.1 (1 - distance / 10) <= 1)%Q.
Proof.
  intros Hd. unfold py_max.
  destruct (Qle_bool (1 - distance / 10) 0.1) eqn:Hle.
  - split; lra.
  - assert (Hgt : (0.1 < 1 - distance / 10)%Q).
    { destruct (Qlt_le_dec 0.1 (1 - distance / 10)) as [Hlt | Hge]; [exact Hlt |].
      apply Qle_bool_iff in Hge. congruence. }
    unfold Qdiv in *. change (/ 10)%Q with (1 # 10)%Q in *. split; lra.
Qed.

End Lookup.

Section RankedLookup.

#[local] Arguments Faiss.search : simpl never.
#[local] Arguments search_k : simpl never.
#[local] Arguments semantic_hits : simpl never.
#[local] Arguments pretty : simpl never.

(** C4, as the code has it.  On a cache whose index and document list have
    the same length, [semantic_search] never raises and leaves the cache as
    it is; it returns nothing from an empty cache and at most [min(k, N)]
    documents otherwise (none for [k <= 0]).  The documents returned follow
    hits in ascending distance, each hit naming a stored vector and its
    squared distance to the query embedding, and each document is the stored
    one with [confidence = max(0.1, 1 - distance/10)], which lies in
    [[0.1, 1]], and [source = "semantic_search"]; its [type] is the stored
    one. *)
Theorem semantic_search_ranked (env : Env) (query : string) (max_results : PyVal)
    (b : Backend) (Hinv : consistent (b_cache b)) :
  let result := semantic_search env query max_results b in
  let docs := documents (b_cache b) in
  exists (results : list Doc) (hits : list (Z * Q)),
    fst result = Returned results
    /\ b_cache (snd result) = b_cache b
    /\ (docs = [] -> results = [])
    /\ (forall k, max_results = VInt k ->
                  Z.of_nat (length results) <= Z.max 0 (Z.min k (Z.of_nat (length docs))))
    /\ StronglySorted by_distance hits
    /\ Forall2 (copy_of_hit env query (b_cache b)) results hits.
Proof.
  intros result docs. subst result docs.
  destruct b as [[store docs] disk lg]. unfold consistent in Hinv. simpl in Hinv.
  unfold semantic_search. unfold_monad. simpl.
  assert (Hempty : forall c : Cache,
    (c = {| vector_store := store; documents := docs |}) ->
    (docs = [] -> ([] : list Doc) = [])
    /\ (forall k, max_results = VInt k ->
                    Z.of_nat (length ([] : list Doc))
                    <= Z.max 0 (Z.min k (Z.of_nat (length docs))))
    /\ StronglySorted by_distance []
    /\ Forall2 (copy_of_hit env query c) [] []).
  { intros c _. repeat split; [simpl; lia | constructor | constructor]. }
  destruct store as [ix|]; [| exists [], []; simpl; eauto].
  destruct (length docs =? 0)%nat eqn:Hlen; [exists [], []; simpl; eauto |].
  destruct (encode env query) as [embedding|e] eqn:Henc;
    [| exists [], []; simpl; eauto].
  destruct (search_k max_results (length docs)) as [k|e] eqn:Hk;
    [| exists [], []; simpl; eauto].
  destruct (Faiss.search ix embedding k) as [hits|e] eqn:Hsearch;
    [| exists [], []; simpl; eauto].
  unfold cache_vectors in Hinv. simpl in Hinv.
  destruct (search_k_bound _ _ _ Hk) as [Hkn Hkint].
  destruct (search_ranked ix embedding k hits Hsearch) as (Hpos & Hcount & Hsorted & Hvec).
  { unfold Faiss.ntotal. lia. }
  destruct (semantic_hits_in_range docs hits) with (results := @nil Doc)
    as (copies & Hcopies & Hall).
  { eapply Forall_impl; [exact Hvec |].
    intros hit [Hrange _]. unfold Faiss.ntotal in Hrange. lia. }
  rewrite Hcopies, app_nil_l. simpl.
  exists copies, hits. split; [reflexivity |]. split; [reflexivity |].
  pose proof (Forall2_length _ _ _ Hall) as Hsame.
  split; [| split; [| split]].
  - intros ->. discriminate.
  - intros z Hz. specialize (Hkint z Hz). lia.
  - exact Hsorted.
  - clear Hcopies Hsame Hcount Hsorted Hsearch.
    induction Hall as [|copy hit copies hits (doc & Hdoc & Hcopy) Hall IH];
      [constructor |].
    apply Forall_cons_1 in Hvec as [(Hrange & v & Hv & Hdist) Hvec].
    constructor; [| by apply IH].
    exists doc, embedding, v. simpl.
    repeat split; try assumption.
    + subst copy. unfold scored_copy.
      by rewrite !lookup_insert_ne by discriminate.
    + apply confidence_range. rewrite Hdist. apply l2_nonneg.
    + apply confidence_range. rewrite Hdist. apply l2_nonneg.
Qed.

End RankedLookup.

Lemma semantic_search_ranked_witness :
  consistent (b_cache cached_backend)
  /\ exists results hits,
       fst (semantic_search offline_env "AI" (VInt 3) cached_backend) = Returned results
       /\ StronglySorted by_distance hits
       /\ Forall2 (copy_of_hit offline_env "AI" (b_cache cached_backend)) results hits.
Proof.
  split; [vm_compute; reflexivity |].
  destruct (semantic_search_ranked offline_env "AI" (VInt 3) cached_backend)
    as (results & hits & Hret & _ & _ & _ & Hsorted & Hall);
    [vm_compute; reflexivity |].
  exists results, hits. auto.
Defined.

(** C4 as stated fails: the copy of a cached web result keeps the kind
    "internet"; it is the [source] key that becomes "semantic_search". *)
Lemma semantic_copy_keeps_kind :
  match fst (semantic_search offline_env "AI" (VInt 3) cached_backend) with
  | Returned [copy] =>
      copy !! "type" = Some (VStr "internet")
      /\ copy !! "type" <> Some (VStr "semantic")
      /\ copy !! "source" = Some (VStr "semantic_search")
  | _ => False
  end.
Proof. vm_compute. repeat split. discriminate. Qed.

(** ** The two-node workflow *)

Section WorkflowFacts.

Import Agent.

Variable env : Env.
Variable tools : Toolbox.

#[local] Arguments pretty : simpl never.

Lemma search_node_run (state : gmap string PyVal) (w : World)
    (query : string) (options : gmap string PyVal) :
  state_query state = Returned query ->
  state_options state = Returned options ->
  let use_graph := truthy (dict_get options "use_graph" (VBool true)) in
  let use_internet := truthy (dict_get options "use_internet" (VBool true)) in
  let limit := dict_get options "max_results" (VInt 3) in
  let b1 := logged "SEARCH_NODE" ("Searching for: " +:+ query) "info" (w_backend w) in
  exists (graph_docs web_docs : list Doc) (b2 b3 : Backend),
    _search_node tools {| r_state := state; r_world := w |}
    = (Returned tt,
       {| r_state :=
            <["total_sources" := VInt (Z.of_nat (length (graph_docs ++ web_docs)))]>
              (<["all_results" := docs_val (graph_docs ++ web_docs)]> state);
          r_world :=
            {| w_backend := b3;
               w_calls := w_calls w
                            ++ (if use_graph then [CallGraph query limit] else [])
                            ++ (if use_internet then [CallInternet query limit] else []) |} |})
    /\ graph_docs
       = (if use_graph
          then match fst (graph_search tools query limit b1) with
               | Returned docs => docs
               | Raised _ => []
               end
          else [])
    /\ web_docs
       = (if use_internet
          then match fst (web_search tools query limit b2) with
               | Returned docs => docs
               | Raised _ => []
               end
          else []).
Proof.
  intros Hquery Hoptions use_graph use_internet limit b1.
  subst use_graph use_internet limit b1.
  unfold _search_node, logged. unfold_monad. simpl. rewrite Hquery, Hoptions. simpl.
  destruct (truthy (dict_get options "use_graph" (VBool true))); simpl.
  - destruct (graph_search tools query _ _) as [[gdocs|e] bg] eqn:Hg; simpl.
    + destruct (truthy (dict_get options "use_internet" (VBool true))); simpl.
      * destruct (web_search tools query _ _) as [[wdocs|e] bw] eqn:Hw; simpl.
        -- eexists gdocs, wdocs, _, _. rewrite Hw. simpl.
           rewrite <- ?app_assoc, ?app_nil_r. repeat split; reflexivity.
        -- eexists gdocs, [], _, _. rewrite Hw. simpl.
           rewrite <- ?app_assoc, ?app_nil_r. repeat split; reflexivity.
      * eexists gdocs, [], _, _. simpl. rewrite <- ?app_assoc, ?app_nil_r. repeat split; reflexivity.
    + destruct (truthy (dict_get options "use_internet" (VBool true))); simpl.
      * destruct (web_search tools query _ _) as [[wdocs|e'] bw] eqn:Hw; simpl.
        -- eexists [], wdocs, _, _. rewrite Hw. simpl. rewrite <- ?app_assoc, ?app_nil_r. repeat split; reflexivity.
        -- eexists [], [], _, _. rewrite Hw. simpl. rewrite <- ?app_assoc, ?app_nil_r. repeat split; reflexivity.
      * eexists [], [], _, _. simpl. rewrite <- ?app_assoc, ?app_nil_r. repeat split; reflexivity.
  - destruct (truthy (dict_get options "use_internet" (VBool true))); simpl.
    + destruct (web_search tools query _ _) as [[wdocs|e'] bw] eqn:Hw; simpl.
      * eexists [], wdocs, _, _. rewrite Hw. simpl. rewrite <- ?app_assoc, ?app_nil_r. repeat split; reflexivity.
      * eexists [], [], _, _. rewrite Hw. simpl. rewrite <- ?app_assoc, ?app_nil_r. repeat split; reflexivity.
    + eexists [], [], _, _. simpl. rewrite <- ?app_assoc, ?app_nil_r. repeat split; reflexivity.
  Unshelve. all: exact fresh_backend.
Qed.

Lemma initial_state_query query options context :
  state_query (initial_state query options context) = Returned query.
Proof. reflexivity. Qed.

Lemma initial_state_options query options context :
  state_options (initial_state query options context) = Returned (or_empty options).
Proof. reflexivity. Qed.

Lemma generate_node_empty (state : gmap string PyVal) (w : World) :
  truthy (dict_get state "all_results" (VList [])) = false ->
  _generate_node env {| r_state := state; r_world := w |}
  = (Returned tt,
     {| r_state :=
          <["structured_output" := VDict no_answer_output]>
            (<["sources" := VList []]> (<["answer" := VStr no_answer]> state));
        r_world := w |}).
Proof.
  intros Hempty. unfold _generate_node. unfold_monad. simpl.
  rewrite Hempty. reflexivity.
Qed.

End WorkflowFacts.

(** C5.  When the [use_graph] and [use_internet] options are both given and
    falsy, no retriever is called, the search step stores an empty
    [all_results], and the generate step answers with the fixed
    "insufficient information" text, an empty source list and the fixed
    structured output, whether or not a text generator is configured;
    [process_query] returns exactly that as a success. *)
Theorem no_sources_short_circuit (env : Env) (tools : Toolbox) (query : string)
    (options context : option (gmap string PyVal)) (w : World)
    (Hgraph : truthy (dict_get (Agent.or_empty options) "use_graph" (VBool true)) = false)
    (Hweb : truthy (dict_get (Agent.or_empty options) "use_internet" (VBool true)) = false) :
  let start :=
    {| r_state := Agent.initial_state query options context; r_world := w |} in
  let searched := snd (Agent._search_node tools start) in
  let generated := snd (Agent._generate_node env searched) in
  let result := Agent.process_query env tools query options context w in
  r_state searched !! "all_results" = Some (VList [])
  /\ r_state generated !! "answer" = Some (VStr Agent.no_answer)
  /\ r_state generated !! "sources" = Some (VList [])
  /\ r_state generated !! "structured_output" = Some (VDict Agent.no_answer_output)
  /\ fst result
     = Returned (Agent.Success (VStr Agent.no_answer) (VList [])
                   (VDict Agent.no_answer_output) (Agent.response_context context))
  /\ w_calls (snd result) = w_calls w.
Proof.
  intros start searched generated result.
  assert (Hrun : forall w0,
    exists b3,
      Agent._search_node tools
        {| r_state := Agent.initial_state query options context; r_world := w0 |}
      = (Returned tt,
         {| r_state :=
              <["total_sources" := VInt 0]>
                (<["all_results" := VList []]>
                   (Agent.initial_state query options context));
            r_world := {| w_backend := b3; w_calls := w_calls w0 |} |})).
  { intros w0.
    destruct (search_node_run tools (Agent.initial_state query options context) w0
                query (Agent.or_empty options) eq_refl eq_refl)
      as (gd & wd & b2 & b3 & Hrun & Hg & Hw).
    rewrite Hgraph in Hrun, Hg. rewrite Hweb in Hrun, Hw. subst gd wd.
    simpl in Hrun. rewrite app_nil_r in Hrun. eauto. }
  assert (Hgen : forall w0,
    Agent._generate_node env
      {| r_state :=
           <["total_sources" := VInt 0]>
             (<["all_results" := VList []]>
                (Agent.initial_state query options context));
         r_world := w0 |}
    = (Returned tt,
       {| r_state :=
            <["structured_output" := VDict Agent.no_answer_output]>
              (<["sources" := VList []]>
                 (<["answer" := VStr Agent.no_answer]>
                    (<["total_sources" := VInt 0]>
                       (<["all_results" := VList []]>
                          (Agent.initial_state query options context)))));
          r_world := w0 |})).
  { intros w0. apply generate_node_empty. reflexivity. }
  subst start searched generated result.
  destruct (Hrun w) as [b3 Hw]. rewrite Hw. simpl snd. rewrite Hgen. simpl snd.
  split; [reflexivity |]. split; [reflexivity |]. split; [reflexivity |].
  split; [reflexivity |].
  unfold Agent.process_query, Agent.with_state, Agent.graph_invoke.
  unfold_monad.
  edestruct Hrun as [b4 Hs]. rewrite Hs. rewrite Hgen.
  unfold Agent.dict_item. cbn [r_state r_world].
  rewrite lookup_insert_ne by discriminate.
  rewrite lookup_insert_ne by discriminate.
  rewrite lookup_insert_eq.
  rewrite lookup_insert_ne by discriminate.
  rewrite lookup_insert_eq.
  rewrite lookup_insert_eq.
  split; reflexivity.
Qed.

Lemma no_sources_short_circuit_witness :
  let options :=
    Some (mk_dict [("use_graph", VBool false); ("use_internet", VBool false)]) in
  truthy (dict_get (Agent.or_empty options) "use_graph" (VBool true)) = false
  /\ truthy (dict_get (Agent.or_empty options) "use_internet" (VBool true)) = false
  /\ fst (Agent.process_query offline_env (repo_tools offline_env) "What is AI?"
            options None fresh_world)
     = Returned (Agent.Success (VStr Agent.no_answer) (VList [])
                   (VDict Agent.no_answer_output) None).
Proof.
  intros options. split; [reflexivity |]. split; [reflexivity |].
  apply (no_sources_short_circuit offline_env (repo_tools offline_env) "What is AI?"
           options None fresh_world); reflexivity.
Defined.

(** ** C2: a failing retriever in the steps of nodes.py *)

Section StepFailure.

Import State Nodes.

Variable tools : Toolbox.

#[local] Arguments pretty : simpl never.

Lemma graph_step_failure (s : AgentState) (w : World) (e : string) :
  truthy (dict_get (options s) "use_graph" (VBool true)) = true ->
  fst (graph_search tools (query s) (dict_get (options s) "max_results" (VInt 5))
         (logged "GRAPH_NODE" ("Searching graph for: " +:+ query s) "info"
            (w_backend w))) = Raised e ->
  let result := search_graph tools {| r_state := s; r_world := w |} in
  let s' := r_state (snd result) in
  fst result = Returned tt
  /\ last_error s' = Some ("Graph search error: " +:+ e)
  /\ all_contexts s' = all_contexts s
  /\ graph_results s' = graph_results s
  /\ steps_completed s' = steps_completed s ++ ["search_graph"]
  /\ next_step s'
     = Some (if truthy (dict_get (options s) "use_internet" (VBool true))
             then "search_internet" else "generate_answer")
  /\ options s' = options s
  /\ query s' = query s
  /\ w_calls (r_world (snd result))
     = w_calls w
         ++ [CallGraph (query s) (dict_get (options s) "max_results" (VInt 5))].
Proof.
  intros Hflag Hfail. unfold logged in Hfail. simpl in Hfail.
  unfold search_graph. unfold_monad. simpl. rewrite Hflag. simpl.
  destruct (graph_search tools (query s) _ _) as [[docs|e'] b1]; simpl in Hfail;
    [discriminate |].
  injection Hfail as ->. simpl. repeat split; reflexivity.
Qed.

Lemma internet_step_failure (s : AgentState) (w : World) (e : string) :
  truthy (dict_get (options s) "use_internet" (VBool true)) = true ->
  fst (web_search tools (query s) (dict_get (options s) "max_results" (VInt 5))
         (logged "INTERNET_NODE" ("Searching internet for: " +:+ query s) "info"
            (w_backend w))) = Raised e ->
  let result := search_internet tools {| r_state := s; r_world := w |} in
  let s' := r_state (snd result) in
  fst result = Returned tt
  /\ last_error s' = Some ("Internet search error: " +:+ e)
  /\ all_contexts s' = all_contexts s
  /\ internet_results s' = internet_results s
  /\ steps_completed s' = steps_completed s ++ ["search_internet"]
  /\ next_step s' = Some "generate_answer"
  /\ w_calls (r_world (snd result))
     = w_calls w
         ++ [CallInternet (query s) (dict_get (options s) "max_results" (VInt 5))].
Proof.
  intros Hflag Hfail. unfold logged in Hfail. simpl in Hfail.
  unfold search_internet. unfold_monad. simpl. rewrite Hflag. simpl.
  destruct (web_search tools (query s) _ _) as [[docs|e'] b1]; simpl in Hfail;
    [discriminate |].
  injection Hfail as ->. simpl. repeat split; reflexivity.
Qed.

(** The internet step calls the web retriever whatever happened before. *)
Lemma internet_step_calls (s : AgentState) (w : World) :
  truthy (dict_get (options s) "use_internet" (VBool true)) = true ->
  exists rest,
    w_calls (r_world (snd (search_internet tools {| r_state := s; r_world := w |})))
    = w_calls w
        ++ CallInternet (query s) (dict_get (options s) "max_results" (VInt 5))
        :: rest.
Proof.
  intros Hflag. unfold search_internet. unfold_monad. simpl. rewrite Hflag. simpl.
  destruct (web_search tools (query s) _ _) as [[docs|e'] b1]; simpl.
  - destruct (py_floordiv2 _) as [half|e']; simpl.
    + destruct (cache_search tools (query s) half _) as [[sem|e'] b2]; simpl;
        rewrite <- app_assoc; eauto.
    + eauto.
  - eauto.
Qed.

Lemma cache_lookup_failure (s : AgentState) (w : World) (docs : list Doc)
    (bw : Backend) (half : PyVal) (e : string) :
  truthy (dict_get (options s) "use_internet" (VBool true)) = true ->
  web_search tools (query s) (dict_get (options s) "max_results" (VInt 5))
    (logged "INTERNET_NODE" ("Searching internet for: " +:+ query s) "info"
       (w_backend w)) = (Returned docs, bw) ->
  py_floordiv2 (dict_get (options s) "max_results" (VInt 5)) = Returned half ->
  fst (cache_search tools (query s) half bw) = Raised e ->
  let result := search_internet tools {| r_state := s; r_world := w |} in
  let s' := r_state (snd result) in
  fst result = Returned tt
  /\ last_error s' = Some ("Internet search error: " +:+ e)
  /\ all_contexts s' = all_contexts s ++ docs
  /\ steps_completed s' = steps_completed s ++ ["search_internet"]
  /\ next_step s' = Some "generate_answer".
Proof.
  intros Hflag Hweb Hhalf Hfail. unfold logged in Hweb. simpl in Hweb.
  unfold search_internet. unfold_monad. simpl. rewrite Hflag. simpl.
  rewrite Hweb. simpl. rewrite Hhalf. simpl.
  destruct (cache_search tools (query s) half bw) as [[sem|e'] b2]; simpl in Hfail;
    [discriminate |].
  injection Hfail as ->. simpl. repeat split; reflexivity.
Qed.

(** The same failure inside [_search_node]: caught and logged, nothing more. *)
Lemma search_node_failure (state : gmap string PyVal) (w : World)
    (query : string) (options : gmap string PyVal) (e : string) :
  Agent.state_query state = Returned query ->
  Agent.state_options state = Returned options ->
  truthy (dict_get options "use_graph" (VBool true)) = true ->
  fst (graph_search tools query (dict_get options "max_results" (VInt 3))
         (logged "SEARCH_NODE" ("Searching for: " +:+ query) "info" (w_backend w)))
  = Raised e ->
  let limit := dict_get options "max_results" (VInt 3) in
  let use_internet := truthy (dict_get options "use_internet" (VBool true)) in
  let failed :=
    snd (graph_search tools query limit
           (logged "SEARCH_NODE" ("Searching for: " +:+ query) "info" (w_backend w))) in
  let reported :=
    logged "GRAPH_SEARCH_ERROR" ("Graph search failed: " +:+ e) "error" failed in
  let web := web_search tools query limit reported in
  let web_docs :=
    if use_internet
    then match fst web with Returned docs => docs | Raised _ => [] end
    else [] in
  let result := Agent._search_node tools {| r_state := state; r_world := w |} in
  let state' := r_state (snd result) in
  fst result = Returned tt
  /\ state' !! "last_error" = state !! "last_error"
  /\ state' !! "all_results" = Some (docs_val web_docs)
  /\ state' !! "total_sources" = Some (VInt (Z.of_nat (length web_docs)))
  /\ (forall key, key <> "all_results" -> key <> "total_sources" ->
        state' !! key = state !! key)
  /\ b_log reported
     = b_log failed
         ++ [{| ev_type := "GRAPH_SEARCH_ERROR";
                ev_message := "Graph search failed: " +:+ e;
                ev_level := "error" |}]
  /\ w_backend (r_world (snd result))
     = (if use_internet
        then match fst web with
             | Returned docs =>
                 logged "INTERNET_SEARCH"
                   ("Found " +:+ pretty (length docs) +:+ " internet results") "info"
                   (snd web)
             | Raised e' =>
                 logged "INTERNET_SEARCH_ERROR" ("Internet search failed: " +:+ e')
                   "error" (snd web)
             end
        else reported)
  /\ w_calls (r_world (snd result))
     = w_calls w
         ++ CallGraph query limit
         :: (if use_internet then [CallInternet query limit] else []).
Proof.
  intros Hquery Hoptions Hflag Hfail. cbv zeta.
  unfold Agent._search_node, logged. unfold_monad. simpl.
  rewrite Hquery, Hoptions. simpl. rewrite Hflag. simpl.
  unfold logged in Hfail. unfold_monad. simpl in Hfail.
  destruct (graph_search tools query _ _) as [[gdocs|e0] bg]; simpl in Hfail;
    [discriminate |].
  injection Hfail as ->. simpl.
  destruct (truthy (dict_get options "use_internet" (VBool true))); simpl.
  - destruct (web_search tools query _ _) as [[wdocs|e'] bw]; simpl;
      (split; [reflexivity |]);
      (split; [by rewrite !lookup_insert_ne by discriminate |]);
      (split; [by simplify_map_eq |]);
      (split; [by simplify_map_eq |]);
      (split; [intros key H1 H2; by rewrite !lookup_insert_ne |]);
      (split; [reflexivity |]);
      (split; [reflexivity |]);
      by rewrite <- app_assoc.
  - (split; [reflexivity |]);
      (split; [by rewrite !lookup_insert_ne by discriminate |]);
      (split; [by simplify_map_eq |]);
      (split; [by simplify_map_eq |]);
      (split; [intros key H1 H2; by rewrite !lookup_insert_ne |]);
      (split; [reflexivity |]);
      (split; [reflexivity |]);
      reflexivity.
Qed.

(** A failure of the web retriever inside [_search_node]. *)
Lemma search_node_web_failure (state : gmap string PyVal) (w : World)
    (query : string) (options : gmap string PyVal) (e : string) :
  let limit := dict_get options "max_results" (VInt 3) in
  let use_graph := truthy (dict_get options "use_graph" (VBool true)) in
  let graph :=
    graph_search tools query limit
      (logged "SEARCH_NODE" ("Searching for: " +:+ query) "info" (w_backend w)) in
  let graph_docs :=
    if use_graph
    then match fst graph with Returned docs => docs | Raised _ => [] end
    else [] in
  let searched :=
    if use_graph
    then match fst graph with
         | Returned docs =>
             logged "GRAPH_SEARCH"
               ("Found " +:+ pretty (length docs) +:+ " graph results") "info"
               (snd graph)
         | Raised e' =>
             logged "GRAPH_SEARCH_ERROR" ("Graph search failed: " +:+ e') "error"
               (snd graph)
         end
    else logged "SEARCH_NODE" ("Searching for: " +:+ query) "info" (w_backend w) in
  Agent.state_query state = Returned query ->
  Agent.state_options state = Returned options ->
  truthy (dict_get options "use_internet" (VBool true)) = true ->
  fst (web_search tools query limit searched) = Raised e ->
  let result := Agent._search_node tools {| r_state := state; r_world := w |} in
  let state' := r_state (snd result) in
  fst result = Returned tt
  /\ state' !! "last_error" = state !! "last_error"
  /\ state' !! "all_results" = Some (docs_val graph_docs)
  /\ state' !! "total_sources" = Some (VInt (Z.of_nat (length graph_docs)))
  /\ (forall key, key <> "all_results" -> key <> "total_sources" ->
        state' !! key = state !! key)
  /\ w_backend (r_world (snd result))
     = logged "INTERNET_SEARCH_ERROR" ("Internet search failed: " +:+ e) "error"
         (snd (web_search tools query limit searched))
  /\ w_calls (r_world (snd result))
     = w_calls w
         ++ (if use_graph then [CallGraph query limit] else [])
         ++ [CallInternet query limit].
Proof.
  cbv zeta. intros Hquery Hoptions Hflag.
  unfold Agent._search_node, logged. unfold_monad. simpl.
  rewrite Hquery, Hoptions. simpl. rewrite Hflag. simpl.
  destruct (truthy (dict_get options "use_graph" (VBool true))); simpl.
  - destruct (graph_search tools query _ _) as [[gdocs|e0] bg]; simpl; intros Hfail;
      destruct (web_search tools query _ _) as [[wdocs|e'] bw]; simpl in Hfail;
      try discriminate; injection Hfail as ->; simpl;
      rewrite ?app_nil_r;
      (split; [reflexivity |]);
      (split; [by rewrite !lookup_insert_ne by discriminate |]);
      (split; [by simplify_map_eq |]);
      (split; [by simplify_map_eq |]);
      (split; [intros key H1 H2; by rewrite !lookup_insert_ne |]);
      (split; [reflexivity |]);
      by rewrite <- app_assoc.
  - intros Hfail.
    destruct (web_search tools query _ _) as [[wdocs|e'] bw]; simpl in Hfail;
      try discriminate; injection Hfail as ->; simpl.
    (split; [reflexivity |]);
      (split; [by rewrite !lookup_insert_ne by discriminate |]);
      (split; [by simplify_map_eq |]);
      (split; [by simplify_map_eq |]);
      (split; [intros key H1 H2; by rewrite !lookup_insert_ne |]);
      (split; [reflexivity |]);
      reflexivity.
Qed.

End StepFailure.

Lemma step_of_search_internet (tools : Toolbox) :
  Orchestrator.step_of tools (Some "search_internet") = Nodes.search_internet tools.
Proof. reflexivity. Qed.

(** C2, as the code has it.  In the steps of nodes.py an exception of the
    graph retriever is caught: the step returns, [last_error] holds the
    message, no document is added, the step is marked completed and
    [next_step] advances, so that the internet step still runs and calls the
    web retriever.  An exception of the web retriever is handled the same way;
    one raised by the cache lookup that follows a successful web search is
    recorded too, with the web documents already appended.  In [_search_node],
    the workflow that [process_query] runs, the exception is caught and
    logged only, as one GRAPH_SEARCH_ERROR event: the state gets no
    [last_error] and no key other than [all_results] and [total_sources]
    changes, the failing source adds no document ([all_results] holds exactly
    what the web retriever returned, nothing when it is switched off or raises
    too), and the web retriever is still called, on the backend that holds
    the logged failure.  A failure of the web retriever there is handled the
    same way: one INTERNET_SEARCH_ERROR event, [all_results] holding exactly
    the graph documents, and the graph retriever called before it. *)
Theorem retriever_failure_isolated (tools : Toolbox) (s : State.AgentState)
    (w : World) (e : string)
    (Hgraph : truthy (dict_get (State.options s) "use_graph" (VBool true)) = true)
    (Hfail :
       fst (graph_search tools (State.query s)
              (dict_get (State.options s) "max_results" (VInt 5))
              (logged "GRAPH_NODE" ("Searching graph for: " +:+ State.query s) "info"
                 (w_backend w))) = Raised e) :
  let limit := dict_get (State.options s) "max_results" (VInt 5) in
  let use_internet := truthy (dict_get (State.options s) "use_internet" (VBool true)) in
  let result := Nodes.search_graph tools {| r_state := s; r_world := w |} in
  let s' := r_state (snd result) in
  (fst result = Returned tt
   /\ State.last_error s' = Some ("Graph search error: " +:+ e)
   /\ State.all_contexts s' = State.all_contexts s
   /\ State.steps_completed s' = State.steps_completed s ++ ["search_graph"]
   /\ State.next_step s'
      = Some (if use_internet then "search_internet" else "generate_answer")
   /\ w_calls (r_world (snd result)) = w_calls w ++ [CallGraph (State.query s) limit])
  /\ (use_internet = true ->
      exists rest,
        w_calls (r_world (snd (Orchestrator.step_of tools (State.next_step s')
                                 (snd result))))
        = w_calls w
            ++ CallGraph (State.query s) limit
            :: CallInternet (State.query s) limit :: rest)
  /\ (forall (s2 : State.AgentState) (w2 : World) (e2 : string),
        truthy (dict_get (State.options s2) "use_internet" (VBool true)) = true ->
        fst (web_search tools (State.query s2)
               (dict_get (State.options s2) "max_results" (VInt 5))
               (logged "INTERNET_NODE"
                  ("Searching internet for: " +:+ State.query s2) "info"
                  (w_backend w2))) = Raised e2 ->
        let result2 := Nodes.search_internet tools {| r_state := s2; r_world := w2 |} in
        fst result2 = Returned tt
        /\ State.last_error (r_state (snd result2))
           = Some ("Internet search error: " +:+ e2)
        /\ State.all_contexts (r_state (snd result2)) = State.all_contexts s2
        /\ State.steps_completed (r_state (snd result2))
           = State.steps_completed s2 ++ ["search_internet"]
        /\ State.next_step (r_state (snd result2)) = Some "generate_answer")
  /\ (forall (s2 : State.AgentState) (w2 : World) (docs : list Doc) (bw : Backend)
             (half : PyVal) (e2 : string),
        truthy (dict_get (State.options s2) "use_internet" (VBool true)) = true ->
        web_search tools (State.query s2)
          (dict_get (State.options s2) "max_results" (VInt 5))
          (logged "INTERNET_NODE" ("Searching internet for: " +:+ State.query s2) "info"
             (w_backend w2)) = (Returned docs, bw) ->
        py_floordiv2 (dict_get (State.options s2) "max_results" (VInt 5))
        = Returned half ->
        fst (cache_search tools (State.query s2) half bw) = Raised e2 ->
        let result2 := Nodes.search_internet tools {| r_state := s2; r_world := w2 |} in
        fst result2 = Returned tt
        /\ State.last_error (r_state (snd result2))
           = Some ("Internet search error: " +:+ e2)
        /\ State.all_contexts (r_state (snd result2)) = State.all_contexts s2 ++ docs)
  /\ (forall (state : gmap string PyVal) (w2 : World) (query : string)
             (options : gmap string PyVal) (e2 : string),
        Agent.state_query state = Returned query ->
        Agent.state_options state = Returned options ->
        truthy (dict_get options "use_graph" (VBool true)) = true ->
        fst (graph_search tools query (dict_get options "max_results" (VInt 3))
               (logged "SEARCH_NODE" ("Searching for: " +:+ query) "info"
                  (w_backend w2))) = Raised e2 ->
        let limit2 := dict_get options "max_results" (VInt 3) in
        let web_enabled := truthy (dict_get options "use_internet" (VBool true)) in
        let failed :=
          snd (graph_search tools query limit2
                 (logged "SEARCH_NODE" ("Searching for: " +:+ query) "info"
                    (w_backend w2))) in
        let reported :=
          logged "GRAPH_SEARCH_ERROR" ("Graph search failed: " +:+ e2) "error" failed in
        let web := web_search tools query limit2 reported in
        let web_docs :=
          if web_enabled
          then match fst web with Returned docs => docs | Raised _ => [] end
          else [] in
        let result2 := Agent._search_node tools {| r_state := state; r_world := w2 |} in
        let state' := r_state (snd result2) in
        fst result2 = Returned tt
        /\ state' !! "last_error" = state !! "last_error"
        /\ state' !! "all_results" = Some (docs_val web_docs)
        /\ state' !! "total_sources" = Some (VInt (Z.of_nat (length web_docs)))
        /\ (forall key, key <> "all_results" -> key <> "total_sources" ->
              state' !! key = state !! key)
        /\ b_log reported
           = b_log failed
               ++ [{| ev_type := "GRAPH_SEARCH_ERROR";
                      ev_message := "Graph search failed: " +:+ e2;
                      ev_level := "error" |}]
        /\ w_backend (r_world (snd result2))
           = (if web_enabled
              then match fst web with
                   | Returned docs =>
                       logged "INTERNET_SEARCH"
                         ("Found " +:+ pretty (length docs) +:+ " internet results")
                         "info" (snd web)
                   | Raised e' =>
                       logged "INTERNET_SEARCH_ERROR"
                         ("Internet search failed: " +:+ e') "error" (snd web)
                   end
              else reported)
        /\ w_calls (r_world (snd result2))
           = w_calls w2
               ++ CallGraph query limit2
               :: (if web_enabled then [CallInternet query limit2] else []))
  /\ (forall (state : gmap string PyVal) (w2 : World) (query : string)
             (options : gmap string PyVal) (e2 : string),
        let limit2 := dict_get options "max_results" (VInt 3) in
        let graph_enabled := truthy (dict_get options "use_graph" (VBool true)) in
        let graph :=
          graph_search tools query limit2
            (logged "SEARCH_NODE" ("Searching for: " +:+ query) "info"
               (w_backend w2)) in
        let graph_docs :=
          if graph_enabled
          then match fst graph with Returned docs => docs | Raised _ => [] end
          else [] in
        let searched :=
          if graph_enabled
          then match fst graph with
               | Returned docs =>
                   logged "GRAPH_SEARCH"
                     ("Found " +:+ pretty (length docs) +:+ " graph results") "info"
                     (snd graph)
               | Raised e' =>
                   logged "GRAPH_SEARCH_ERROR" ("Graph search failed: " +:+ e')
                     "error" (snd graph)
               end
          else logged "SEARCH_NODE" ("Searching for: " +:+ query) "info"
                 (w_backend w2) in
        Agent.state_query state = Returned query ->
        Agent.state_options state = Returned options ->
        truthy (dict_get options "use_internet" (VBool true)) = true ->
        fst (web_search tools query limit2 searched) = Raised e2 ->
        let result2 := Agent._search_node tools {| r_state := state; r_world := w2 |} in
        let state' := r_state (snd result2) in
        fst result2 = Returned tt
        /\ state' !! "last_error" = state !! "last_error"
        /\ state' !! "all_results" = Some (docs_val graph_docs)
        /\ state' !! "total_sources" = Some (VInt (Z.of_nat (length graph_docs)))
        /\ (forall key, key <> "all_results" -> key <> "total_sources" ->
              state' !! key = state !! key)
        /\ w_backend (r_world (snd result2))
           = logged "INTERNET_SEARCH_ERROR" ("Internet search failed: " +:+ e2) "error"
               (snd (web_search tools query limit2 searched))
        /\ w_calls (r_world (snd result2))
           = w_calls w2
               ++ (if graph_enabled then [CallGraph query limit2] else [])
               ++ [CallInternet query limit2]).
Proof.
  intros limit use_internet result s'. subst limit use_internet result s'.
  destruct (graph_step_failure tools s w e Hgraph Hfail)
    as (Hret & Herr & Hctx & _ & Hsteps & Hnext & Hopts & Hquery & Hcalls).
  split; [repeat (split; [assumption |]); assumption |].
  split.
  { intros Hweb. rewrite Hnext, Hweb, step_of_search_internet.
    destruct (Nodes.search_graph tools _) as [o [s1 w1]].
    cbn [snd r_state r_world] in *.
    destruct (internet_step_calls tools s1 w1) as [rest Hrest];
      [by rewrite Hopts |].
    exists rest. rewrite Hrest, Hcalls, Hopts, Hquery, <- app_assoc. reflexivity. }
  split.
  { intros s2 w2 e2 Hflag2 Hfail2.
    destruct (internet_step_failure tools s2 w2 e2 Hflag2 Hfail2)
      as (? & ? & ? & _ & ? & ? & _).
    repeat (split; [assumption |]); assumption. }
  split.
  { intros s2 w2 docs bw half e2 Hflag2 Hweb2 Hhalf Hfail2.
    destruct (cache_lookup_failure tools s2 w2 docs bw half e2 Hflag2 Hweb2 Hhalf Hfail2)
      as (? & ? & ? & _).
    repeat (split; [assumption |]); assumption. }
  split.
  { intros state w2 query options e2 Hq Ho Hflag2 Hfail2.
    exact (search_node_failure tools state w2 query options e2 Hq Ho Hflag2 Hfail2). }
  intros state w2 query options e2.
  exact (search_node_web_failure tools state w2 query options e2).
Qed.

Lemma retriever_failure_isolated_witness :
  let s := start_state "What is AI?" (mk_dict [("max_results", VStr "5")]) in
  let e := "slice indices must be integers or None or have an __index__ method" in
  truthy (dict_get (State.options s) "use_graph" (VBool true)) = true
  /\ fst (graph_search (repo_tools offline_env) (State.query s)
            (dict_get (State.options s) "max_results" (VInt 5))
            (logged "GRAPH_NODE" ("Searching graph for: " +:+ State.query s) "info"
               (w_backend fresh_world))) = Raised e
  /\ State.last_error
       (r_state (snd (Nodes.search_graph (repo_tools offline_env)
                        {| r_state := s; r_world := fresh_world |})))
     = Some ("Graph search error: " +:+ e).
Proof.
  intros s e.
  assert (Hgraph : truthy (dict_get (State.options s) "use_graph" (VBool true)) = true)
    by (vm_compute; reflexivity).
  assert (Hfail :
    fst (graph_search (repo_tools offline_env) (State.query s)
           (dict_get (State.options s) "max_results" (VInt 5))
           (logged "GRAPH_NODE" ("Searching graph for: " +:+ State.query s) "info"
              (w_backend fresh_world))) = Raised e)
    by (vm_compute; reflexivity).
  split; [exact Hgraph |]. split; [exact Hfail |].
  destruct (retriever_failure_isolated (repo_tools offline_env) s fresh_world e
              Hgraph Hfail) as ((_ & Herr & _) & _).
  exact Herr.
Defined.

(** C2 as stated fails for the workflow that is run: with a [max_results]
    the retrievers cannot slice by, the graph retriever raises inside
    [_search_node], the node returns, and its state has no [last_error] (nor
    any step bookkeeping). *)
Lemma search_node_drops_error :
  let tools := repo_tools offline_env in
  let options := mk_dict [("max_results", VStr "5")] in
  let start :=
    {| r_state := Agent.initial_state "What is AI?" (Some options) None;
       r_world := fresh_world |} in
  let e := "slice indices must be integers or None or have an __index__ method" in
  fst (graph_search tools "What is AI?" (VStr "5")
         (logged "SEARCH_NODE" "Searching for: What is AI?" "info" fresh_backend))
  = Raised e
  /\ fst (Agent._search_node tools start) = Returned tt
  /\ r_state (snd (Agent._search_node tools start)) !! "last_error" = None
  /\ r_state (snd (Agent._search_node tools start)) !! "steps_completed" = None
  /\ r_state (snd (Agent._search_node tools start)) !! "next_step" = None.
Proof. repeat split; vm_compute; reflexivity. Qed.

(** ** C7: the result limit handed to the retrievers *)

Section CallTrace.

Context {St : Type}.

Lemma calls_update (f : St -> St) : keeps calls_of (update f).
Proof. by intros r. Qed.

Lemma calls_read {A} (f : St -> A) : keeps calls_of (read f).
Proof. by intros r. Qed.

Lemma calls_log (event_type message level : string) :
  keeps calls_of (log (St := St) event_type message level).
Proof. by intros r. Qed.

End CallTrace.

Ltac calls_tac :=
  repeat first
    [ apply keeps_ret
    | apply calls_read
    | apply calls_log
    | apply calls_update
    | apply keeps_of_outcome
    | apply keeps_bind; [| intros ]
    | apply keeps_try; [| intros ]
    | match goal with
      | |- keeps _ (if ?b then _ else _) => destruct b
      | |- keeps _ (match ?x with _ => _ end) => destruct x
      end ].

Section Limits.

Import Agent.

Variable env : Env.
Variable tools : Toolbox.

#[local] Arguments pretty : simpl never.

Lemma generate_node_calls : keeps calls_of (_generate_node env).
Proof. unfold _generate_node, _generate_fallback_answer. calls_tac. Qed.

Lemma process_query_calls (query : string) (options context : option (gmap string PyVal))
    (w : World) :
  let use_graph := truthy (dict_get (or_empty options) "use_graph" (VBool true)) in
  let use_internet := truthy (dict_get (or_empty options) "use_internet" (VBool true)) in
  let limit := dict_get (or_empty options) "max_results" (VInt 3) in
  w_calls (snd (process_query env tools query options context w))
  = w_calls w
      ++ (if use_graph then [CallGraph query limit] else [])
      ++ (if use_internet then [CallInternet query limit] else []).
Proof.
  cbv zeta. unfold process_query, with_state, graph_invoke. unfold_monad.
  match goal with |- context [_search_node tools {| r_state := _; r_world := ?w1 |}] =>
    destruct (search_node_run tools (initial_state query options context) w1
                query (or_empty options) eq_refl eq_refl)
      as (gdocs & wdocs & b2 & b3 & Hrun & _ & _)
  end.
  rewrite Hrun. clear Hrun.
  match goal with |- context [_generate_node env ?r1] =>
    pose proof (generate_node_calls r1) as Hgen;
    destruct (_generate_node env r1) as [[[]|e] r2]
  end; unfold calls_of in Hgen; cbn [snd r_world w_calls w_backend] in *.
  - repeat match goal with
           | |- context [dict_item ?d ?k] => destruct (dict_item d k)
           end; cbn [snd r_world w_calls]; exact Hgen.
  - exact Hgen.
Qed.

End Limits.

(** C7 on the code.  A request without [options] falls back to the declared
    defaults and both retrievers are called with the limit 5; a request whose
    [options] leave [max_results] out, or are [null], has both retrievers
    called with the limit 3, the default written in [_search_node]. *)
Theorem omitted_max_results_limit (env : Env) (tools : Toolbox) (query : string)
    (context : option (gmap string PyVal)) (w : World) :
  let partial := mk_dict [("use_graph", VBool true); ("use_internet", VBool true)] in
  Routes.options (Routes.parse_request query None None) = Some Routes.default_options
  /\ w_calls (snd (Agent.process_query env tools query
                     (Some Routes.default_options) context w))
     = w_calls w ++ [CallGraph query (VInt 5); CallInternet query (VInt 5)]
  /\ Routes.options (Routes.parse_request query None (Some (Some partial)))
     = Some partial
  /\ w_calls (snd (Agent.process_query env tools query (Some partial) context w))
     = w_calls w ++ [CallGraph query (VInt 3); CallInternet query (VInt 3)]
  /\ w_calls (snd (Agent.process_query env tools query None context w))
     = w_calls w ++ [CallGraph query (VInt 3); CallInternet query (VInt 3)].
Proof.
  intros partial. subst partial.
  split; [reflexivity |]. split; [by rewrite process_query_calls |].
  split; [reflexivity |]. split; by rewrite process_query_calls.
Qed.

(** ** C9: blank queries *)

Lemma lstrip_blank (query : string) :
  Spec.blank query = true -> PyStr.lstrip query = "".
Proof.
  induction query as [|c rest IH]; simpl; [reflexivity |].
  intros [Hc Hrest]%andb_true_iff. rewrite Hc. auto.
Qed.

Lemma strip_blank (query : string) :
  Spec.blank query = true -> PyStr.strip query = "".
Proof. intros H. unfold PyStr.strip. by rewrite lstrip_blank. Qed.

(** The graph step of nodes.py takes its limit with the default 5. *)
Lemma graph_step_limit (tools : Toolbox) (s : State.AgentState) (w : World) :
  truthy (dict_get (State.options s) "use_graph" (VBool true)) = true ->
  w_calls (r_world (snd (Nodes.search_graph tools {| r_state := s; r_world := w |})))
  = w_calls w
      ++ [CallGraph (State.query s) (dict_get (State.options s) "max_results" (VInt 5))].
Proof.
  intros Hflag. unfold Nodes.search_graph. unfold_monad. simpl. rewrite Hflag. simpl.
  destruct (graph_search tools (State.query s) _ _) as [[docs|e] b1]; reflexivity.
Qed.

(** C9.  For an empty or whitespace-only query the endpoint raises the HTTP
    400 error with code INVALID_REQUEST; it does so after logging the request
    and nothing else: no retriever is called and the cache is untouched. *)
Theorem blank_query_rejected (env : Env) (tools : Toolbox)
    (request : Routes.QueryRequest) (user : string) (w : World)
    (Hblank : Spec.blank (Routes.query request) = true) :
  let result := Routes.agent_query_endpoint env tools request user w in
  fst result
  = Returned (Routes.HTTPException 400 "INVALID_REQUEST" "Query cannot be empty")
  /\ w_calls (snd result) = w_calls w
  /\ b_cache (w_backend (snd result)) = b_cache (w_backend w)
  /\ b_log (w_backend (snd result))
     = b_log (w_backend w)
         ++ [{| ev_type := "LANGGRAPH_API";
                ev_message := "User: " +:+ user +:+ ", Query: "
                              +:+ PyStr.take 100 (Routes.query request) +:+ "...";
                ev_level := "info" |}].
Proof.
  intros result. subst result.
  unfold Routes.agent_query_endpoint. unfold_monad.
  rewrite (strip_blank _ Hblank). simpl String.length.
  rewrite orb_true_r. repeat split; reflexivity.
Qed.

Lemma blank_query_rejected_witness :
  Spec.blank (Routes.query (Routes.parse_request "   " None None)) = true
  /\ fst (Routes.agent_query_endpoint offline_env (repo_tools offline_env)
            (Routes.parse_request "   " None None) "agent" fresh_world)
     = Returned (Routes.HTTPException 400 "INVALID_REQUEST" "Query cannot be empty").
Proof.
  split; [reflexivity |].
  apply (blank_query_rejected offline_env (repo_tools offline_env)
           (Routes.parse_request "   " None None) "agent" fresh_world).
  reflexivity.
Defined.

(** * Further properties *)

(** ** The web retriever without a search client *)

Lemma slice_to_length {A} (l : list A) (n : Z) :
  length (slice_to l n)
  = Z.to_nat (if 0 <=? n then Z.min n (Z.of_nat (length l))
              else Z.of_nat (length l) + n).
Proof.
  unfold slice_to. destruct (0 <=? n) eqn:Hn; rewrite length_take; lia.
Qed.

Lemma slice_to_Forall {A} (P : A -> Prop) (l : list A) (n : Z) :
  Forall P l -> Forall P (slice_to l n).
Proof. intros H. unfold slice_to. destruct (0 <=? n); by apply Forall_take. Qed.

(** X1.  Without a search client [search_internet] answers from its two mock
    documents cut to the limit (a negative limit counting from the end), all
    of kind "internet" and source "mock", and leaves the backend, cache and
    log included, exactly as it was. *)
Theorem mock_web_search (env : Env) (query : string) (n : Z) (b : Backend)
    (Hoffline : tavily env = None) :
  exists docs,
    search_internet env query (VInt n) b = (Returned docs, b)
    /\ length docs = Z.to_nat (if 0 <=? n then Z.min n 2 else 2 + n)
    /\ Forall (fun doc => doc !! "type" = Some (VStr "internet")
                          /\ doc !! "source" = Some (VStr "mock")) docs.
Proof.
  unfold search_internet, try_except, of_outcome, _get_mock_internet_data.
  rewrite Hoffline. cbn [py_slice_to]. eexists. split; [reflexivity |]. split.
  - by rewrite slice_to_length.
  - apply slice_to_Forall. repeat constructor.
Qed.

Lemma mock_web_search_witness :
  tavily offline_env = None
  /\ exists docs,
       search_internet offline_env "AI" (VInt 5) fresh_backend
       = (Returned docs, fresh_backend)
       /\ length docs = 2%nat.
Proof.
  split; [reflexivity |].
  destruct (mock_web_search offline_env "AI" 5 fresh_backend eq_refl)
    as (docs & Hrun & Hlen & _).
  exists docs. split; [exact Hrun | exact Hlen].
Defined.

(** X2.  Without a search client [search_news] answers from its single mock
    document cut to the limit, of kind "news", and leaves the backend exactly
    as it was. *)
Theorem mock_news_search (env : Env) (query : string) (n : Z) (b : Backend)
    (Hoffline : tavily env = None) :
  exists docs,
    search_news env query (VInt n) b = (Returned docs, b)
    /\ length docs = Z.to_nat (if 0 <=? n then Z.min n 1 else 1 + n)
    /\ Forall (fun doc => doc !! "type" = Some (VStr "news")
                          /\ doc !! "source" = Some (VStr "mock_news")) docs.
Proof.
  unfold search_news, try_except, of_outcome, _get_mock_news_data.
  rewrite Hoffline. cbn [py_slice_to]. eexists. split; [reflexivity |]. split.
  - by rewrite slice_to_length.
  - apply slice_to_Forall. repeat constructor.
Qed.

Lemma mock_news_search_witness :
  tavily offline_env = None
  /\ exists docs,
       search_news offline_env "AI" (VInt 5) fresh_backend
       = (Returned docs, fresh_backend)
       /\ length docs = 1%nat.
Proof.
  split; [reflexivity |].
  destruct (mock_news_search offline_env "AI" 5 fresh_backend eq_refl)
    as (docs & Hrun & Hlen & _).
  exists docs. split; [exact Hrun | exact Hlen].
Defined.

(** ** The cache under the retrievers *)

Section Relates.

Context {St : Type}.
Variable R : St -> St -> Prop.
Hypothesis R_refl : forall s, R s s.
Hypothesis R_trans : forall s1 s2 s3, R s1 s2 -> R s2 s3 -> R s1 s3.

Lemma relates_ret {A} (a : A) : relates R (mret a : M St A).
Proof. intros s. apply R_refl. Qed.

Lemma relates_of_outcome {A} (o : outcome A) : relates R (of_outcome o : M St A).
Proof. intros s. apply R_refl. Qed.

Lemma relates_raise {A} (e : string) : relates R (raise e : M St A).
Proof. intros s. apply R_refl. Qed.

Lemma relates_gets {A} (f : St -> A) : relates R (gets f).
Proof. intros s. apply R_refl. Qed.

Lemma relates_modify (f : St -> St) : (forall s, R s (f s)) -> relates R (modify f).
Proof. intros Hf s. apply Hf. Qed.

Lemma relates_bind {A B} (c : M St A) (f : A -> M St B) :
  relates R c -> (forall a, relates R (f a)) -> relates R (c ≫= f).
Proof.
  intros Hc Hf s. specialize (Hc s). unfold mbind, M_bind.
  destruct (c s) as [[a|e] s']; simpl in *; [| exact Hc].
  eapply R_trans; [exact Hc | apply Hf].
Qed.

Lemma relates_try {A} (c : M St A) (h : string -> M St A) :
  relates R c -> (forall e, relates R (h e)) -> relates R (try_except c h).
Proof.
  intros Hc Hh s. specialize (Hc s). unfold try_except.
  destruct (c s) as [[a|e] s']; simpl in *; [exact Hc |].
  eapply R_trans; [exact Hc | apply Hh].
Qed.

Lemma relates_for_each {A} (xs : list A) (body : A -> M St unit) :
  (forall x, relates R (body x)) -> relates R (for_each xs body).
Proof.
  intros Hbody. induction xs as [|x xs IH]; simpl.
  - apply relates_ret.
  - apply relates_bind; [apply Hbody | intros _; exact IH].
Qed.

End Relates.

Lemma cache_grows_refl (c : Cache) : cache_grows c c.
Proof. split; [auto |]. exists []. by rewrite app_nil_r. Qed.

Lemma cache_grows_trans (c1 c2 c3 : Cache) :
  cache_grows c1 c2 -> cache_grows c2 c3 -> cache_grows c1 c3.
Proof.
  intros [H12 [a12 Ha12]] [H23 [a23 Ha23]]. split; [auto |].
  exists (a12 ++ a23). by rewrite Ha23, Ha12, app_assoc.
Qed.

Lemma backend_grows_refl (b : Backend) : backend_grows b b.
Proof. apply cache_grows_refl. Qed.

Lemma backend_grows_trans (b1 b2 b3 : Backend) :
  backend_grows b1 b2 -> backend_grows b2 b3 -> backend_grows b1 b3.
Proof. apply cache_grows_trans. Qed.

Lemma world_grows_refl (w : World) : world_grows w w.
Proof. apply cache_grows_refl. Qed.

Lemma world_grows_trans (w1 w2 w3 : World) :
  world_grows w1 w2 -> world_grows w2 w3 -> world_grows w1 w3.
Proof. apply cache_grows_trans. Qed.

Lemma log_event_grows (event_type message level : string) :
  relates backend_grows (log_event event_type message level).
Proof. intros b. apply cache_grows_refl. Qed.

Lemma insert_grows (env : Env) (document : Doc) :
  relates backend_grows (_add_to_vector_store env document).
Proof.
  intros b. destruct (insert_cases env document b) as [_ Hout].
  destruct Hout as [text embedding _ _ Hdocs Hvecs | e Hsame _].
  - split; [| eauto]. unfold consistent. intros Hinv.
    by rewrite Hdocs, Hvecs, !length_app, Hinv.
  - unfold backend_grows. rewrite Hsame. apply cache_grows_refl.
Qed.

(** Decompose a goal [relates R c] along the structure of [c], given that [R]
    is reflexive and transitive and how to settle the primitive steps. *)
Ltac relates_tac refl trans leaf :=
  repeat first
    [ leaf
    | apply relates_ret; [apply refl]
    | apply relates_of_outcome; [apply refl]
    | apply relates_raise; [apply refl]
    | apply relates_gets; [apply refl]
    | apply relates_bind; [apply trans | | intros ]
    | apply relates_try; [apply trans | | intros ]
    | apply relates_for_each; [apply refl | apply trans | intros ]
    | match goal with
      | |- relates _ (if ?b then _ else _) => destruct b
      | |- relates _ (match ?x with _ => _ end) => destruct x
      end ].

Ltac grows_tac :=
  relates_tac backend_grows_refl backend_grows_trans
    ltac:(first [apply log_event_grows | apply insert_grows]).

Section ToolsGrow.

Variable env : Env.


Lemma search_internet_grows (query : string) (max_results : PyVal) :
  relates backend_grows (search_internet env query max_results).
Proof.
  unfold search_internet. grows_tac.
Qed.

Lemma search_news_grows (query : string) (max_results : PyVal) :
  relates backend_grows (search_news env query max_results).
Proof.
  unfold search_news. grows_tac.
Qed.

Lemma semantic_search_grows (query : string) (max_results : PyVal) :
  relates backend_grows (semantic_search env query max_results).
Proof. unfold semantic_search. grows_tac. Qed.

Lemma search_knowledge_graph_grows (query : string) (max_results : PyVal) :
  relates backend_grows (search_knowledge_graph env query max_results).
Proof.
  unfold search_knowledge_graph, GraphTool._get_fallback_graph_data, execute_query.
  grows_tac.
Qed.

End ToolsGrow.

Section WorkflowGrows.

Lemma in_backend_grows {A} (c : M Backend A) :
  relates backend_grows c -> relates world_grows (in_backend c).
Proof.
  intros Hc w. specialize (Hc (w_backend w)). unfold in_backend, world_grows.
  by destruct (c (w_backend w)).
Qed.

Lemma call_tool_grows {A} (call : Call) (tool : M Backend A) :
  relates backend_grows tool -> relates world_grows (call_tool call tool).
Proof.
  intros Hc w. specialize (Hc (w_backend w)). unfold call_tool, world_grows.
  by destruct (tool (w_backend w)).
Qed.

Context {St : Type}.

(** The cache of the world a run holds. *)
Let run_grows (r r' : Run St) : Prop := world_grows (r_world r) (r_world r').

Lemma run_grows_refl (r : Run St) : run_grows r r.
Proof. apply cache_grows_refl. Qed.

Lemma run_grows_trans (r1 r2 r3 : Run St) :
  run_grows r1 r2 -> run_grows r2 r3 -> run_grows r1 r3.
Proof. apply cache_grows_trans. Qed.

Lemma in_world_grows {A} (c : M World A) :
  relates world_grows c -> relates run_grows (in_world c).
Proof.
  intros Hc r. specialize (Hc (r_world r)). unfold in_world, run_grows.
  by destruct (c (r_world r)).
Qed.

Lemma update_grows (f : St -> St) : relates run_grows (update f).
Proof. intros r. apply cache_grows_refl. Qed.

Lemma read_grows {A} (f : St -> A) : relates run_grows (read f).
Proof. intros r. apply cache_grows_refl. Qed.

Lemma log_grows (event_type message level : string) :
  relates run_grows (log event_type message level).
Proof. apply in_world_grows, in_backend_grows, log_event_grows. Qed.

Lemma with_state_grows {A} (initial : St) (c : M (Run St) A) :
  relates run_grows c -> relates world_grows (Agent.with_state initial c).
Proof.
  intros Hc w. specialize (Hc {| r_state := initial; r_world := w |}).
  unfold Agent.with_state, run_grows in *.
  by destruct (c _) as [[a|e] r].
Qed.

End WorkflowGrows.

Ltac run_grows_tac :=
  relates_tac run_grows_refl run_grows_trans
    ltac:(first [apply update_grows | apply read_grows | apply log_grows]).

Section AgentGrows.

Variable env : Env.

Lemma repo_tools_sound : sound_tools (repo_tools env).
Proof.
  intros query max_results. split; [| split].
  - apply search_knowledge_graph_grows.
  - apply search_internet_grows.
  - apply semantic_search_grows.
Qed.

Variable tools : Toolbox.
Hypothesis tools_ok : sound_tools tools.

Lemma search_node_grows :
  relates (fun r r' => world_grows (r_world r) (r_world r')) (Agent._search_node tools).
Proof.
  unfold Agent._search_node. run_grows_tac;
    apply in_world_grows, call_tool_grows, tools_ok.
Qed.

Lemma generate_node_grows :
  relates (fun r r' => world_grows (r_world r) (r_world r')) (Agent._generate_node env).
Proof. unfold Agent._generate_node, Agent._generate_fallback_answer. run_grows_tac. Qed.

Lemma process_query_grows query options context :
  relates world_grows (Agent.process_query env tools query options context).
Proof.
  unfold Agent.process_query, Agent.graph_invoke.
  relates_tac world_grows_refl world_grows_trans
    ltac:(first [ apply in_backend_grows, log_event_grows
                | apply with_state_grows ]).
  apply relates_bind;
    [apply run_grows_trans | apply search_node_grows
    | intros; apply generate_node_grows].
Qed.

Lemma endpoint_grows request user :
  relates world_grows (Routes.agent_query_endpoint env tools request user).
Proof.
  unfold Routes.agent_query_endpoint.
  relates_tac world_grows_refl world_grows_trans
    ltac:(first [ apply in_backend_grows, log_event_grows
                | apply process_query_grows ]).
Qed.

Lemma search_graph_step_grows :
  relates (fun r r' => world_grows (r_world r) (r_world r')) (Nodes.search_graph tools).
Proof.
  unfold Nodes.search_graph. run_grows_tac;
    apply in_world_grows, call_tool_grows, tools_ok.
Qed.

Lemma search_internet_step_grows :
  relates (fun r r' => world_grows (r_world r) (r_world r'))
    (Nodes.search_internet tools).
Proof.
  unfold Nodes.search_internet. run_grows_tac;
    apply in_world_grows, call_tool_grows, tools_ok.
Qed.

End AgentGrows.

(** X4.  Every operation of the retrievers, either search step of nodes.py,
    [process_query] and the endpoint, run on the repository's tools, keep the
    similarity cache parallel (index and document list of equal length) when
    it was, and only ever append to its documents. *)
Theorem cache_stays_parallel (env : Env) (query : string) (max_results : PyVal)
    (options context : option (gmap string PyVal)) (request : Routes.QueryRequest)
    (user : string) (s : State.AgentState) (b : Backend) (w : World) :
  backend_grows b (snd (search_internet env query max_results b))
  /\ backend_grows b (snd (search_news env query max_results b))
  /\ backend_grows b (snd (semantic_search env query max_results b))
  /\ backend_grows b (snd (search_knowledge_graph env query max_results b))
  /\ world_grows w
       (r_world (snd (Nodes.search_graph (repo_tools env)
                        {| r_state := s; r_world := w |})))
  /\ world_grows w
       (r_world (snd (Nodes.search_internet (repo_tools env)
                        {| r_state := s; r_world := w |})))
  /\ world_grows w
       (snd (Agent.process_query env (repo_tools env) query options context w))
  /\ world_grows w
       (snd (Routes.agent_query_endpoint env (repo_tools env) request user w)).
Proof.
  split; [apply search_internet_grows |].
  split; [apply search_news_grows |].
  split; [apply semantic_search_grows |].
  split; [apply search_knowledge_graph_grows |].
  split.
  { exact (search_graph_step_grows _ (repo_tools_sound env)
             {| r_state := s; r_world := w |}). }
  split.
  { exact (search_internet_step_grows _ (repo_tools_sound env)
             {| r_state := s; r_world := w |}). }
  split; [apply process_query_grows, repo_tools_sound |].
  apply endpoint_grows, repo_tools_sound.
Qed.

(** ** The web retriever with a search client *)

Lemma for_each_insert_returns (env : Env) (docs : list Doc) :
  forall b, fst (for_each docs (_add_to_vector_store env) b) = Returned tt.
Proof.
  induction docs as [|doc docs IH]; intros b; [reflexivity |].
  simpl for_each. unfold mbind, M_bind.
  destruct (insert_cases env doc b) as [Hret _].
  destruct (_add_to_vector_store env doc b) as [o b1]. simpl in Hret. subst o.
  apply IH.
Qed.

Lemma py_min_cap (cap x : Q) : (py_min cap x <= cap)%Q.
Proof.
  unfold py_min. destruct (Qle_bool cap x) eqn:Hle; [lra |].
  destruct (Qlt_le_dec x cap) as [Hlt | Hge]; [lra |].
  apply Qle_bool_iff in Hge. congruence.
Qed.

Section Capped.

Variable env : Env.

#[local] Arguments pretty : simpl never.

Lemma mock_web_capped (query : string) (n : Z) :
  exists docs,
    _get_mock_internet_data query (VInt n) = Returned docs
    /\ Forall (capped "internet" 0.9) docs.
Proof.
  unfold _get_mock_internet_data. cbn [py_slice_to]. eexists. split; [reflexivity |].
  apply slice_to_Forall. repeat constructor; eexists; (split; [reflexivity |]); lra.
Qed.

Lemma mock_news_capped (query : string) (n : Z) :
  exists docs,
    _get_mock_news_data query (VInt n) = Returned docs
    /\ Forall (capped "news" 0.85) docs.
Proof.
  unfold _get_mock_news_data. cbn [py_slice_to]. eexists. split; [reflexivity |].
  apply slice_to_Forall. repeat constructor; eexists; (split; [reflexivity |]); lra.
Qed.

Lemma search_internet_capped (query : string) (n : Z) (b : Backend) :
  exists docs,
    fst (search_internet env query (VInt n) b) = Returned docs
    /\ Forall (capped "internet" 0.9) docs.
Proof.
  destruct (mock_web_capped query n) as (mock & Hmock & Hcap).
  unfold search_internet. unfold_monad. rewrite Hmock.
  destruct (tavily env) as [tavily_search|]; [| eauto].
  destruct (tavily_search query (VInt n) "advanced") as [items|e]; [| eauto].
  pose proof (for_each_insert_returns env (map internet_result items) b) as Hins.
  destruct (for_each _ _ b) as [o b1]. simpl in Hins. subst o. simpl.
  eexists. split; [reflexivity |].
  apply Forall_map, Forall_forall. intros item _. split; [reflexivity |].
  eexists. split; [reflexivity |]. apply py_min_cap.
Qed.

Lemma search_news_capped (query : string) (n : Z) (b : Backend) :
  exists docs,
    fst (search_news env query (VInt n) b) = Returned docs
    /\ Forall (capped "news" 0.85) docs.
Proof.
  destruct (mock_news_capped query n) as (mock & Hmock & Hcap).
  unfold search_news. unfold_monad. rewrite Hmock.
  destruct (tavily env) as [tavily_search|]; [| eauto].
  destruct (tavily_search _ (VInt n) "basic") as [items|e]; [| eauto].
  pose proof (for_each_insert_returns env (map news_result items) b) as Hins.
  destruct (for_each _ _ b) as [o b1]. simpl in Hins. subst o. simpl.
  eexists. split; [reflexivity |].
  apply Forall_map, Forall_forall. intros item _. split; [reflexivity |].
  eexists. split; [reflexivity |]. apply py_min_cap.
Qed.

End Capped.

(** X3.  Whether the search client answers, fails or is absent,
    [search_internet] and [search_news] return for every integer limit, and
    every document they return has kind "internet" with confidence at most
    0.9, respectively kind "news" with confidence at most 0.85. *)
Theorem web_results_capped (env : Env) (query : string) (n : Z) (b : Backend) :
  (exists docs,
      fst (search_internet env query (VInt n) b) = Returned docs
      /\ Forall (capped "internet" 0.9) docs)
  /\ (exists docs,
        fst (search_news env query (VInt n) b) = Returned docs
        /\ Forall (capped "news" 0.85) docs).
Proof. split; [apply search_internet_capped | apply search_news_capped]. Qed.

(** ** What a successful insertion leaves in the cache *)

Section InsertSuccess.

Variable env : Env.

#[local] Arguments Nat.modulo : simpl never.

Lemma insert_success (document : Doc) (b : Backend) (text : string)
    (embedding : list Q) :
  document_text env document = Returned text ->
  encode env text = Returned embedding ->
  index_dim_is (length embedding) (b_cache b) ->
  let b' := snd (_add_to_vector_store env document b) in
  documents (b_cache b') = documents (b_cache b) ++ [document]
  /\ cache_vectors (b_cache b') = cache_vectors (b_cache b) ++ [embedding]
  /\ (exists ix, vector_store (b_cache b') = Some ix
                 /\ ix_dim ix = length embedding)
  /\ index_dim_is (length embedding) (b_cache b').
Proof.
  intros Htext Henc Hdim. destruct b as [[store docs] disk lg].
  unfold index_dim_is in *. simpl in Hdim.
  unfold _add_to_vector_store. unfold_monad. simpl.
  rewrite Htext. simpl. rewrite Henc. simpl.
  destruct store as [ix|]; simpl.
  - unfold Faiss.add. rewrite (Hdim ix eq_refl), Nat.eqb_refl. simpl.
    destruct (_ mod 5 =? 0)%nat; simpl.
    + match goal with |- context [_save_vector_store env ?b1] =>
        pose proof (save_returns env b1) as [Hs1 Hs2];
        destruct (_save_vector_store env b1) as [o b2]
      end.
      simpl in Hs1, Hs2. subst o. simpl. rewrite Hs2. simpl.
      repeat split; eauto. intros ix' [= <-]. reflexivity.
    + repeat split; eauto. intros ix' [= <-]. reflexivity.
  - unfold Faiss.add. simpl. rewrite Nat.eqb_refl. simpl.
    destruct (_ mod 5 =? 0)%nat; simpl.
    + match goal with |- context [_save_vector_store env ?b1] =>
        pose proof (save_returns env b1) as [Hs1 Hs2];
        destruct (_save_vector_store env b1) as [o b2]
      end.
      simpl in Hs1, Hs2. subst o. simpl. rewrite Hs2. simpl.
      repeat split; eauto. intros ix' [= <-]. reflexivity.
    + repeat split; eauto. intros ix' [= <-]. reflexivity.
Qed.

End InsertSuccess.

Section Learning.

Variable env : Env.

#[local] Arguments pretty : simpl never.



End Learning.



(** ** Insert, then look up *)

Section RoundTrip.

Import Faiss.

Lemma l2_self (v : list Q) : (l2 v v == 0)%Q.
Proof. induction v as [|a v IH]; simpl; [reflexivity |]. rewrite IH. ring. Qed.

Lemma insert_sorted_In (x y : Z * Q) (l : list (Z * Q)) :
  In y (insert_sorted x l) <-> y = x \/ In y l.
Proof.
  induction l as [|z l IH]; simpl; [intuition |].
  destruct (Qle_bool (snd x) (snd z)); simpl; [intuition |].
  rewrite IH. intuition.
Qed.

Lemma sort_In (y : Z * Q) (l : list (Z * Q)) :
  In y (sort_by_distance l) <-> In y l.
Proof.
  induction l as [|x l IH]; simpl; [reflexivity |].
  rewrite insert_sorted_In, IH. intuition.
Qed.

Lemma enumerate_from_In {A} (l : list A) :
  forall (i : Z) (n : nat) (a : A),
    nth_error l n = Some a -> In (i + Z.of_nat n, a) (enumerate_from i l).
Proof.
  induction l as [|x l IH]; intros i [|n] a Hnth; simpl in *; try discriminate.
  - injection Hnth as ->. left. f_equal. lia.
  - right. replace (i + Z.of_nat (S n)) with (i + 1 + Z.of_nat n) by lia.
    apply (IH (i + 1) n a Hnth).
Qed.

(** The first hit is at least as near as any stored vector. *)
Lemma search_head (ix : Index) (x : list Q) (k : Z) (hits : list (Z * Q))
    (n : nat) (v : list Q) :
  search ix x k = Returned hits ->
  nth_error (ix_vecs ix) n = Some v ->
  exists hit rest, hits = hit :: rest /\ (snd hit <= l2 x v)%Q.
Proof.
  unfold search. intros Hsearch Hnth.
  destruct (negb (length x =? ix_dim ix)%nat); [discriminate |].
  destruct (k <=? 0) eqn:Hpos; [discriminate |].
  injection Hsearch as <-.
  set (scored := map _ (enumerate_from 0 (ix_vecs ix))).
  assert (Hin : In (Z.of_nat n, l2 x v) (sort_by_distance scored)).
  { apply sort_In. subst scored. apply in_map_iff.
    exists (Z.of_nat n, v). split; [reflexivity |].
    apply (enumerate_from_In (ix_vecs ix) 0 n v Hnth). }
  pose proof (sort_sorted scored) as Hsorted.
  destruct (sort_by_distance scored) as [|hit sorted]; [destruct Hin |].
  destruct (Z.to_nat k) as [|k'] eqn:Hk; [lia |].
  simpl firstn. eexists hit, _. split; [reflexivity |].
  apply StronglySorted_inv in Hsorted as [_ Hall].
  destruct Hin as [-> | Hin]; [simpl; lra |].
  rewrite List.Forall_forall in Hall. apply (Hall _ Hin).
Qed.

End RoundTrip.

Section Found.

#[local] Arguments Faiss.search : simpl never.
#[local] Arguments semantic_hits : simpl never.
#[local] Arguments pretty : simpl never.

Lemma top_confidence (distance : Q) :
  (0 <= distance)%Q -> (distance <= 0)%Q ->
  (py_max 0.1 (1 - distance / 10) == 1)%Q.
Proof.
  intros Hlo Hhi. unfold py_max.
  destruct (Qle_bool (1 - distance / 10) 0.1) eqn:Hle.
  - apply Qle_bool_iff in Hle. unfold Qdiv in Hle.
    change (/ 10)%Q with (1 # 10)%Q in Hle. lra.
  - unfold Qdiv. change (/ 10)%Q with (1 # 10)%Q. lra.
Qed.

(** X6.  A document that could be embedded is in the cache after
    [_add_to_vector_store], and looking up its own text right away, with a
    limit of at least one, returns a first hit of confidence 1. *)
Theorem inserted_document_is_found (env : Env) (document : Doc) (b : Backend)
    (text : string) (embedding : list Q) (k : Z)
    (Hinv : consistent (b_cache b))
    (Htext : document_text env document = Returned text)
    (Hencode : encode env text = Returned embedding)
    (Hdim : index_dim_is (length embedding) (b_cache b))
    (Hk : 1 <= k) :
  let b' := snd (_add_to_vector_store env document b) in
  In document (documents (b_cache b'))
  /\ exists copy rest confidence,
       fst (semantic_search env text (VInt k) b') = Returned (copy :: rest)
       /\ copy !! "confidence" = Some (VFloat confidence)
       /\ (confidence == 1)%Q.
Proof.
  intros b'.
  destruct (insert_success env document b text embedding Htext Hencode Hdim)
    as (Hdocs & Hvecs & (ix & Hix & Hixdim) & _).
  fold b' in Hdocs, Hvecs, Hix.
  destruct b' as [[store' docs'] disk' lg']. simpl in Hdocs, Hvecs, Hix. subst store'.
  change (cache_vectors {| vector_store := Some ix; documents := docs' |})
    with (ix_vecs ix) in Hvecs.
  unfold consistent in Hinv.
  split; [simpl; rewrite Hdocs; apply in_or_app; right; by left |].
  assert (Hlen : length (ix_vecs ix) = length docs')
    by (rewrite Hvecs, Hdocs, !length_app, Hinv; reflexivity).
  assert (Hnonempty : (length docs' =? 0)%nat = false).
  { apply Nat.eqb_neq. rewrite Hdocs, length_app. simpl. lia. }
  unfold semantic_search. unfold_monad. simpl.
  rewrite Hnonempty, Hencode. simpl.
  destruct (Faiss.search ix embedding (Z.min k (Z.of_nat (length docs'))))
    as [hits|e] eqn:Hsearch.
  2: { exfalso. unfold Faiss.search in Hsearch.
       rewrite Hixdim, Nat.eqb_refl in Hsearch. simpl in Hsearch.
       destruct (_ <=? 0) eqn:Hpos; [| discriminate].
       apply Z.leb_le in Hpos. apply Nat.eqb_neq in Hnonempty. lia. }
  destruct (search_ranked ix embedding _ hits Hsearch) as (_ & _ & _ & Hvalid).
  { unfold Faiss.ntotal. lia. }
  destruct (search_head ix embedding _ hits (length (cache_vectors (b_cache b)))
              embedding Hsearch) as (hit & rest & -> & Hnear).
  { rewrite Hvecs. rewrite nth_error_app2 by lia. by rewrite Nat.sub_diag. }
  destruct (semantic_hits_in_range docs' (hit :: rest)) with (results := @nil Doc)
    as (copies & Hcopies & Hall).
  { eapply Forall_impl; [exact Hvalid |].
    intros h [Hrange _]. unfold Faiss.ntotal in Hrange. lia. }
  rewrite Hcopies, app_nil_l. simpl.
  inversion Hall as [|copy h copies' hits' (doc & _ & ->) Hrest]; subst.
  exists (scored_copy doc (snd hit)), copies',
         (py_max 0.1 (1 - snd hit / 10))%Q.
  split; [reflexivity |]. split.
  - unfold scored_copy. rewrite lookup_insert_ne by discriminate.
    by rewrite lookup_insert_eq.
  - apply Forall_cons_1 in Hvalid as [(_ & v & _ & Hdist) _].
    apply top_confidence.
    + rewrite Hdist. apply l2_nonneg.
    + pose proof (l2_self embedding). lra.
Qed.

Lemma inserted_document_is_found_witness :
  consistent (b_cache fresh_backend)
  /\ document_text offline_env sample_document
     = Returned "AI news A survey of AI systems."
  /\ 1 <= 3
  /\ In sample_document
       (documents (b_cache (snd (_add_to_vector_store offline_env sample_document
                                   fresh_backend)))).
Proof.
  split; [reflexivity |]. split; [reflexivity |]. split; [lia |].
  assert (Hdim : index_dim_is 2 (b_cache fresh_backend)) by (intros ix; discriminate).
  destruct (inserted_document_is_found offline_env sample_document fresh_backend
              "AI news A survey of AI systems." _ 3 eq_refl eq_refl eq_refl Hdim
              ltac:(lia)) as [Hin _].
  exact Hin.
Defined.

End Found.

(** ** Persistence of the cache *)

Section Persistence.

Variable env : Env.

#[local] Arguments Nat.modulo : simpl never.
#[local] Arguments pretty : simpl never.
#[local] Arguments Faiss.search : simpl never.
#[local] Arguments search_k : simpl never.
#[local] Arguments semantic_hits : simpl never.

Lemma save_disk (b : Backend) :
  b_disk (snd (_save_vector_store env b))
  = if disk_writable env then Some (b_cache b) else b_disk b.
Proof.
  unfold _save_vector_store. unfold_monad. by destruct (disk_writable env).
Qed.

(** What a load leaves behind, log included. *)
Lemma load_soft (pickle_load : Cache -> outcome Cache) (b : Backend) :
  fst (_load_vector_store pickle_load b) = Returned tt
  /\ match b_disk b with
     | None => snd (_load_vector_store pickle_load b) = b
     | Some stored =>
         match pickle_load stored with
         | Returned data =>
             snd (_load_vector_store pickle_load b)
             = {| b_cache := data;
                  b_disk := b_disk b;
                  b_log := b_log b
                    ++ [{| ev_type := "VECTOR_STORE";
                           ev_message := "Loaded " +:+ pretty (length (documents data))
                                         +:+ " documents";
                           ev_level := "info" |}] |}
         | Raised e =>
             snd (_load_vector_store pickle_load b)
             = {| b_cache := empty_cache;
                  b_disk := b_disk b;
                  b_log := b_log b
                    ++ [{| ev_type := "VECTOR_STORE_ERROR";
                           ev_message := "Failed to load vector store: " +:+ e;
                           ev_level := "error" |}] |}
         end
     end.
Proof.
  unfold _load_vector_store. unfold_monad.
  destruct (b_disk b) as [stored|] eqn:Hdisk; [| by destruct b].
  destruct (pickle_load stored) as [[store docs]|e]; simpl; rewrite ?Hdisk;
    split; reflexivity.
Qed.

End Persistence.

(** X8.  [_load_vector_store] never raises.  Without a file it changes nothing
    at all; a file that loads replaces the cache by the stored one and logs
    the number of documents loaded; a file that fails to load leaves the cache
    empty and logs the error as one VECTOR_STORE_ERROR event.  The file itself
    is never touched. *)
Theorem load_never_fails (pickle_load : Cache -> outcome Cache) (b : Backend) :
  fst (_load_vector_store pickle_load b) = Returned tt
  /\ match b_disk b with
     | None => snd (_load_vector_store pickle_load b) = b
     | Some stored =>
         match pickle_load stored with
         | Returned data =>
             b_cache (snd (_load_vector_store pickle_load b)) = data
             /\ snd (_load_vector_store pickle_load b)
                = {| b_cache := data;
                     b_disk := b_disk b;
                     b_log := b_log b
                       ++ [{| ev_type := "VECTOR_STORE";
                              ev_message := "Loaded "
                                            +:+ pretty (length (documents data))
                                            +:+ " documents";
                              ev_level := "info" |}] |}
         | Raised e =>
             b_cache (snd (_load_vector_store pickle_load b)) = empty_cache
             /\ snd (_load_vector_store pickle_load b)
                = {| b_cache := empty_cache;
                     b_disk := b_disk b;
                     b_log := b_log b
                       ++ [{| ev_type := "VECTOR_STORE_ERROR";
                              ev_message := "Failed to load vector store: " +:+ e;
                              ev_level := "error" |}] |}
         end
     end.
Proof.
  destruct (load_soft pickle_load b) as [Hret Hstate].
  split; [exact Hret |].
  destruct (b_disk b) as [stored|]; [| exact Hstate].
  destruct (pickle_load stored) as [data|e]; rewrite Hstate; by split.
Qed.

Section Cadence.

Variable env : Env.

#[local] Arguments Nat.modulo : simpl never.

(** The pickle file after an insertion. *)
Lemma insert_disk (document : Doc) (b : Backend) :
  let b' := snd (_add_to_vector_store env document b) in
  (b_cache b' = b_cache b /\ b_disk b' = b_disk b)
  \/ (documents (b_cache b') = documents (b_cache b) ++ [document]
      /\ b_disk b'
         = if (length (documents (b_cache b')) mod 5 =? 0)%nat && disk_writable env
           then Some (b_cache b') else b_disk b).
Proof.
  destruct b as [[store docs] disk lg].
  unfold _add_to_vector_store. unfold_monad. simpl.
  destruct (document_text env document) as [text|e]; simpl; [| by left].
  destruct (encode env text) as [embedding|e]; simpl; [| by left].
  destruct store as [ix|]; simpl.
  - unfold Faiss.add. destruct (length embedding =? ix_dim ix)%nat; simpl; [| by left].
    right. destruct (length (docs ++ [document]) mod 5 =? 0)%nat eqn:Hmod; simpl.
    + match goal with |- context [_save_vector_store env ?b1] =>
        pose proof (save_returns env b1) as [Hs1 Hs2];
        pose proof (save_disk env b1) as Hs3;
        destruct (_save_vector_store env b1) as [o b2]
      end.
      simpl in Hs1, Hs2, Hs3. subst o. simpl. rewrite Hs2, Hs3. simpl.
      rewrite Hmod. split; [reflexivity |]. by destruct (disk_writable env).
    + rewrite Hmod. split; reflexivity.
  - unfold Faiss.add. simpl. rewrite Nat.eqb_refl. simpl.
    right. destruct (length (docs ++ [document]) mod 5 =? 0)%nat eqn:Hmod; simpl.
    + match goal with |- context [_save_vector_store env ?b1] =>
        pose proof (save_returns env b1) as [Hs1 Hs2];
        pose proof (save_disk env b1) as Hs3;
        destruct (_save_vector_store env b1) as [o b2]
      end.
      simpl in Hs1, Hs2, Hs3. subst o. simpl. rewrite Hs2, Hs3. simpl.
      rewrite Hmod. split; [reflexivity |]. by destruct (disk_writable env).
    + rewrite Hmod. split; reflexivity.
Qed.

End Cadence.

(** X9.  An insertion either leaves cache and pickle file as they were, or it
    appends the document and then rewrites the file with the new cache
    exactly when the new document count is a multiple of five and the disk is
    writable; otherwise the file is untouched. *)
Theorem insert_saves_every_fifth (env : Env) (document : Doc) (b : Backend) :
  let b' := snd (_add_to_vector_store env document b) in
  let count := length (documents (b_cache b')) in
  (b_cache b' = b_cache b /\ b_disk b' = b_disk b)
  \/ (documents (b_cache b') = documents (b_cache b) ++ [document]
      /\ b_disk b'
         = if (count mod 5 =? 0)%nat && disk_writable env
           then Some (b_cache b') else b_disk b).
Proof. apply insert_disk. Qed.

Section Snapshot.

Variable env : Env.

Hypothesis writable : disk_writable env = true.

#[local] Arguments Nat.modulo : simpl never.



End Snapshot.




(** ** More on the graph retriever *)

Section FallbackBounds.

Import GraphTool.

Lemma filter_values_in (p : string * Doc -> bool) (table : list (string * Doc)) :
  Forall (fun doc => In doc (map snd table)) (map snd (List.filter p table)).
Proof.
  apply Forall_forall. intros doc Hin. apply list_elem_of_In in Hin.
  apply in_map_iff in Hin as ((key & doc') & <- & Hin).
  apply filter_In in Hin as [Hin _]. apply in_map_iff. by exists (key, doc').
Qed.

Lemma filter_values_length (p : string * Doc -> bool) (table : list (string * Doc)) :
  (length (map snd (List.filter p table)) <= length table)%nat.
Proof. rewrite length_map. apply filter_length_le. Qed.

Lemma precedence_in_table (query_lower : string) :
  Forall (fun doc => In doc (map snd fallback_knowledge_base))
    (Spec.fallback_precedence query_lower)
  /\ (length (Spec.fallback_precedence query_lower) <= 6)%nat.
Proof.
  unfold Spec.fallback_precedence. cbv zeta.
  pose proof (filter_values_in (fun kv => PyStr.contains (fst kv) query_lower)
                fallback_knowledge_base) as Hexact.
  pose proof (filter_values_length (fun kv => PyStr.contains (fst kv) query_lower)
                fallback_knowledge_base) as Hexact_len.
  pose proof (filter_values_in
                (fun kv => PyStr.any_in (PyStr.split (fst kv)) query_lower)
                fallback_knowledge_base) as Hoverlap.
  pose proof (filter_values_length
                (fun kv => PyStr.any_in (PyStr.split (fst kv)) query_lower)
                fallback_knowledge_base) as Hoverlap_len.
  change (length fallback_knowledge_base) with 6%nat in *.
  destruct (map snd (List.filter (fun kv => PyStr.contains _ _) _)) as [|d exact];
    [| auto].
  destruct (map snd (List.filter (fun kv => PyStr.any_in _ _) _)) as [|d overlap];
    [| auto].
  destruct (PyStr.any_in ai_terms query_lower).
  - split; [| simpl; lia]. repeat constructor; simpl; tauto.
  - split; [| simpl; lia]. apply Forall_forall. intros doc Hin.
    by apply list_elem_of_In in Hin.
Qed.

Lemma table_kinds :
  Forall (fun doc => doc !! "type" = Some (VStr "graph")) (map snd fallback_knowledge_base).
Proof. repeat constructor. Qed.

Lemma precedence_ai_first (query_lower : string) :
  PyStr.contains "ai" query_lower = true ->
  exists rest, Spec.fallback_precedence query_lower = kb_ai :: rest.
Proof.
  intros Hai. unfold Spec.fallback_precedence, fallback_knowledge_base. cbv zeta.
  cbn [List.filter fst snd]. rewrite Hai. cbn [map snd]. eauto.
Qed.

End FallbackBounds.

(** X10.  For every query and integer limit the static fallback returns, never
    raising, at most six documents and at most [limit] of them when the limit
    is not negative; each is an entry of the built-in table, of kind "graph".
    Keys are matched as substrings, so whenever the lowercased query contains
    "ai" anywhere the [ai] entry comes first. *)
Theorem fallback_is_bounded (query : string) (n : Z) (b : Backend) :
  exists docs,
    fst (GraphTool._get_fallback_graph_data query (VInt n) b) = Returned docs
    /\ (0 <= n -> Z.of_nat (length docs) <= n)
    /\ (length docs <= 6)%nat
    /\ Forall (fun doc => In doc (map snd GraphTool.fallback_knowledge_base)
                          /\ doc !! "type" = Some (VStr "graph")) docs
    /\ (PyStr.contains "ai" (PyStr.lower query) = true -> 1 <= n ->
        head docs = Some GraphTool.kb_ai).
Proof.
  rewrite fallback_result. cbn [py_slice_to]. eexists. split; [reflexivity |].
  destruct (precedence_in_table (PyStr.lower query)) as [Hin Hlen].
  split; [| split; [| split]].
  - intros Hn. rewrite slice_to_length. destruct (Z.leb_spec 0 n); lia.
  - rewrite slice_to_length. destruct (Z.leb_spec 0 n); lia.
  - apply slice_to_Forall. eapply Forall_impl; [exact Hin |].
    intros doc Hdoc. split; [exact Hdoc |].
    pose proof table_kinds as Hkinds. rewrite List.Forall_forall in Hkinds. auto.
  - intros Hai Hn. destruct (precedence_ai_first _ Hai) as [rest ->].
    unfold slice_to. destruct (Z.leb_spec 0 n); [| lia].
    destruct (Z.to_nat n) eqn:En; [lia | reflexivity].
Qed.

Lemma fallback_is_bounded_witness :
  PyStr.contains "ai" (PyStr.lower "Explain transformers") = true
  /\ 1 <= 2
  /\ exists docs,
       fst (GraphTool._get_fallback_graph_data "Explain transformers" (VInt 2)
              fresh_backend) = Returned docs
       /\ head docs = Some GraphTool.kb_ai.
Proof.
  split; [reflexivity |]. split; [lia |].
  destruct (fallback_is_bounded "Explain transformers" 2 fresh_backend)
    as (docs & Hret & _ & _ & _ & Hhead).
  exists docs. split; [exact Hret |]. apply Hhead; [reflexivity | lia].
Defined.

Section Traversal.

Context {A B : Type}.

Variable f : A -> outcome B.

Lemma map_outcome_raises (l : list A) (a : A) :
  In a l -> (exists e, f a = Raised e) -> exists e, map_outcome f l = Raised e.
Proof.
  induction l as [|x l IH]; simpl; [tauto |].
  intros [-> | Hin] Hraise.
  - destruct Hraise as [e ->]. simpl. eauto.
  - destruct (f x) as [y|e]; simpl; [| eauto].
    destruct (IH Hin Hraise) as [e ->]. simpl. eauto.
Qed.

Lemma map_outcome_Forall (P : B -> Prop) (l : list A) (bs : list B) :
  (forall a b, f a = Returned b -> P b) ->
  map_outcome f l = Returned bs -> Forall P bs.
Proof.
  intros Hf. revert bs. induction l as [|x l IH]; simpl; intros bs.
  - intros [= <-]. constructor.
  - destruct (f x) as [y|e] eqn:Hx; simpl; [| discriminate].
    destruct (map_outcome f l) as [ys|e]; simpl; [| discriminate].
    intros [= <-]. constructor; eauto.
Qed.

End Traversal.

Section Connected.

#[local] Arguments pretty : simpl never.

(** A row whose confidence is null cannot be formatted. *)
Lemma format_row_null_confidence (row : Neo4jRow) :
  r_confidence row = Null -> exists e, format_row row = Raised e.
Proof.
  intros Hnull. unfold format_row. rewrite Hnull.
  destruct (r_summary row) as [| |summary]; simpl; eauto;
    destruct (r_relationships row) as [| |[|rel rels]]; simpl; eauto;
    try (destruct (and_then (relationship_text rel) _) as [parts|e]; simpl; eauto);
    destruct (r_title row); simpl; eauto;
    destruct (r_node_id row); simpl; eauto.
Qed.

(** X11.  On a connected graph backend [search_knowledge_graph] answers with
    the empty list, not the fallback table, when the driver is missing or its
    query fails, and with one formatted document per row when every row can
    be formatted.  When a row cannot be formatted, as a row whose confidence
    is null, the failure is logged and the answer is the selection from the
    fallback table, although the backend is connected.  With an integer limit
    the call never raises. *)
Theorem connected_search_outcome (env : Env) (query : string)
    (max_results : PyVal) (b : Backend)
    (Hconnected : neo4j_connected env = true) :
  let fallback e :=
    GraphTool._get_fallback_graph_data query max_results
      (logged "GRAPH_TOOL_ERROR" ("Graph search failed: " +:+ e) "error" b) in
  fst (search_knowledge_graph env query max_results b)
  = match neo4j_driver env with
    | Some run =>
        match run query max_results with
        | Returned rows =>
            match map_outcome format_row rows with
            | Returned docs => Returned docs
            | Raised e => fst (fallback e)
            end
        | Raised _ => Returned []
        end
    | None => Returned []
    end
  /\ (forall run rows row,
        neo4j_driver env = Some run ->
        run query max_results = Returned rows ->
        In row rows ->
        r_confidence row = Null ->
        exists e, search_knowledge_graph env query max_results b = fallback e)
  /\ (forall n, max_results = VInt n ->
        exists docs, fst (search_knowledge_graph env query max_results b) = Returned docs).
Proof.
  intros fallback.
  assert (Hrun : forall run rows e,
    neo4j_driver env = Some run ->
    run query max_results = Returned rows ->
    map_outcome format_row rows = Raised e ->
    search_knowledge_graph env query max_results b = fallback e).
  { intros run rows e Hdriver Hrows Hformat.
    unfold search_knowledge_graph, execute_query. unfold_monad.
    rewrite Hconnected, Hdriver, Hrows. simpl. rewrite Hformat. reflexivity. }
  assert (Hresult : fst (search_knowledge_graph env query max_results b)
    = match neo4j_driver env with
      | Some run =>
          match run query max_results with
          | Returned rows =>
              match map_outcome format_row rows with
              | Returned docs => Returned docs
              | Raised e => fst (fallback e)
              end
          | Raised _ => Returned []
          end
      | None => Returned []
      end).
  { destruct (neo4j_driver env) as [run|] eqn:Hdriver.
    - destruct (run query max_results) as [rows|e] eqn:Hrows.
      + destruct (map_outcome format_row rows) as [docs|e] eqn:Hformat.
        * unfold search_knowledge_graph, execute_query. unfold_monad.
          rewrite Hconnected, Hdriver, Hrows. simpl. by rewrite Hformat.
        * by rewrite (Hrun run rows e).
      + unfold search_knowledge_graph, execute_query. unfold_monad.
        by rewrite Hconnected, Hdriver, Hrows.
    - unfold search_knowledge_graph, execute_query. unfold_monad.
      by rewrite Hconnected, Hdriver. }
  split; [exact Hresult |]. split.
  - intros run rows row Hdriver Hrows Hin Hnull.
    destruct (map_outcome_raises format_row rows row Hin
                (format_row_null_confidence row Hnull)) as [e Hformat].
    exists e. by apply (Hrun run rows e).
  - intros n ->. rewrite Hresult.
    destruct (neo4j_driver env) as [run|]; [| eauto].
    destruct (run query (VInt n)) as [rows|e]; [| eauto].
    destruct (map_outcome format_row rows) as [docs|e]; [eauto |].
    subst fallback. cbv beta. rewrite fallback_result. simpl. eauto.
Qed.

Lemma connected_search_outcome_witness :
  neo4j_connected unrated_graph_env = true
  /\ exists e,
       search_knowledge_graph unrated_graph_env "What is AI?" (VInt 3) fresh_backend
       = GraphTool._get_fallback_graph_data "What is AI?" (VInt 3)
           (logged "GRAPH_TOOL_ERROR" ("Graph search failed: " +:+ e) "error"
              fresh_backend).
Proof.
  split; [reflexivity |].
  destruct (connected_search_outcome unrated_graph_env "What is AI?" (VInt 3)
              fresh_backend eq_refl) as (_ & Hnull & _).
  apply (Hnull (fun _ _ => Returned [unrated_row]) [unrated_row] unrated_row);
    [reflexivity | reflexivity | by left | reflexivity].
Defined.

(** X12.  [get_related_concepts] never raises, returns only documents of kind
    "graph_related" referring to the concept asked for, and on a disconnected
    backend returns the empty list, not fallback data, leaving the backend as
    it was. *)
Theorem related_concepts_total (env : Env)
    (driver : option (string -> PyVal -> outcome (list RelatedRow)))
    (concept_name : string) (max_related : PyVal) (b : Backend) :
  exists docs,
    fst (get_related_concepts env driver concept_name max_related b) = Returned docs
    /\ Forall (fun doc =>
                 doc !! "type" = Some (VStr "graph_related")
                 /\ doc !! "reference" = Some (VStr ("graph:related:" +:+ concept_name)))
         docs
    /\ (neo4j_connected env = false ->
        get_related_concepts env driver concept_name max_related b = (Returned [], b)).
Proof.
  assert (Hrow : forall row doc,
    related_result concept_name row = Returned doc ->
    doc !! "type" = Some (VStr "graph_related")
    /\ doc !! "reference" = Some (VStr ("graph:related:" +:+ concept_name))).
  { intros row doc. unfold related_result.
    destruct (rr_title row); simpl; try discriminate;
      destruct (rr_summary row); simpl; try discriminate;
      destruct (rr_relationship row); simpl; try discriminate;
      destruct (rr_rel_confidence row); simpl; try discriminate;
      intros [= <-]; split; reflexivity. }
  unfold get_related_concepts, execute_related_query. unfold_monad.
  destruct (neo4j_connected env); simpl.
  - destruct driver as [run|]; simpl.
    + destruct (run concept_name max_related) as [rows|e]; simpl.
      * destruct (map_outcome (related_result concept_name) rows) as [docs|e] eqn:Hdocs;
          simpl.
        -- exists docs. split; [reflexivity |]. split; [| discriminate].
           exact (map_outcome_Forall _ _ rows docs Hrow Hdocs).
        -- exists []. split; [reflexivity |]. split; [constructor | discriminate].
      * exists []. split; [reflexivity |]. split; [constructor | discriminate].
    + exists []. split; [reflexivity |]. split; [constructor | discriminate].
  - exists []. split; [reflexivity |]. split; [constructor | reflexivity].
Qed.

Lemma related_concepts_total_witness :
  let driver := Some (fun (_ : string) (_ : PyVal) =>
                  Returned [{| rr_title := Value "Machine Learning";
                               rr_summary := Value "Subset of AI";
                               rr_relationship := Value "INCLUDES";
                               rr_rel_confidence := Null |}]) in
  neo4j_connected offline_env = false
  /\ get_related_concepts offline_env driver "Artificial Intelligence" (VInt 3)
       fresh_backend = (Returned [], fresh_backend).
Proof.
  intros driver. split; [reflexivity |].
  destruct (related_concepts_total offline_env driver "Artificial Intelligence"
              (VInt 3) fresh_backend) as (docs & _ & _ & Hoffline).
  apply Hoffline. reflexivity.
Defined.

End Connected.

(** ** The run state under the steps of nodes.py *)

Lemma state_extends_refl (s : State.AgentState) : state_extends s s.
Proof.
  repeat split; exists []; by rewrite app_nil_r.
Qed.

Lemma state_extends_trans (s1 s2 s3 : State.AgentState) :
  state_extends s1 s2 -> state_extends s2 s3 -> state_extends s1 s3.
Proof.
  intros (Hq & Ho & [a Ha] & [c Hc] & [d Hd]) (Hq' & Ho' & [a' Ha'] & [c' Hc'] & [d' Hd']).
  split; [congruence |]. split; [congruence |].
  split; [exists (a ++ a'); by rewrite Ha', Ha, app_assoc |].
  split; [exists (c ++ c'); by rewrite Hc', Hc, app_assoc |].
  exists (d ++ d'). by rewrite Hd', Hd, app_assoc.
Qed.

Lemma run_extends_refl (r : Run State.AgentState) : run_extends r r.
Proof. apply state_extends_refl. Qed.

Lemma run_extends_trans (r1 r2 r3 : Run State.AgentState) :
  run_extends r1 r2 -> run_extends r2 r3 -> run_extends r1 r3.
Proof. apply state_extends_trans. Qed.

Lemma update_extends (f : State.AgentState -> State.AgentState) :
  (forall s, state_extends s (f s)) -> relates run_extends (update f).
Proof. intros Hf r. apply Hf. Qed.

Lemma in_world_extends {A} (c : M World A) : relates run_extends (in_world c).
Proof.
  intros r. unfold in_world, run_extends. destruct (c (r_world r)).
  apply state_extends_refl.
Qed.

Lemma read_extends {A} (f : State.AgentState -> A) : relates run_extends (read f).
Proof. intros r. apply state_extends_refl. Qed.

(** A setter that keeps or appends to the observed fields. *)
Ltac extends_setter :=
  intros ?; unfold state_extends; simpl;
  repeat split;
  first [ exists []; by rewrite app_nil_r | eexists; reflexivity ].

Ltac extends_tac :=
  relates_tac run_extends_refl run_extends_trans
    ltac:(first [ apply read_extends
                | apply in_world_extends
                | apply update_extends; extends_setter ]).

Section StepsExtend.

Import State Nodes.

Variable tools : Toolbox.

Lemma route_query_extends : relates run_extends route_query.
Proof. unfold route_query, log. extends_tac. Qed.

Lemma analyze_query_extends : relates run_extends analyze_query.
Proof. unfold analyze_query, log. extends_tac. Qed.

Lemma search_graph_extends : relates run_extends (search_graph tools).
Proof. unfold search_graph, log. extends_tac. Qed.

Lemma search_internet_extends : relates run_extends (search_internet tools).
Proof. unfold search_internet, log. extends_tac. Qed.

End StepsExtend.

Section StepsRecord.

Import State Nodes.

Variable tools : Toolbox.

Lemma route_query_records (r : Run AgentState) :
  fst (route_query r) = Returned tt
  /\ steps_completed (r_state (snd (route_query r)))
     = steps_completed (r_state r) ++ ["route_query"].
Proof. destruct r as [s w]. unfold route_query. unfold_monad. simpl. by split. Qed.

Lemma analyze_query_records (r : Run AgentState) :
  fst (analyze_query r) = Returned tt
  /\ steps_completed (r_state (snd (analyze_query r)))
     = steps_completed (r_state r) ++ ["analyze_query"].
Proof. destruct r as [s w]. unfold analyze_query. unfold_monad. simpl. by split. Qed.

Lemma search_graph_records (r : Run AgentState) :
  fst (search_graph tools r) = Returned tt
  /\ steps_completed (r_state (snd (search_graph tools r)))
     = steps_completed (r_state r) ++ ["search_graph"].
Proof.
  destruct r as [s w]. unfold search_graph. unfold_monad. simpl.
  destruct (truthy (dict_get (options s) "use_graph" (VBool true))); simpl.
  - destruct (graph_search tools (query s) _ _) as [[docs|e] b1]; by split.
  - by split.
Qed.

Lemma search_internet_records (r : Run AgentState) :
  fst (search_internet tools r) = Returned tt
  /\ steps_completed (r_state (snd (search_internet tools r)))
     = steps_completed (r_state r) ++ ["search_internet"].
Proof.
  destruct r as [s w]. unfold search_internet. unfold_monad. simpl.
  destruct (truthy (dict_get (options s) "use_internet" (VBool true))); simpl.
  - destruct (web_search tools (query s) _ _) as [[docs|e'] b1]; simpl.
    + destruct (py_floordiv2 _) as [half|e']; simpl.
      * destruct (cache_search tools (query s) half _) as [[sem|e'] b2]; by split.
      * by split.
    + by split.
  - by split.
Qed.

End StepsRecord.

(** X13.  Each of the four steps of nodes.py returns, whatever its retrievers
    do, and only adds to the run state: the query and the options stay, the
    collected documents and the reasoning notes keep what they held as a
    prefix, and the list of completed steps gains exactly the step's own name
    as its last entry, also when a retriever raised or the step was switched
    off. *)
Theorem steps_only_append (tools : Toolbox) (s : State.AgentState) (w : World) :
  let start := {| r_state := s; r_world := w |} in
  let after (step : M (Run State.AgentState) unit) (name : string) :=
    fst (step start) = Returned tt
    /\ state_extends s (r_state (snd (step start)))
    /\ State.steps_completed (r_state (snd (step start)))
       = State.steps_completed s ++ [name] in
  after Nodes.route_query "route_query"
  /\ after Nodes.analyze_query "analyze_query"
  /\ after (Nodes.search_graph tools) "search_graph"
  /\ after (Nodes.search_internet tools) "search_internet".
Proof.
  intros start after. unfold after.
  pose proof (route_query_records start) as [? ?].
  pose proof (analyze_query_records start) as [? ?].
  pose proof (search_graph_records tools start) as [? ?].
  pose proof (search_internet_records tools start) as [? ?].
  pose proof (route_query_extends start).
  pose proof (analyze_query_extends start).
  pose proof (search_graph_extends tools start).
  pose proof (search_internet_extends tools start).
  repeat match goal with |- _ /\ _ => split end; assumption.
Qed.

(** ** The retriever calls of a whole run *)

Section WholeRun.

Import State Nodes Orchestrator.

Variable tools : Toolbox.

Lemma analyze_query_run (r : Run AgentState) :
  exists r',
    analyze_query r = (Returned tt, r')
    /\ query (r_state r') = query (r_state r)
    /\ options (r_state r') = options (r_state r)
    /\ iterations (r_state r') = iterations (r_state r)
    /\ steps_completed (r_state r') = steps_completed (r_state r) ++ ["analyze_query"]
    /\ w_calls (r_world r') = w_calls (r_world r)
    /\ next_step (r_state r')
       = Some (if truthy (dict_get (options (r_state r)) "use_graph" (VBool true))
               then "search_graph" else "search_internet").
Proof.
  destruct r as [s w]. unfold analyze_query. unfold_monad. simpl.
  eexists. split; [reflexivity |]. simpl. by repeat split.
Qed.

Lemma search_graph_run (r : Run AgentState) :
  exists r',
    search_graph tools r = (Returned tt, r')
    /\ query (r_state r') = query (r_state r)
    /\ options (r_state r') = options (r_state r)
    /\ iterations (r_state r') = iterations (r_state r)
    /\ steps_completed (r_state r') = steps_completed (r_state r) ++ ["search_graph"]
    /\ w_calls (r_world r')
       = w_calls (r_world r)
           ++ (if truthy (dict_get (options (r_state r)) "use_graph" (VBool true))
               then [CallGraph (query (r_state r))
                       (dict_get (options (r_state r)) "max_results" (VInt 5))]
               else [])
    /\ (truthy (dict_get (options (r_state r)) "use_graph" (VBool true)) = true ->
        next_step (r_state r')
        = Some (if truthy (dict_get (options (r_state r)) "use_internet" (VBool true))
                then "search_internet" else "generate_answer")).
Proof.
  destruct r as [s w]. unfold search_graph. unfold_monad. simpl.
  destruct (truthy (dict_get (options s) "use_graph" (VBool true))); simpl.
  - destruct (graph_search tools (query s) _ _) as [[docs|e] b1]; simpl;
      (eexists; split; [reflexivity |]; simpl; by repeat split).
  - eexists; split; [reflexivity |]; simpl. rewrite app_nil_r. by repeat split.
Qed.

Lemma search_internet_run (r : Run AgentState) :
  exists r' lookups,
    search_internet tools r = (Returned tt, r')
    /\ query (r_state r') = query (r_state r)
    /\ options (r_state r') = options (r_state r)
    /\ iterations (r_state r') = iterations (r_state r)
    /\ steps_completed (r_state r') = steps_completed (r_state r) ++ ["search_internet"]
    /\ w_calls (r_world r')
       = w_calls (r_world r)
           ++ (if truthy (dict_get (options (r_state r)) "use_internet" (VBool true))
               then CallInternet (query (r_state r))
                      (dict_get (options (r_state r)) "max_results" (VInt 5))
                    :: lookups
               else [])
    /\ Forall (fun c => exists half, c = CallSemantic (query (r_state r)) half) lookups
    /\ next_step (r_state r') = Some "generate_answer".
Proof.
  destruct r as [s w]. unfold search_internet. unfold_monad. simpl.
  destruct (truthy (dict_get (options s) "use_internet" (VBool true))); simpl.
  - destruct (web_search tools (query s) _ _) as [[docs|e'] b1]; simpl.
    + destruct (py_floordiv2 _) as [half|e']; simpl.
      * destruct (cache_search tools (query s) half _) as [[sem|e'] b2]; simpl;
          (eexists; exists [CallSemantic (query s) half];
           split; [reflexivity |]; simpl; rewrite <- app_assoc;
           repeat split; repeat constructor; eauto).
      * eexists; exists []; split; [reflexivity |]; simpl.
        repeat split; constructor.
    + eexists; exists []; split; [reflexivity |]; simpl.
      repeat split; constructor.
  - eexists; exists []; split; [reflexivity |]; simpl. rewrite app_nil_r.
    repeat split; constructor.
Qed.

Lemma route_query_calls (r : Run AgentState) :
  w_calls (r_world (snd (route_query r))) = w_calls (r_world r).
Proof. destruct r as [s w]. reflexivity. Qed.

(** A cycle whose guard lets it run. *)
Lemma cycles_continue (fuel : nat) (r r' : Run AgentState) (name : string) :
  iterations (r_state r) < 5 ->
  next_step (r_state r) = Some name ->
  PyStr.is_empty name = false ->
  String.eqb name "generate_answer" = false ->
  step_of tools (Some name) r = (Returned tt, r') ->
  cycles tools (S fuel) r
  = cycles tools fuel
      {| r_state := set_iterations (iterations (r_state r') + 1) (r_state r');
         r_world := r_world r' |}.
Proof.
  destruct r as [s w]. simpl. intros Hit Hnext Hne Hgen Hstep.
  assert (Hguard : should_continue s = ("continue", s)).
  { unfold should_continue. rewrite Hnext. simpl.
    destruct (Z.leb_spec 5 (iterations s)) as [|_]; [lia |].
    by rewrite Hgen, Hne. }
  unfold_monad. simpl. rewrite Hguard. simpl. rewrite Hnext, Hstep. reflexivity.
Qed.

(** A cycle whose guard sees the answer step pending. *)
Lemma cycles_stop (fuel : nat) (r : Run AgentState) :
  next_step (r_state r) = Some "generate_answer" ->
  exists final,
    cycles tools (S fuel) r = (Returned true, final)
    /\ steps_completed (r_state final) = steps_completed (r_state r)
    /\ w_calls (r_world final) = w_calls (r_world r).
Proof.
  destruct r as [s w]. simpl. intros Hnext.
  unfold_monad. simpl. unfold should_continue. rewrite Hnext. simpl.
  destruct (5 <=? iterations s); simpl.
  - eauto.
  - destruct (0 <? length (all_contexts s))%nat; simpl; eauto.
Qed.

End WholeRun.

(** X14.  In a run of the orchestration on a state with at most two cycles
    used, the steps taken and the retrievers called follow from the two
    options alone: the graph retriever is called once exactly when [use_graph]
    is truthy and the web retriever once exactly when [use_internet] is, each
    with the stored query and the limit defaulting to 5, whatever keywords the
    query holds.  The schedule the router computed from the keywords has no
    effect on them, and the run ends within four cycles. *)
Theorem run_follows_options (tools : Toolbox) (s : State.AgentState) (w : World)
    (Hfresh : State.iterations s <= 2) :
  let limit := dict_get (State.options s) "max_results" (VInt 5) in
  let use_graph := truthy (dict_get (State.options s) "use_graph" (VBool true)) in
  let use_internet := truthy (dict_get (State.options s) "use_internet" (VBool true)) in
  exists final lookups,
    Orchestrator.orchestrate tools 4 {| r_state := s; r_world := w |}
    = (Returned true, final)
    /\ State.steps_completed (r_state final)
       = State.steps_completed s
           ++ ["route_query"; "analyze_query"]
           ++ (if use_graph then ["search_graph"] else [])
           ++ (if use_internet || negb use_graph then ["search_internet"] else [])
    /\ w_calls (r_world final)
       = w_calls w
           ++ (if use_graph then [CallGraph (State.query s) limit] else [])
           ++ (if use_internet
               then CallInternet (State.query s) limit :: lookups else [])
    /\ Forall (fun c => exists half, c = CallSemantic (State.query s) half) lookups.
Proof.
  intros limit use_graph use_internet.
  set (r0 := {| r_state := s; r_world := w |}).
  pose proof (route_query_records r0) as [R1 S1].
  pose proof (route_query_extends r0) as (Q1 & O1 & _).
  pose proof (route_query_calls r0) as C1.
  pose proof (route_query_keeps_iterations r0) as I1.
  assert (N1 : State.next_step (r_state (snd (Nodes.route_query r0)))
               = Some "analyze_query").
  { unfold r0, Nodes.route_query. unfold_monad. simpl.
    by rewrite next_steps_shape. }
  unfold Orchestrator.orchestrate. unfold mbind, M_bind.
  unfold iterations_of in I1.
  destruct (Nodes.route_query r0) as [o1 r1].
  simpl in R1, S1, Q1, O1, C1, I1, N1. subst o1. cbv beta iota.
  destruct (analyze_query_run r1) as (r2 & E2 & Q2 & O2 & I2 & S2 & C2 & N2).
  rewrite (cycles_continue tools 3 r1 r2 "analyze_query");
    [| lia | assumption | reflexivity | reflexivity | exact E2].
  rewrite O1 in N2. fold use_graph in N2.
  set (r2' := {| r_state := State.set_iterations (State.iterations (r_state r2) + 1)
                              (r_state r2);
                 r_world := r_world r2 |}).
  destruct use_graph eqn:Hug.
  - destruct (search_graph_run tools r2') as (r3 & E3 & Q3 & O3 & I3 & S3 & C3 & N3).
    simpl in Q3, O3, I3, S3, C3, N3.
    rewrite O2, O1 in C3, N3. rewrite Q2, Q1 in C3.
    fold use_graph in C3, N3. rewrite Hug in C3, N3. specialize (N3 eq_refl).
    fold use_internet in N3. fold limit in C3.
    rewrite (cycles_continue tools 2 r2' r3 "search_graph");
      [| simpl; lia | exact N2 | reflexivity | reflexivity | exact E3].
    set (r3' := {| r_state := State.set_iterations (State.iterations (r_state r3) + 1)
                                (r_state r3);
                   r_world := r_world r3 |}).
    destruct use_internet eqn:Hui.
    + destruct (search_internet_run tools r3')
        as (r4 & lookups & E4 & Q4 & O4 & I4 & S4 & C4 & L4 & N4).
      simpl in Q4, O4, I4, S4, C4, L4.
      rewrite O3, O2, O1 in C4. rewrite Q3, Q2, Q1 in C4, L4.
      fold use_internet in C4. rewrite Hui in C4. fold limit in C4.
      rewrite (cycles_continue tools 1 r3' r4 "search_internet");
        [| simpl; lia | exact N3 | reflexivity | reflexivity | exact E4].
      edestruct (cycles_stop tools 0) as (final & -> & Sf & Cf); [| 
        exists final, lookups; split; [reflexivity |]; rewrite Sf, Cf; simpl ].
      { exact N4. }
      rewrite S4, S3, S2, S1, C4, C3, C2, C1. rewrite <- !app_assoc.
      by repeat split.
    + edestruct (cycles_stop tools 1) as (final & -> & Sf & Cf); [| 
        exists final, []; split; [reflexivity |]; rewrite Sf, Cf; simpl ].
      { exact N3. }
      rewrite S3, S2, S1, C3, C2, C1. rewrite <- !app_assoc.
      repeat split; constructor.
  - destruct (search_internet_run tools r2')
      as (r4 & lookups & E4 & Q4 & O4 & I4 & S4 & C4 & L4 & N4).
    simpl in Q4, O4, I4, S4, C4, L4.
    rewrite O2, O1 in C4. rewrite Q2, Q1 in C4, L4.
    fold use_internet in C4. fold limit in C4.
    rewrite (cycles_continue tools 2 r2' r4 "search_internet");
      [| simpl; lia | exact N2 | reflexivity | reflexivity | exact E4].
    edestruct (cycles_stop tools 1) as (final & -> & Sf & Cf); [| 
      exists final, (if use_internet then lookups else []);
      split; [reflexivity |]; rewrite Sf, Cf; simpl ].
    { exact N4. }
    rewrite S4, S2, S1, C4, C2, C1. rewrite <- !app_assoc.
    rewrite orb_true_r. destruct use_internet; repeat split; try constructor; auto.
Qed.

Lemma run_follows_options_witness :
  State.iterations (start_state "hello there" Routes.default_options) <= 2
  /\ exists final,
       Orchestrator.orchestrate (repo_tools offline_env) 4
         {| r_state := start_state "hello there" Routes.default_options;
            r_world := fresh_world |} = (Returned true, final)
       /\ ~ In "search_graph" (Nodes.next_steps Routes.default_options "hello there")
       /\ In (CallGraph "hello there" (VInt 5)) (w_calls (r_world final)).
Proof.
  assert (H : State.iterations (start_state "hello there" Routes.default_options) <= 2)
    by (simpl; lia).
  split; [exact H |].
  destruct (run_follows_options (repo_tools offline_env)
              (start_state "hello there" Routes.default_options) fresh_world H)
    as (final & lookups & Hrun & _ & Hcalls & _).
  exists final. split; [exact Hrun |]. split.
  - vm_compute. intuition discriminate.
  - rewrite Hcalls. left. reflexivity.
Defined.

(** ** The analyzer and the router *)

Lemma any_in_incl (keys keys' : list string) (s : string) :
  incl keys keys' -> PyStr.any_in keys s = true -> PyStr.any_in keys' s = true.
Proof.
  unfold PyStr.any_in. intros Hincl. rewrite !existsb_exists.
  intros (k & Hin & Hk). exists k. split; [apply Hincl, Hin | exact Hk].
Qed.

(** X15.  The analyzer and the router read the query consistently: whenever
    the analysis marks the query as needing current information, the router's
    keyword test for the internet search holds as well, and whenever the
    analysis finds the intent "definition", the router's test for the graph
    search holds; with the matching option truthy the step is then on the
    router's schedule.  "internet" is among the expected sources exactly when
    current information is needed. *)
Theorem analysis_agrees_with_router (query : string) (options : gmap string PyVal) :
  let analysis := Nodes.analysis_of query in
  (Nodes.needs_current_info analysis = true ->
     Nodes._needs_internet_search (PyStr.lower query) = true)
  /\ (Nodes.intent analysis = "definition" ->
        Nodes._needs_graph_search (PyStr.lower query) = true)
  /\ (Nodes.needs_current_info analysis = true ->
        truthy (dict_get options "use_internet" (VBool true)) = true ->
        In "search_internet" (Nodes.next_steps options query))
  /\ (Nodes.intent analysis = "definition" ->
        truthy (dict_get options "use_graph" (VBool true)) = true ->
        In "search_graph" (Nodes.next_steps options query))
  /\ (In "internet" (Nodes.expected_sources analysis)
      <-> Nodes.needs_current_info analysis = true).
Proof.
  intros analysis.
  assert (Hweb : Nodes.needs_current_info analysis = true ->
                 Nodes._needs_internet_search (PyStr.lower query) = true).
  { unfold analysis, Nodes.analysis_of, Nodes._needs_internet_search.
    cbn [Nodes.needs_current_info].
    apply any_in_incl. intros k Hk. simpl in *. tauto. }
  assert (Hgraph : Nodes.intent analysis = "definition" ->
                   Nodes._needs_graph_search (PyStr.lower query) = true).
  { unfold analysis, Nodes.analysis_of, Nodes._needs_graph_search.
    cbn [Nodes.intent].
    destruct (PyStr.any_in ["what is"; "define"; "explain"] (PyStr.lower query)) eqn:Hdef.
    - intros _. revert Hdef. apply any_in_incl. intros k Hk. simpl in *. tauto.
    - repeat match goal with |- context [if ?c then _ else _] => destruct c end;
        discriminate. }
  split; [exact Hweb |]. split; [exact Hgraph |]. split; [| split].
  - intros Hc Hflag. apply in_next_steps_internet. by rewrite Hflag, Hweb.
  - intros Hi Hflag. unfold Nodes.next_steps. rewrite Hflag, (Hgraph Hi). simpl.
    destruct (_ && _); simpl; tauto.
  - unfold analysis, Nodes.analysis_of.
    cbn [Nodes.expected_sources Nodes.needs_current_info].
    destruct (PyStr.any_in _ _); simpl; split; intros H;
      try reflexivity; try discriminate; intuition discriminate.
Qed.

Lemma analysis_agrees_with_router_witness :
  Nodes._needs_internet_search (PyStr.lower "What is the LATEST on transformers") = true
  /\ Nodes._needs_graph_search (PyStr.lower "What is the LATEST on transformers") = true.
Proof.
  destruct (analysis_agrees_with_router "What is the LATEST on transformers" ∅)
    as (Hweb & Hgraph & _).
  split; [apply Hweb | apply Hgraph]; vm_compute; reflexivity.
Defined.

(** X16.  After the internet step the guard never answers "continue": it
    answers "finish" when the cap of five cycles is reached or no document has
    been collected, and "generate_answer" otherwise, whether the step searched,
    was switched off, or its retriever raised. *)
Theorem guard_after_internet_step (tools : Toolbox) (s : State.AgentState) (w : World) :
  let s' := r_state (snd (Nodes.search_internet tools {| r_state := s; r_world := w |})) in
  fst (Nodes.should_continue s')
  = (if 5 <=? State.iterations s then "finish"
     else match State.all_contexts s' with
          | [] => "finish"
          | _ :: _ => "generate_answer"
          end)
  /\ fst (Nodes.should_continue s') <> "continue".
Proof.
  intros s'. subst s'.
  destruct (search_internet_run tools {| r_state := s; r_world := w |})
    as (r' & lookups & E & _ & _ & I & _ & _ & _ & N).
  rewrite E. simpl in *. unfold Nodes.should_continue. rewrite N, I. simpl.
  destruct (5 <=? State.iterations s); simpl; [by split |].
  destruct (State.all_contexts (r_state r')); simpl; by split.
Qed.

(** ** The generate step and the entry points *)

Lemma as_docs_map (ds : list Doc) : Agent.as_docs (map VDict ds) = Returned ds.
Proof. induction ds as [|d ds IH]; simpl; [reflexivity | by rewrite IH]. Qed.

Lemma docs_of_val (ds : list Doc) : Agent.docs_of (docs_val ds) = Returned ds.
Proof. apply as_docs_map. Qed.

Lemma truthy_docs_val (d : Doc) (ds : list Doc) : truthy (docs_val (d :: ds)) = true.
Proof. reflexivity. Qed.

Lemma truthy_no_docs : truthy (docs_val []) = false.
Proof. reflexivity. Qed.

(** Open the generate step up to its first test on the stored documents. *)
Ltac open_generate Hall :=
  let Hget := fresh "Hget" in
  pose proof Hall as Hget;
  apply (f_equal (default (VList []))) in Hget;
  change (default (VList []) (Some ?v)) with v in Hget;
  unfold Agent._generate_node, Agent._generate_fallback_answer;
  unfold_monad; cbn [r_state r_world id];
  change (default (VList []) (?state !! "all_results"))
    with (dict_get state "all_results" (VList [])) in Hget;
  rewrite Hget.

Section Generate.

Import Agent.

Variable env : Env.

(** The generate step on what the search step stored: it fails only when the
    source formatter does, and otherwise leaves the three answer keys. *)
Lemma generate_node_cases (state : gmap string PyVal) (w : World) (results : list Doc) :
  state !! "all_results" = Some (docs_val results) ->
  (exists r' answer sources structured_output,
      _generate_node env {| r_state := state; r_world := w |} = (Returned tt, r')
      /\ r_state r' !! "answer" = Some answer
      /\ r_state r' !! "sources" = Some sources
      /\ r_state r' !! "structured_output" = Some structured_output)
  \/ (exists e r',
        _generate_node env {| r_state := state; r_world := w |} = (Raised e, r')
        /\ results <> []
        /\ format_sources env results = Raised e).
Proof.
  intros Hall. open_generate Hall.
  destruct results as [|d ds].
  { left. rewrite truthy_no_docs. simpl. do 4 eexists. split; [reflexivity |]. simpl.
    by simplify_map_eq. }
  rewrite truthy_docs_val, docs_of_val. cbn [negb].
  destruct (format_sources env (d :: ds)) as [sources|e] eqn:Hfmt.
  2:{ right. do 2 eexists. split; [reflexivity |]. by split. }
  left. destruct (llm env) as [generate|].
  - destruct (state_query state) as [query|e]; simpl.
    + destruct (generate query (d :: ds)) as [parsed|e]; simpl;
        (do 4 eexists; split; [reflexivity |]; simpl; by simplify_map_eq).
    + do 4 eexists; split; [reflexivity |]; simpl; by simplify_map_eq.
  - simpl. do 4 eexists; split; [reflexivity |]; simpl; by simplify_map_eq.
Qed.

End Generate.

(** X17.  When the text generator raises in the generate step, the step ends
    in the same state, with the same outcome, as on a deployment with no
    generator at all; it calls no retriever and leaves the cache alone.  When
    the sources could be formatted the step returns, [sources] holds the
    formatted list, and the only trace of the failure is one
    LLM_GENERATION_ERROR entry in the log. *)
Theorem llm_failure_is_fallback (env : Env)
    (generate : string -> list Doc -> outcome ParsedResponse)
    (state : gmap string PyVal) (w : World) (query : string) (results : list Doc)
    (e : string)
    (Hllm : llm env = Some generate)
    (Hall : state !! "all_results" = Some (docs_val results))
    (Hquery : Agent.state_query state = Returned query)
    (Hfail : generate query results = Raised e) :
  let start := {| r_state := state; r_world := w |} in
  let with_llm := Agent._generate_node env start in
  let without := Agent._generate_node (without_llm env) start in
  fst with_llm = fst without
  /\ r_state (snd with_llm) = r_state (snd without)
  /\ w_calls (r_world (snd with_llm)) = w_calls w
  /\ b_cache (w_backend (r_world (snd with_llm))) = b_cache (w_backend w)
  /\ forall sources,
       results <> [] ->
       format_sources env results = Returned sources ->
       fst with_llm = Returned tt
       /\ r_state (snd with_llm) !! "sources" = Some (VList (map VDict sources))
       /\ b_log (w_backend (r_world (snd with_llm)))
          = b_log (w_backend w)
              ++ [{| ev_type := "LLM_GENERATION_ERROR";
                     ev_message := "LLM generation failed: " +:+ e;
                     ev_level := "error" |}].
Proof.
  intros start with_llm without. subst with_llm without start.
  open_generate Hall. cbn [llm without_llm format_sources]. rewrite Hllm.
  destruct results as [|d ds].
  { rewrite truthy_no_docs. simpl.
    repeat split; try reflexivity; congruence. }
  rewrite truthy_docs_val, docs_of_val. cbn [negb].
  destruct (format_sources env (d :: ds)) as [sources|e'] eqn:Hfmt.
  2:{ repeat split; try reflexivity; discriminate. }
  rewrite Hquery. simpl. rewrite Hfail. simpl.
  repeat split; try reflexivity.
  simplify_eq. by simplify_map_eq.
Qed.

Lemma llm_failure_is_fallback_witness :
  let state := <["all_results" := docs_val [sample_document]]>
                 (Agent.initial_state "What is AI?" None None) in
  let start := {| r_state := state; r_world := fresh_world |} in
  r_state (snd (Agent._generate_node failing_llm_env start))
  = r_state (snd (Agent._generate_node (without_llm failing_llm_env) start)).
Proof.
  intros state start.
  assert (Hall : state !! "all_results" = Some (docs_val [sample_document]))
    by (subst state; apply lookup_insert_eq).
  assert (Hquery : Agent.state_query state = Returned "What is AI?")
    by (vm_compute; reflexivity).
  destruct (llm_failure_is_fallback failing_llm_env (fun _ _ => Raised "quota exceeded")
              state fresh_world "What is AI?" [sample_document] "quota exceeded"
              eq_refl Hall Hquery eq_refl) as (_ & Hstate & _).
  exact Hstate.
Defined.

Section EntryPoints.

Import Agent Routes.

Variable env : Env.
Variable tools : Toolbox.

(** [process_query] with its outcome spelled out. *)
Lemma process_query_cases (query : string) (options context : option (gmap string PyVal))
    (w : World) :
  exists response,
    fst (process_query env tools query options context w) = Returned response
    /\ match response with
       | Success _ _ _ kept => kept = response_context context
       | Error code message =>
           code = "PROCESSING_ERROR"
           /\ exists docs e,
                docs <> []
                /\ format_sources env docs = Raised e
                /\ message = "Failed to process query: " +:+ e
       end.
Proof.
  unfold process_query, with_state, graph_invoke. unfold_monad.
  match goal with |- context [_search_node tools {| r_state := _; r_world := ?w1 |}] =>
    destruct (search_node_run tools (initial_state query options context) w1
                query (or_empty options) eq_refl eq_refl)
      as (gdocs & wdocs & b2 & b3 & Hrun & _ & _)
  end.
  rewrite Hrun. clear Hrun.
  match goal with |- context [_generate_node env {| r_state := ?st; r_world := ?w2 |}] =>
    destruct (generate_node_cases env st w2 (gdocs ++ wdocs))
      as [(r' & a & so & out & Hgen & Ha & Hso & Hout) | (e & r' & Hgen & Hne & Hfmt)];
      [by simplify_map_eq | |]; rewrite Hgen
  end.
  - unfold dict_item. cbn [r_state r_world fst snd]. rewrite Ha, Hso, Hout.
    eexists. split; [reflexivity |]. reflexivity.
  - eexists. split; [reflexivity |]. split; [reflexivity |]. eauto.
Qed.



End EntryPoints.

(** X18.  [process_query] never raises.  It answers with a success that
    carries the context exactly when the caller gave a non-empty one, or with
    an error whose code is PROCESSING_ERROR; the error arises only when the
    source formatter raises on a non-empty list of documents, never from a
    retriever or from the text generator. *)
Theorem process_query_outcome (env : Env) (tools : Toolbox) (query : string)
    (options context : option (gmap string PyVal)) (w : World) :
  exists response,
    fst (Agent.process_query env tools query options context w) = Returned response
    /\ match response with
       | Agent.Success _ _ _ kept => kept = Agent.response_context context
       | Agent.Error code message =>
           code = "PROCESSING_ERROR"
           /\ exists docs e,
                docs <> []
                /\ format_sources env docs = Raised e
                /\ message = "Failed to process query: " +:+ e
       end.
Proof. apply process_query_cases. Qed.


(** ** Authentication *)

Section AuthFacts.

Import Auth.

Variable config : Config.

Lemma compare_digest_ascii (a b : string) :
  is_ascii a = true -> is_ascii b = true ->
  compare_digest a b = Returned (String.eqb a b).
Proof. intros Ha Hb. unfold compare_digest. by rewrite Ha, Hb. Qed.

Lemma compare_digest_true (a b : string) :
  compare_digest a b = Returned true -> a = b.
Proof.
  unfold compare_digest. destruct (is_ascii a && is_ascii b); [| discriminate].
  intros [= H]. by apply String.eqb_eq.
Qed.

(** What [verify_auth] answers, by cases on the two comparisons. *)
Lemma verify_auth_cases (credentials : HTTPBasicCredentials) (b : Backend) :
  exists result event,
    verify_auth config credentials b
    = (Returned result,
       {| b_cache := b_cache b; b_disk := b_disk b; b_log := b_log b ++ [event] |})
    /\ match result with
       | Authenticated user =>
           user = username credentials
           /\ compare_digest (username credentials) (API_USERNAME config) = Returned true
           /\ compare_digest (password credentials) (API_PASSWORD config) = Returned true
       | HTTPException status _ _ =>
           (status = 401
            /\ exists u p,
                 compare_digest (username credentials) (API_USERNAME config) = Returned u
                 /\ compare_digest (password credentials) (API_PASSWORD config)
                    = Returned p
                 /\ u && p = false)
           \/ (status = 500
               /\ exists e,
                    compare_digest (username credentials) (API_USERNAME config) = Raised e
                    \/ compare_digest (password credentials) (API_PASSWORD config)
                       = Raised e)
       end.
Proof.
  unfold verify_auth. unfold_monad.
  destruct (compare_digest (username credentials) (API_USERNAME config)) as [u|e] eqn:Hu.
  - destruct (compare_digest (password credentials) (API_PASSWORD config))
      as [p|e] eqn:Hp.
    + destruct u, p; simpl; do 2 eexists; (split; [reflexivity |]); simpl; eauto 10.
    + simpl. do 2 eexists. split; [reflexivity |]. simpl. eauto 10.
  - simpl. do 2 eexists. split; [reflexivity |]. simpl. eauto 10.
Qed.

End AuthFacts.

(** X20.  With an ASCII-only configured account, [verify_auth] never raises
    and logs exactly one event: it returns the configured user name when both
    credentials equal the configured ones, answers 401 AUTH_FAILED when they
    are ASCII-only and differ, and answers 500 AUTH_SYSTEM_ERROR, not 401,
    when either holds a non-ASCII character, since both comparisons are made
    before the test.  [optional_auth] turns every such answer into [None] and
    changes nothing else. *)
Theorem verify_auth_outcome (config : Auth.Config)
    (credentials : Auth.HTTPBasicCredentials) (b : Backend)
    (Huser : Auth.is_ascii (Auth.API_USERNAME config) = true)
    (Hpass : Auth.is_ascii (Auth.API_PASSWORD config) = true) :
  let matching :=
    String.eqb (Auth.username credentials) (Auth.API_USERNAME config)
    && String.eqb (Auth.password credentials) (Auth.API_PASSWORD config) in
  let plain :=
    Auth.is_ascii (Auth.username credentials)
    && Auth.is_ascii (Auth.password credentials) in
  fst (Auth.verify_auth config credentials b)
  = Returned
      (if plain
       then if matching
            then Auth.Authenticated (Auth.API_USERNAME config)
            else Auth.HTTPException 401 "AUTH_FAILED" "Invalid credentials provided."
       else Auth.HTTPException 500 "AUTH_SYSTEM_ERROR"
              "Authentication system error occurred.")
  /\ fst (Auth.optional_auth config credentials b)
     = Returned (if plain && matching then Some (Auth.API_USERNAME config) else None)
  /\ (exists event,
        snd (Auth.verify_auth config credentials b)
        = {| b_cache := b_cache b; b_disk := b_disk b; b_log := b_log b ++ [event] |})
  /\ snd (Auth.optional_auth config credentials b)
     = snd (Auth.verify_auth config credentials b).
Proof.
  intros matching plain.
  assert (Hrun : fst (Auth.verify_auth config credentials b)
    = Returned
        (if plain
         then if matching
              then Auth.Authenticated (Auth.API_USERNAME config)
              else Auth.HTTPException 401 "AUTH_FAILED" "Invalid credentials provided."
         else Auth.HTTPException 500 "AUTH_SYSTEM_ERROR"
                "Authentication system error occurred.")).
  { subst matching plain. unfold Auth.verify_auth, Auth.compare_digest. unfold_monad.
    rewrite Huser, Hpass, !andb_true_r.
    destruct (Auth.is_ascii (Auth.username credentials)); simpl; [| reflexivity].
    destruct (Auth.is_ascii (Auth.password credentials)); simpl; [| reflexivity].
    destruct (String.eqb_spec (Auth.username credentials) (Auth.API_USERNAME config))
      as [->|]; simpl; [| reflexivity].
    destruct (String.eqb (Auth.password credentials) (Auth.API_PASSWORD config));
      reflexivity. }
  destruct (verify_auth_cases config credentials b) as (result & event & Hcase & _).
  split; [exact Hrun |]. rewrite Hcase in Hrun. simpl in Hrun.
  injection Hrun as Hresult.
  unfold Auth.optional_auth. unfold mbind, M_bind. rewrite Hcase. simpl.
  split; [| split; [eauto | ]].
  - subst result. destruct plain, matching; reflexivity.
  - destruct result; reflexivity.
Qed.

Lemma verify_auth_outcome_witness :
  fst (Auth.verify_auth Auth.default_config
         {| Auth.username := "agent"; Auth.password := "guess" |} fresh_backend)
  = Returned (Auth.HTTPException 401 "AUTH_FAILED" "Invalid credentials provided.").
Proof.
  destruct (verify_auth_outcome Auth.default_config
              {| Auth.username := "agent"; Auth.password := "guess" |} fresh_backend
              eq_refl eq_refl) as [Hrun _].
  exact Hrun.
Defined.

(** X21.  [verify_auth] can only return the configured user name, so unless
    that name is "admin" the [admin_only] check lets no request through:
    every answer is an exception with status 401, 403 or 500, correct
    credentials included.  [any_authenticated_user] adds nothing to
    [verify_auth]: results and log are the same. *)
Theorem admin_only_needs_admin_account (config : Auth.Config)
    (credentials : Auth.HTTPBasicCredentials) (b : Backend)
    (Hname : Auth.API_USERNAME config <> "admin") :
  (exists status code message,
     fst (Auth.admin_only config credentials b)
     = Returned (Auth.HTTPException status code message)
     /\ (status = 401 \/ status = 403 \/ status = 500))
  /\ Auth.any_authenticated_user config credentials b
     = Auth.verify_auth config credentials b.
Proof.
  unfold Auth.admin_only, Auth.any_authenticated_user, Auth.checked.
  unfold mbind, M_bind.
  destruct (verify_auth_cases config credentials b) as (result & event & Hcase & Hres).
  rewrite Hcase. destruct result as [user | status code message].
  - destruct Hres as (-> & Hu%compare_digest_true & _).
    unfold Auth.RoleChecker. simpl existsb. cbn [orb andb].
    destruct (String.eqb_spec (Auth.username credentials) "admin") as [Hadmin|_].
    { congruence. }
    unfold_monad. simpl. split; [| reflexivity]. eauto 10.
  - simpl. split; [| reflexivity].
    destruct Hres as [[-> _] | [-> _]]; eauto 10.
Qed.

Lemma admin_only_needs_admin_account_witness :
  exists status code message,
    fst (Auth.admin_only Auth.default_config
           {| Auth.username := "agent"; Auth.password := "secret" |} fresh_backend)
    = Returned (Auth.HTTPException status code message)
    /\ (status = 401 \/ status = 403 \/ status = 500).
Proof.
  assert (Hname : Auth.API_USERNAME Auth.default_config <> "admin") by discriminate.
  destruct (admin_only_needs_admin_account Auth.default_config
              {| Auth.username := "agent"; Auth.password := "secret" |} fresh_backend
              Hname) as [Hrun _].
  exact Hrun.
Defined.

(** X22.  On a state holding a string query and a dict of options,
    [_search_node] returns whatever the retrievers do.  It stores under
    [all_results] the graph documents followed by the web documents, a source
    that is switched off or raises giving none, and under [total_sources]
    their number; every other key of the state is left as it was. *)
Theorem search_node_collects (tools : Toolbox) (state : gmap string PyVal) (w : World)
    (query : string) (options : gmap string PyVal)
    (Hquery : Agent.state_query state = Returned query)
    (Hoptions : Agent.state_options state = Returned options) :
  let result := Agent._search_node tools {| r_state := state; r_world := w |} in
  let state' := r_state (snd result) in
  let limit := dict_get options "max_results" (VInt 3) in
  exists (graph_docs web_docs : list Doc) (b1 b2 : Backend),
    fst result = Returned tt
    /\ state' !! "all_results" = Some (docs_val (graph_docs ++ web_docs))
    /\ state' !! "total_sources"
       = Some (VInt (Z.of_nat (length graph_docs + length web_docs)))
    /\ (forall key, key <> "all_results" -> key <> "total_sources" ->
          state' !! key = state !! key)
    /\ graph_docs
       = (if truthy (dict_get options "use_graph" (VBool true))
          then match fst (graph_search tools query limit b1) with
               | Returned docs => docs
               | Raised _ => []
               end
          else [])
    /\ web_docs
       = (if truthy (dict_get options "use_internet" (VBool true))
          then match fst (web_search tools query limit b2) with
               | Returned docs => docs
               | Raised _ => []
               end
          else []).
Proof.
  intros result state' limit. subst result state' limit.
  destruct (search_node_run tools state w query options Hquery Hoptions)
    as (gdocs & wdocs & b2 & b3 & Hrun & Hg & Hw).
  exists gdocs, wdocs,
    (logged "SEARCH_NODE" ("Searching for: " +:+ query) "info" (w_backend w)), b2.
  rewrite Hrun. cbn [fst snd r_state].
  split; [reflexivity |]. split; [by simplify_map_eq |].
  split; [rewrite length_app, Nat2Z.inj_add, <- Nat2Z.inj_add; by simplify_map_eq |].
  split; [| split; assumption].
  intros key Hall Htotal. by rewrite !lookup_insert_ne.
Qed.

Lemma search_node_collects_witness :
  let state := Agent.initial_state "What is AI?" None None in
  exists docs,
    r_state (snd (Agent._search_node (repo_tools offline_env)
                    {| r_state := state; r_world := fresh_world |}))
    !! "all_results" = Some (docs_val docs).
Proof.
  intros state.
  destruct (search_node_collects (repo_tools offline_env) state fresh_world
              "What is AI?" ∅ eq_refl eq_refl)
    as (gdocs & wdocs & _ & _ & _ & Hall & _).
  exists (gdocs ++ wdocs). exact Hall.
Defined.
